(** * SENTINEL anti-cheat: baseline engine, detectors and dispatch pipeline

    A shallow embedding of [sentinel-baseline.ts], [sentinel-core.ts] and the
    five detector modules, with the properties of the engine stated over it.

    Conventions of the embedding.
    - A JavaScript [number] that carries a measurement, a statistic, a score,
      a confidence or a threshold is an IEEE 754 binary64 value, Rocq's
      primitive [float]; the operators are the kernel's ([+], [-], [*], [/],
      [sqrt], [abs], [<?], [<=?]), which round as JavaScript does.
    - A [number] that counts (array lengths, [maxSamples], [baselineSamples],
      [minSamplesForBaseline]) or is a millisecond timestamp
      ([Date.now()], [correlationWindowMs]) is a [Z]; [_pipelineToken] is a
      [Z] tested with [Z.land].
    - A [Map<string, _>] is a [gmap string _].
    - Module-level mutable state ([_pipelineToken], [playerBaselines]) and the
      two ambient effects the code uses (the wall clock [Date.now()], the
      error console) are fields of [World], threaded explicitly.
    - A field guarded by [!== undefined] is an [option].
    - A detector holds a reference to the baseline object stored in
      [playerBaselines] and writes through it; the model threads the value
      of that object and stores it back under the player's key before the
      detector returns ([commit]).
    - The text of a flag is kept as its template and the numbers put into
      it; rendering numbers as text is not modelled.
    - [processTelemetry] is an [async] function awaited call after call; its
      only suspension point is the observer, modelled as a function on the
      state that may throw.
    [shannonEntropy], which nothing in the engine or the detectors calls
    and which needs a base-2 logarithm, is left out. *)

From Stdlib Require Import ZArith List Bool Lia.
From Stdlib Require Import Uint63 PrimFloat.
From Stdlib Require SpecFloat FloatOps FloatAxioms.
From stdpp Require Import gmap strings list.

Set Warnings "-inexact-float,-clear-no-such-hyp".
Local Open Scope Z_scope.

(** ** JavaScript numbers *)

Module JS.

(** [a < b], [a > b], [a >= b]: false as soon as one side is NaN. *)
Definition lt (a b : float) : bool := PrimFloat.ltb a b.
Definition gt (a b : float) : bool := PrimFloat.ltb b a.
Definition ge (a b : float) : bool := PrimFloat.leb b a.
Definition le (a b : float) : bool := PrimFloat.leb a b.

(** An array length (or another small count) used as a number. *)
Definition of_Z (z : Z) : float := PrimFloat.of_uint63 (Uint63.of_Z z).
Definition of_nat (n : nat) : float := of_Z (Z.of_nat n).

Definition Math_abs (x : float) : float := PrimFloat.abs x.
Definition Math_sqrt (x : float) : float := PrimFloat.sqrt x.

(** [Math.min(a, b)]: NaN when an argument is NaN, and -0 below +0. *)
Definition Math_min (a b : float) : float :=
  if PrimFloat.is_nan a then a
  else if PrimFloat.is_nan b then b
  else if PrimFloat.ltb a b then a
  else if PrimFloat.ltb b a then b
  else if PrimFloat.get_sign a then a else b.

(** [x ** 2], the product of [x] with itself. *)
Definition sq (x : float) : float := PrimFloat.mul x x.

End JS.

(** ** sentinel-types.ts *)

Inductive TelemetryEventType :=
  | aim_data | input_data | packet_data | stats_data | behavior_data.

Definition TelemetryEventType_eqb (a b : TelemetryEventType) : bool :=
  match a, b with
  | aim_data, aim_data | input_data, input_data | packet_data, packet_data
  | stats_data, stats_data | behavior_data, behavior_data => true
  | _, _ => false
  end.

(** The payload fields the detectors read; each may be absent. *)
Record AimTelemetry := mkAim {
  snapAngle : option float;
  trackingSmoothness : option float;
  headshotPct : option float;
  timeToTarget : option float;
  aimLockDuration : option float;
  targetSwitchSpeed : option float }.

Record InputTelemetry := mkInput {
  inputEntropy : option float;
  timingVariance : option float;
  recoilPattern : option float;
  microAdjustments : option float;
  inputFrequency : option float;
  patternRepetition : option float }.

Record PacketTelemetry := mkPacket {
  packetRate : option float;
  burstCount : option float;
  avgPacketSize : option float;
  outOfOrder : option float;
  duplicateRate : option float;
  suspiciousPayloads : option float }.

Record StatsTelemetry := mkStats {
  kdRatio : option float;
  winRate : option float;
  accuracyZScore : option float;
  headshotZScore : option float;
  spreeFrequency : option float;
  deathlessStreak : option float;
  matchesAnalyzed : option float }.

Record BehaviorTelemetry := mkBehavior {
  reactionTime : option float;
  movementEntropy : option float;
  preFiringRate : option float;
  wallTrackEvents : option float;
  spawnPrediction : option float;
  cameraBehavior : option float }.

Inductive TelemetryData :=
  | AimData (d : AimTelemetry)
  | InputData (d : InputTelemetry)
  | PacketData (d : PacketTelemetry)
  | StatsData (d : StatsTelemetry)
  | BehaviorData (d : BehaviorTelemetry).

Record TelemetryEvent := mkEvent {
  playerId : string;
  sessionId : string;
  lobbyId : string;
  matchId : string;
  timestamp : Z;
  eventType : TelemetryEventType;
  data : TelemetryData }.

(** [event.data as AimTelemetry] and its siblings: an unchecked cast, after
    which a field the object does not have reads as [undefined].  No field
    name is shared between two payload types. *)
Definition asAim (d : TelemetryData) : AimTelemetry :=
  match d with AimData a => a | _ => mkAim None None None None None None end.
Definition asInput (d : TelemetryData) : InputTelemetry :=
  match d with InputData a => a | _ => mkInput None None None None None None end.
Definition asPacket (d : TelemetryData) : PacketTelemetry :=
  match d with PacketData a => a | _ => mkPacket None None None None None None end.
Definition asStats (d : TelemetryData) : StatsTelemetry :=
  match d with StatsData a => a | _ => mkStats None None None None None None None end.
Definition asBehavior (d : TelemetryData) : BehaviorTelemetry :=
  match d with BehaviorData a => a | _ => mkBehavior None None None None None None end.

Inductive CheatType :=
  | aimbot | aim_assist_abuse | cronus_zen | macro_script
  | network_manipulation | packet_injection | statistical_impossibility
  | wallhack_esp | suspicious_behavior.

Inductive ActionType :=
  | flag | shadow_ban | temporary_ban | permanent_ban | hardware_ban.

Inductive Severity := critical | high | medium | low.

Record RollingSamples := mkRolling {
  values : list float;
  maxSamples : Z;
  mean : float;
  stddev : float }.

Record TimestampedDetection := mkTD {
  td_module : string;
  td_confidence : float;
  td_timestamp : Z }.

Record PlayerBaseline := mkBaseline {
  bl_playerId : string;
  createdAt : Z;
  eventCount : Z;
  metrics : gmap string RollingSamples;
  recentDetections : list TimestampedDetection }.

Record SentinelConfig := mkConfig {
  correlationWindowMs : Z;
  baselineSamples : Z;
  deviationThreshold : float;
  minSamplesForBaseline : Z;
  autobanConfidence : float;
  shadowbanConfidence : float;
  flagConfidence : float }.

(** ** sentinel-baseline.ts *)

Definition DEFAULT_CONFIG : SentinelConfig := {|
  correlationWindowMs := 60000;
  baselineSamples := 50;
  deviationThreshold := 2.5%float;
  minSamplesForBaseline := 5;
  autobanConfidence := 0.85%float;
  shadowbanConfidence := 0.65%float;
  flagConfidence := 0.40%float |}.

(** A parameter [config: SentinelConfig = DEFAULT_CONFIG]. *)
Definition orDefault (config : option SentinelConfig) : SentinelConfig :=
  match config with Some c => c | None => DEFAULT_CONFIG end.

(** The module-level state and the ambient effects.  [clock] is the
    sequence of values the successive calls of [Date.now()] return, and
    [ticks] counts the calls made so far. *)
Record World := mkWorld {
  pipelineToken : Z;
  playerBaselines : gmap string PlayerBaseline;
  clock : nat -> Z;
  ticks : nat;
  console : list string }.

Definition Date_now (w : World) : Z * World :=
  (clock w (ticks w),
   mkWorld (pipelineToken w) (playerBaselines w) (clock w) (S (ticks w)) (console w)).

Definition setBaselines (m : gmap string PlayerBaseline) (w : World) : World :=
  mkWorld (pipelineToken w) m (clock w) (ticks w) (console w).

Definition console_error (line : string) (w : World) : World :=
  mkWorld (pipelineToken w) (playerBaselines w) (clock w) (ticks w) (console w ++ [line]).

(** [_pipelineToken & 0x1] as a truth value. *)
Definition pipelineReady (token : Z) : bool := negb (Z.land token 1 =? 0).

Definition getPipelineState (w : World) : Z := pipelineToken w.

Definition calculateMean (vs : list float) : float :=
  if (length vs =? 0)%nat then 0%float
  else (fold_left (fun sum v => sum + v) vs 0 / JS.of_nat (length vs))%float.

Definition calculateStdDev (vs : list float) : float :=
  if (length vs <? 3)%nat then 0%float
  else
    let mean := calculateMean vs in
    let squaredDiffs := fold_left (fun sum v => (sum + JS.sq (v - mean))%float) vs 0%float in
    JS.Math_sqrt (squaredDiffs / JS.of_nat (length vs - 1))%float.

(** [getOrCreateBaseline] returns a reference to the object stored in
    [playerBaselines]; here it returns the object's value, already stored
    under [playerId], and the callers store their later writes back under
    the same key (see [commit]). *)
Definition getOrCreateBaseline (playerId : string) (config : option SentinelConfig)
    (w : World) : PlayerBaseline * World :=
  let config := orDefault config in
  let '(baseline, w) :=
    match playerBaselines w !! playerId with
    | Some baseline => (baseline, w)
    | None =>
        let '(now, w) := Date_now w in
        let baseline := mkBaseline playerId now 0 ∅ [] in
        (baseline, setBaselines (<[playerId := baseline]> (playerBaselines w)) w)
    end in
  (* Prune expired detections from correlation window *)
  let '(now, w) := Date_now w in
  let cutoff := now - correlationWindowMs config in
  let baseline :=
    mkBaseline (bl_playerId baseline) (createdAt baseline) (eventCount baseline)
      (metrics baseline)
      (List.filter (fun d => td_timestamp d >? cutoff) (recentDetections baseline)) in
  (baseline, setBaselines (<[playerId := baseline]> (playerBaselines w)) w).

(** A write through the baseline reference held by a detector. *)
Definition commit (playerId : string) (baseline : PlayerBaseline) (w : World) : World :=
  setBaselines (<[playerId := baseline]> (playerBaselines w)) w.

Definition setMetric (baseline : PlayerBaseline) (metricName : string)
    (profile : RollingSamples) : PlayerBaseline :=
  mkBaseline (bl_playerId baseline) (createdAt baseline) (eventCount baseline)
    (<[metricName := profile]> (metrics baseline)) (recentDetections baseline).

Definition getMetricProfile (baseline : PlayerBaseline) (metricName : string)
    (config : option SentinelConfig) : RollingSamples * PlayerBaseline :=
  let config := orDefault config in
  match metrics baseline !! metricName with
  | Some profile => (profile, baseline)
  | None =>
      let profile := mkRolling [] (baselineSamples config) 0%float 0%float in
      (profile, setMetric baseline metricName profile)
  end.

(** [pushSample] mutates [profile] in place; the model returns the profile
    after the call. *)
Definition pushSample (profile : RollingSamples) (value : float) : RollingSamples :=
  let vs := values profile ++ [value] in
  let vs := if Z.of_nat (length vs) >? maxSamples profile then tail vs else vs in
  (* Recalculate running statistics *)
  mkRolling vs (maxSamples profile) (calculateMean vs) (calculateStdDev vs).

Record Deviation := mkDeviation { deviates : bool; zScore : float }.

Definition deviatesFromBaseline (value : float) (profile : RollingSamples)
    (config : option SentinelConfig) (w : World) : Deviation :=
  let config := orDefault config in
  (* Pipeline integrity gate *)
  if negb (pipelineReady (pipelineToken w)) then mkDeviation false 0%float
  else if Z.of_nat (length (values profile)) <? minSamplesForBaseline config then
    mkDeviation false 0%float
  else if JS.lt (stddev profile) 0.001%float then
    mkDeviation (JS.gt (JS.Math_abs (value - mean profile)%float) 0.001%float) 0%float
  else
    let zScore := ((value - mean profile) / stddev profile)%float in
    mkDeviation (JS.gt (JS.Math_abs zScore) (deviationThreshold config)) zScore.

Definition resolveAction (confidence : float) (config : option SentinelConfig)
    (w : World) : ActionType :=
  let config := orDefault config in
  if negb (pipelineReady (pipelineToken w)) then flag
  else if JS.ge confidence (autobanConfidence config) then permanent_ban
  else if JS.ge confidence (shadowbanConfidence config) then shadow_ban
  else if JS.ge confidence (flagConfidence config) then flag
  else flag.

Definition recordDetection (baseline : PlayerBaseline) (module : string)
    (confidence : float) (w : World) : PlayerBaseline * World :=
  let '(now, w) := Date_now w in
  let rd := recentDetections baseline ++ [mkTD module confidence now] in
  (* Keep bounded *)
  let rd := if (Z.of_nat (length rd) >? 50) then tail rd else rd in
  (mkBaseline (bl_playerId baseline) (createdAt baseline) (eventCount baseline)
     (metrics baseline) rd, w).

(** [[...new Set(xs)]]: the distinct elements, each at its first occurrence. *)
Fixpoint uniqueFrom (seen xs : list string) : list string :=
  match xs with
  | [] => []
  | x :: xs' =>
      if bool_decide (x ∈ seen) then uniqueFrom seen xs'
      else x :: uniqueFrom (x :: seen) xs'
  end.

Definition unique (xs : list string) : list string := uniqueFrom [] xs.

Record Correlation := mkCorrelation { bonus : float; correlatedModules : list string }.

Definition calculateCrossSignalBonus (baseline : PlayerBaseline) : Correlation :=
  let recent := recentDetections baseline in
  if (length recent <? 2)%nat then mkCorrelation 0%float []
  else
    let uniqueModules := unique (map td_module recent) in
    if (3 <=? length uniqueModules)%nat then mkCorrelation 15%float uniqueModules
    else if (2 <=? length uniqueModules)%nat then mkCorrelation 8%float uniqueModules
    else mkCorrelation 0%float [].

Definition calculateRiskEscalation (baseline : PlayerBaseline) (baseConfidence : float)
    : float :=
  let recentCount := length (recentDetections baseline) in
  let escalation :=
    if (5 <? recentCount)%nat then 1.5%float
    else if (3 <? recentCount)%nat then 1.2%float else 1.0%float in
  JS.Math_min (baseConfidence * 25 * escalation)%float 100%float.

(** ** Detection results (sentinel-types.ts) *)

(** A flag is a template literal of the source together with the numbers
    interpolated into it ([{0}], [{1}] in the text, in order), or the
    cross-signal message with the module names it joins.  Rendering numbers
    as text ([toFixed], [join]) is not modelled. *)
Inductive Flag :=
  | Msg (template : string) (args : list float)
  | CrossSignal (modules : list string).

Record DetectionEvidence := mkEvidence {
  ev_metrics : list (string * option float);
  flags : list Flag;
  ev_baselineSamples : nat;
  baselineDeviations : list (string * float);
  crossSignalCorrelation : list string }.

Record DetectionResult := mkResult {
  detected : bool;
  module : string;
  cheatType : CheatType;
  severity : Severity;
  confidence : float;
  evidence : DetectionEvidence;
  (** the fixed text of the module's description, and the flags it counts
      and joins *)
  description : string * list Flag;
  recommendedAction : ActionType }.

(** The running [flags] and [score] of a detector, with the baseline object
    it holds a reference to. *)
Record Tally := mkTally {
  t_baseline : PlayerBaseline;
  t_flags : list Flag;
  t_score : float }.

(** [flags.push(msg); score += weight]. *)
Definition hit (msg : Flag) (weight : float) (t : Tally) : Tally :=
  mkTally (t_baseline t) (t_flags t ++ [msg]) (t_score t + weight)%float.

(** [const p = getMetricProfile(baseline, name, config); pushSample(p, v)]:
    the profile pushed to is the one stored in [baseline.metrics]. *)
Definition pushMetric (metricName : string) (v : float)
    (config : option SentinelConfig) (t : Tally) : RollingSamples * Tally :=
  let '(profile, baseline) := getMetricProfile (t_baseline t) metricName config in
  let profile := pushSample profile v in
  (profile, mkTally (setMetric baseline metricName profile) (t_flags t) (t_score t)).

(** [x !== undefined && x > limit] and [x !== undefined && x < limit]. *)
Definition definedGt (x : option float) (limit : float) : bool :=
  match x with Some v => JS.gt v limit | None => false end.
Definition definedLt (x : option float) (limit : float) : bool :=
  match x with Some v => JS.lt v limit | None => false end.

(** The value of a field known to be defined; [data.f > c] on an absent
    field compares [undefined], that is NaN. *)
Definition num (x : option float) : float :=
  match x with Some v => v | None => PrimFloat.nan end.

(** The cross-signal block every detector ends its checks with. *)
Definition crossSignal (t : Tally) : Correlation * Tally :=
  let correlation := calculateCrossSignalBonus (t_baseline t) in
  if JS.gt (bonus correlation) 0 then
    (correlation,
     mkTally (t_baseline t) (t_flags t ++ [CrossSignal (correlatedModules correlation)])
       (t_score t + bonus correlation)%float)
  else (correlation, t).

(** [score >= 80 ? "critical" : score >= 60 ? "high" : "medium"]. *)
Definition severityOf (score : float) : Severity :=
  if JS.ge score 80 then critical else if JS.ge score 60 then high else medium.

(** [getMetricProfile(baseline, name, config).values.length], with the
    profile it may create. *)
Definition profileLength (baseline : PlayerBaseline) (metricName : string)
    (config : option SentinelConfig) : nat * PlayerBaseline :=
  let '(profile, baseline) := getMetricProfile baseline metricName config in
  (length (values profile), baseline).

(** ** sentinel-aim.ts: aim trajectory validator *)

Module Aim.

Definition HUMAN_MAX_SNAP_ANGLE : float := 120.
Definition HUMAN_MIN_REACTION_MS : float := 80.
Definition INHUMAN_TRACKING : float := 0.95.
Definition INHUMAN_SWITCH_MS : float := 50.
Definition AIM_LOCK_SUSPECT_MS : float := 2000.
Definition SCORE_THRESHOLD : float := 40.

(** CHECK 1: snap angle *)
Definition check1 (data : AimTelemetry) (config : option SentinelConfig)
    (w : World) (t : Tally) : Tally :=
  match snapAngle data with
  | Some v =>
      let '(snapProfile, t) := pushMetric "aim.snapAngle" v config t in
      let dev := deviatesFromBaseline v snapProfile config w in
      if JS.gt v HUMAN_MAX_SNAP_ANGLE then
        hit (Msg "Snap angle {0} deg exceeds human biomechanical limit (120 deg). Aimbot signature detected."
               [v]) 30 t
      else if deviates dev && JS.gt (zScore dev) 2.0 && JS.gt v 60 then
        hit (Msg "Snap angle {0} deg deviates from this player's baseline (z={1}). Possible toggled aimbot."
               [v; zScore dev]) 15 t
      else t
  | None => t
  end.

(** CHECK 2: tracking smoothness *)
Definition check2 (data : AimTelemetry) (config : option SentinelConfig)
    (w : World) (t : Tally) : Tally :=
  match trackingSmoothness data with
  | Some v =>
      let '(trackProfile, t) := pushMetric "aim.trackingSmoothness" v config t in
      let dev := deviatesFromBaseline v trackProfile config w in
      if JS.gt v INHUMAN_TRACKING then
        hit (Msg "Tracking smoothness {0}% exceeds human capability (>{1}%). CV aimbot signature."
               [v * 100; INHUMAN_TRACKING * 100]%float) 25 t
      else if deviates dev && JS.gt (zScore dev) 2.0 && JS.gt v 0.8 then
        hit (Msg "Tracking smoothness spiked to {0}% from baseline (z={1}). Intermittent assist detected."
               [(v * 100)%float; zScore dev]) 12 t
      else t
  | None => t
  end.

(** CHECK 3: headshot rate *)
Definition check3 (data : AimTelemetry) (t : Tally) : Tally :=
  if definedGt (headshotPct data) 65 then
    hit (Msg "Headshot rate {0}% exceeds 99.9th percentile (>65%). Even professional players average 25-40%."
           [num (headshotPct data)]) 20 t
  else t.

(** CHECK 4: time-to-target *)
Definition check4 (data : AimTelemetry) (t : Tally) : Tally :=
  if definedLt (timeToTarget data) HUMAN_MIN_REACTION_MS then
    hit (Msg "Time-to-target {0}ms is below human neural transmission minimum (80ms). Hardware-assisted targeting."
           [num (timeToTarget data)]) 25 t
  else t.

(** CHECK 5: aim lock duration *)
Definition check5 (data : AimTelemetry) (t : Tally) : Tally :=
  if definedGt (aimLockDuration data) AIM_LOCK_SUSPECT_MS then
    hit (Msg "Aim locked on target for {0}ms. Humans cannot maintain perfect lock beyond 2000ms during movement."
           [num (aimLockDuration data)]) 15 t
  else t.

(** CHECK 6: target switch speed *)
Definition check6 (data : AimTelemetry) (t : Tally) : Tally :=
  if definedLt (targetSwitchSpeed data) INHUMAN_SWITCH_MS then
    hit (Msg "Target switch in {0}ms. Human minimum is ~50ms due to visual processing and motor response latency."
           [num (targetSwitchSpeed data)]) 20 t
  else t.

(** The six checks and the cross-signal bonus, in source order. *)
Definition tally (data : AimTelemetry) (config : option SentinelConfig)
    (w : World) (baseline : PlayerBaseline) : Correlation * Tally :=
  let t := mkTally baseline [] 0 in
  let t := check1 data config w t in
  let t := check2 data config w t in
  let t := check3 data t in
  let t := check4 data t in
  let t := check5 data t in
  let t := check6 data t in
  crossSignal t.

Definition analyzeAim (event : TelemetryEvent) (config : option SentinelConfig)
    (w : World) : option DetectionResult * World :=
  if negb (TelemetryEventType_eqb (eventType event) aim_data) then (None, w)
  else
    let data := asAim (data event) in
    let '(baseline, w) := getOrCreateBaseline (playerId event) config w in
    let '(correlation, t) := tally data config w baseline in
    let flags := t_flags t in
    let score := t_score t in
    if JS.lt score SCORE_THRESHOLD then
      (None, commit (playerId event) (t_baseline t) w)
    else
      let confidence := JS.Math_min (score / 100) 0.99 in
      let '(baseline, w) := recordDetection (t_baseline t) "AimAnalysis" confidence w in
      let '(samples, baseline) := profileLength baseline "aim.snapAngle" config in
      let w := commit (playerId event) baseline w in
      (Some {|
         detected := true;
         module := "AimAnalysis";
         cheatType := if JS.ge score 80 then aimbot else aim_assist_abuse;
         severity := severityOf score;
         confidence := confidence;
         evidence := {|
           ev_metrics := [("snapAngle", snapAngle data);
                          ("trackingSmoothness", trackingSmoothness data);
                          ("headshotPct", headshotPct data);
                          ("timeToTarget", timeToTarget data)];
           flags := flags;
           ev_baselineSamples := samples;
           baselineDeviations := [];
           crossSignalCorrelation := correlatedModules correlation |};
         description := ("Aim analysis flagged {n} anomalies: ", flags);
         recommendedAction := resolveAction confidence config w |}, w).

End Aim.

(** ** sentinel-input.ts: script device detector *)

Module Input.

Definition NORMALIZED_ENTROPY_FLOOR : float := 0.3.
Definition HUMAN_MIN_TIMING_VARIANCE : float := 0.5.
Definition SCRIPT_RECOIL_THRESHOLD : float := 0.92.
Definition HUMAN_MAX_MICRO_ADJ : float := 200.
Definition HUMAN_MAX_INPUT_FREQ : float := 1000.
Definition AUTOMATION_REPETITION : float := 0.85.
Definition SCORE_THRESHOLD : float := 40.

(** CHECK 1: normalized input entropy *)
Definition check1 (data : InputTelemetry) (config : option SentinelConfig)
    (w : World) (t : Tally) : Tally :=
  match inputEntropy data with
  | Some v =>
      let '(entropyProfile, t) := pushMetric "input.entropy" v config t in
      let dev := deviatesFromBaseline v entropyProfile config w in
      if JS.lt v NORMALIZED_ENTROPY_FLOOR then
        hit (Msg "Normalized input entropy {0} is far below human minimum (0.3). Script device confirmed."
               [v]) 30 t
      else if deviates dev && JS.lt (zScore dev) (-2.0) then
        hit (Msg "Input entropy dropped to {0} bits from player's baseline (z={1}). Possible script activation."
               [v; zScore dev]) 15 t
      else t
  | None => t
  end.

(** CHECK 2: inter-input timing variance *)
Definition check2 (data : InputTelemetry) (config : option SentinelConfig)
    (t : Tally) : Tally :=
  match timingVariance data with
  | Some v =>
      let '(timingProfile, t) := pushMetric "input.timingVariance" v config t in
      if JS.lt v HUMAN_MIN_TIMING_VARIANCE then
        hit (Msg "Input timing variance {0}ms indicates mechanical input. Human minimum is 0.5ms. Script device timing fingerprint."
               [v]) 25 t
      else t
  | None => t
  end.

(** CHECK 3: recoil compensation pattern *)
Definition check3 (data : InputTelemetry) (t : Tally) : Tally :=
  if definedGt (recoilPattern data) SCRIPT_RECOIL_THRESHOLD then
    hit (Msg "Recoil compensation {0}% matches script pattern (threshold: {1}%). Perfect frame-level compensation is biomechanically impossible."
           [num (recoilPattern data) * 100; SCRIPT_RECOIL_THRESHOLD * 100]%float) 30 t
  else t.

(** CHECK 4: micro-adjustment frequency *)
Definition check4 (data : InputTelemetry) (t : Tally) : Tally :=
  if definedGt (microAdjustments data) HUMAN_MAX_MICRO_ADJ then
    hit (Msg "{0} micro-adjustments/sec exceeds human motor control limit (200/s). Aim assist exploitation."
           [num (microAdjustments data)]) 20 t
  else t.

(** CHECK 5: input polling frequency *)
Definition check5 (data : InputTelemetry) (t : Tally) : Tally :=
  if definedGt (inputFrequency data) HUMAN_MAX_INPUT_FREQ then
    hit (Msg "Input frequency {0}Hz exceeds standard USB polling rates. Abnormal device behavior detected."
           [num (inputFrequency data)]) 15 t
  else t.

(** CHECK 6: input pattern repetition *)
Definition check6 (data : InputTelemetry) (t : Tally) : Tally :=
  if definedGt (patternRepetition data) AUTOMATION_REPETITION then
    hit (Msg "Input pattern repetition {0}% indicates automation. Human inputs never repeat above {1}% over 30-second windows."
           [num (patternRepetition data) * 100; AUTOMATION_REPETITION * 100]%float) 25 t
  else t.

Definition tally (data : InputTelemetry) (config : option SentinelConfig)
    (w : World) (baseline : PlayerBaseline) : Correlation * Tally :=
  let t := mkTally baseline [] 0 in
  let t := check1 data config w t in
  let t := check2 data config t in
  let t := check3 data t in
  let t := check4 data t in
  let t := check5 data t in
  let t := check6 data t in
  crossSignal t.

Definition analyzeInput (event : TelemetryEvent) (config : option SentinelConfig)
    (w : World) : option DetectionResult * World :=
  if negb (TelemetryEventType_eqb (eventType event) input_data) then (None, w)
  else
    let data := asInput (data event) in
    let '(baseline, w) := getOrCreateBaseline (playerId event) config w in
    let '(correlation, t) := tally data config w baseline in
    let flags := t_flags t in
    let score := t_score t in
    if JS.lt score SCORE_THRESHOLD then
      (None, commit (playerId event) (t_baseline t) w)
    else
      let confidence := JS.Math_min (score / 100) 0.99 in
      let '(baseline, w) := recordDetection (t_baseline t) "InputAnalysis" confidence w in
      let '(samples, baseline) := profileLength baseline "input.entropy" config in
      let w := commit (playerId event) baseline w in
      (Some {|
         detected := true;
         module := "InputAnalysis";
         cheatType := if JS.ge score 70 then cronus_zen else macro_script;
         severity := severityOf score;
         confidence := confidence;
         evidence := {|
           ev_metrics := [("inputEntropy", inputEntropy data);
                          ("timingVariance", timingVariance data);
                          ("recoilPattern", recoilPattern data);
                          ("microAdjustments", microAdjustments data)];
           flags := flags;
           ev_baselineSamples := samples;
           baselineDeviations := [];
           crossSignalCorrelation := correlatedModules correlation |};
         description := ("Input analysis detected {n} anomalies: ", flags);
         recommendedAction := resolveAction confidence config w |}, w).

End Input.

(** ** sentinel-packets.ts: packet analyzer *)

Module Packets.

Definition NORMAL_PACKET_RATE : float := 120.
Definition CHEAT_PACKET_RATE : float := 300.
Definition BURST_THRESHOLD : float := 15.
Definition MAX_PACKET_SIZE : float := 2048.
Definition OUT_OF_ORDER_THRESHOLD : float := 10.
Definition DUPLICATE_THRESHOLD : float := 5.
Definition SUSPICIOUS_PAYLOAD_THRESHOLD : float := 3.
Definition SCORE_THRESHOLD : float := 40.

(** CHECK 1: packet rate *)
Definition check1 (data : PacketTelemetry) (config : option SentinelConfig)
    (w : World) (t : Tally) : Tally :=
  match packetRate data with
  | Some v =>
      let '(rateProfile, t) := pushMetric "packet.rate" v config t in
      let dev := deviatesFromBaseline v rateProfile config w in
      if JS.gt v CHEAT_PACKET_RATE then
        hit (Msg "Packet rate {0}/s is {1}x normal (120/s baseline). Cheat data exchange signature."
               [v; v / NORMAL_PACKET_RATE]%float) 25 t
      else if deviates dev && JS.gt (zScore dev) 2.5 then
        hit (Msg "Packet rate spiked to {0}/s from player's baseline (z={1}). Combat-correlated traffic anomaly."
               [v; zScore dev]) 12 t
      else t
  | None => t
  end.

(** CHECK 2: burst pattern *)
Definition check2 (data : PacketTelemetry) (t : Tally) : Tally :=
  if definedGt (burstCount data) BURST_THRESHOLD then
    hit (Msg "{0} packet bursts detected in analysis window. Normal gameplay produces <15. Cheat polling pattern."
           [num (burstCount data)]) 30 t
  else t.

(** CHECK 3: payload size *)
Definition check3 (data : PacketTelemetry) (t : Tally) : Tally :=
  if definedGt (avgPacketSize data) MAX_PACKET_SIZE then
    hit (Msg "Average packet size {0}B exceeds normal maximum (2048B). Additional data payload detected."
           [num (avgPacketSize data)]) 20 t
  else t.

(** CHECK 4: out-of-order packets *)
Definition check4 (data : PacketTelemetry) (t : Tally) : Tally :=
  if definedGt (outOfOrder data) OUT_OF_ORDER_THRESHOLD then
    hit (Msg "{0}% of packets arrived out-of-order. Indicates packet injection or man-in-the-middle modification."
           [num (outOfOrder data)]) 25 t
  else t.

(** CHECK 5: duplicate packets *)
Definition check5 (data : PacketTelemetry) (t : Tally) : Tally :=
  if definedGt (duplicateRate data) DUPLICATE_THRESHOLD then
    hit (Msg "{0}% duplicate packets detected. Replay attack signature - captured packets being re-transmitted."
           [num (duplicateRate data)]) 20 t
  else t.

(** CHECK 6: suspicious payload patterns *)
Definition check6 (data : PacketTelemetry) (t : Tally) : Tally :=
  if definedGt (suspiciousPayloads data) SUSPICIOUS_PAYLOAD_THRESHOLD then
    hit (Msg "{0} suspicious payload patterns matched against known cheat communication signatures."
           [num (suspiciousPayloads data)]) 30 t
  else t.

Definition tally (data : PacketTelemetry) (config : option SentinelConfig)
    (w : World) (baseline : PlayerBaseline) : Correlation * Tally :=
  let t := mkTally baseline [] 0 in
  let t := check1 data config w t in
  let t := check2 data t in
  let t := check3 data t in
  let t := check4 data t in
  let t := check5 data t in
  let t := check6 data t in
  crossSignal t.

Definition analyzePackets (event : TelemetryEvent) (config : option SentinelConfig)
    (w : World) : option DetectionResult * World :=
  if negb (TelemetryEventType_eqb (eventType event) packet_data) then (None, w)
  else
    let data := asPacket (data event) in
    let '(baseline, w) := getOrCreateBaseline (playerId event) config w in
    let '(correlation, t) := tally data config w baseline in
    let flags := t_flags t in
    let score := t_score t in
    if JS.lt score SCORE_THRESHOLD then
      (None, commit (playerId event) (t_baseline t) w)
    else
      let confidence := JS.Math_min (score / 100) 0.99 in
      let '(baseline, w) := recordDetection (t_baseline t) "PacketAnalysis" confidence w in
      let '(samples, baseline) := profileLength baseline "packet.rate" config in
      let w := commit (playerId event) baseline w in
      (Some {|
         detected := true;
         module := "PacketAnalysis";
         cheatType := if JS.gt (num (duplicateRate data)) DUPLICATE_THRESHOLD
                      then packet_injection else network_manipulation;
         severity := severityOf score;
         confidence := confidence;
         evidence := {|
           ev_metrics := [("packetRate", packetRate data);
                          ("burstCount", burstCount data);
                          ("avgPacketSize", avgPacketSize data);
                          ("outOfOrder", outOfOrder data)];
           flags := flags;
           ev_baselineSamples := samples;
           baselineDeviations := [];
           crossSignalCorrelation := correlatedModules correlation |};
         description := ("Packet analysis flagged {n} anomalies: ", flags);
         recommendedAction := resolveAction confidence config w |}, w).

End Packets.

(** ** sentinel-stats.ts: statistical impossibility engine *)

Module Stats.

Definition IMPOSSIBLE_KD : float := 8.0.
Definition IMPOSSIBLE_WIN_RATE : float := 85.
Definition EXTREME_Z_SCORE : float := 3.5.
Definition ANOMALOUS_SPREE : float := 0.6.
Definition INHUMAN_DEATHLESS : float := 40.
Definition SCORE_THRESHOLD : float := 40.

(** CHECK 1: K/D ratio *)
Definition check1 (data : StatsTelemetry) (config : option SentinelConfig)
    (w : World) (t : Tally) : Tally :=
  match kdRatio data with
  | Some v =>
      let '(kdProfile, t) := pushMetric "stats.kdRatio" v config t in
      let dev := deviatesFromBaseline v kdProfile config w in
      if JS.gt v IMPOSSIBLE_KD then
        hit (Msg "K/D ratio {0} is statistically impossible to maintain (>8). Even top 0.01% players average 4-6."
               [v]) 30 t
      else if deviates dev && JS.gt (zScore dev) 2.5 && JS.gt v 4 then
        hit (Msg "K/D ratio {0} spiked from this player's baseline (z={1}). Sudden skill jump detected."
               [v; zScore dev]) 15 t
      else t
  | None => t
  end.

(** CHECK 2: win rate; [matchesAnalyzed || "N/A"] keeps a number that is
    neither absent, zero nor NaN. *)
Definition check2 (data : StatsTelemetry) (t : Tally) : Tally :=
  if definedGt (winRate data) IMPOSSIBLE_WIN_RATE then
    hit (Msg "Win rate {0}% over {1 or N/A} matches exceeds statistical bounds (>85%)."
           (num (winRate data) ::
            match matchesAnalyzed data with
            | Some m => if PrimFloat.is_nan m || PrimFloat.is_zero m then [] else [m]
            | None => []
            end)) 20 t
  else t.

(** CHECK 3: accuracy z-score *)
Definition check3 (data : StatsTelemetry) (t : Tally) : Tally :=
  if definedGt (accuracyZScore data) EXTREME_Z_SCORE then
    let descriptor : string :=
      if JS.gt (num (accuracyZScore data)) 4 then "impossible" else "extreme" in
    hit (Msg "Accuracy z-score {0} is {descriptor} (>3.5 sigma from population mean). Probability of legitimate play: <0.02%."
           [num (accuracyZScore data)]) 25 t
  else t.

(** CHECK 4: headshot z-score *)
Definition check4 (data : StatsTelemetry) (t : Tally) : Tally :=
  if definedGt (headshotZScore data) EXTREME_Z_SCORE then
    hit (Msg "Headshot z-score {0} exceeds normal distribution (>3.5 sigma). Automated headshot targeting."
           [num (headshotZScore data)]) 25 t
  else t.

(** CHECK 5: kill spree frequency *)
Definition check5 (data : StatsTelemetry) (t : Tally) : Tally :=
  if definedGt (spreeFrequency data) ANOMALOUS_SPREE then
    hit (Msg "Kill spree frequency {0}% is anomalous (>{1}%). Consistent domination pattern."
           [num (spreeFrequency data) * 100; ANOMALOUS_SPREE * 100]%float) 15 t
  else t.

(** CHECK 6: deathless streak *)
Definition check6 (data : StatsTelemetry) (t : Tally) : Tally :=
  if definedGt (deathlessStreak data) INHUMAN_DEATHLESS then
    hit (Msg "{0}-kill deathless streak exceeds historical records. Combined with other metrics, indicates assistance."
           [num (deathlessStreak data)]) 20 t
  else t.

Definition tally (data : StatsTelemetry) (config : option SentinelConfig)
    (w : World) (baseline : PlayerBaseline) : Correlation * Tally :=
  let t := mkTally baseline [] 0 in
  let t := check1 data config w t in
  let t := check2 data t in
  let t := check3 data t in
  let t := check4 data t in
  let t := check5 data t in
  let t := check6 data t in
  crossSignal t.

Definition analyzeStats (event : TelemetryEvent) (config : option SentinelConfig)
    (w : World) : option DetectionResult * World :=
  if negb (TelemetryEventType_eqb (eventType event) stats_data) then (None, w)
  else
    let data := asStats (data event) in
    let '(baseline, w) := getOrCreateBaseline (playerId event) config w in
    let '(correlation, t) := tally data config w baseline in
    let flags := t_flags t in
    let score := t_score t in
    if JS.lt score SCORE_THRESHOLD then
      (None, commit (playerId event) (t_baseline t) w)
    else
      let confidence := JS.Math_min (score / 100) 0.99 in
      let '(baseline, w) := recordDetection (t_baseline t) "StatisticalAnalysis" confidence w in
      let '(samples, baseline) := profileLength baseline "stats.kdRatio" config in
      let w := commit (playerId event) baseline w in
      (Some {|
         detected := true;
         module := "StatisticalAnalysis";
         cheatType := statistical_impossibility;
         severity := severityOf score;
         confidence := confidence;
         evidence := {|
           ev_metrics := [("kdRatio", kdRatio data);
                          ("winRate", winRate data);
                          ("accuracyZScore", accuracyZScore data);
                          ("headshotZScore", headshotZScore data)];
           flags := flags;
           ev_baselineSamples := samples;
           baselineDeviations := [];
           crossSignalCorrelation := correlatedModules correlation |};
         description := ("Statistical analysis flagged {n} impossibilities: ", flags);
         recommendedAction := resolveAction confidence config w |}, w).

End Stats.

(** ** sentinel-behavior.ts: behavioral analysis *)

Module Behavior.

Definition HUMAN_MIN_REACTION : float := 100.
Definition AUTOMATION_MOVEMENT : float := 0.2.
Definition WALLHACK_PREFIRE_RATE : float := 40.
Definition WALL_TRACK_THRESHOLD : float := 5.
Definition ESP_SPAWN_PREDICTION : float := 70.
Definition CHEAT_CAMERA_PATTERN : float := 0.8.
Definition SCORE_THRESHOLD : float := 40.

(** CHECK 1: reaction time *)
Definition check1 (data : BehaviorTelemetry) (config : option SentinelConfig)
    (w : World) (t : Tally) : Tally :=
  match reactionTime data with
  | Some v =>
      let '(reactionProfile, t) := pushMetric "behavior.reactionTime" v config t in
      let dev := deviatesFromBaseline v reactionProfile config w in
      if JS.lt v HUMAN_MIN_REACTION then
        hit (Msg "Reaction time {0}ms is below human neural transmission minimum (100ms). Software-assisted target acquisition."
               [v]) 30 t
      else if deviates dev && JS.lt (zScore dev) (-2.0) && JS.lt v 150 then
        hit (Msg "Reaction time {0}ms dropped significantly from player baseline (z={1}). Possible assistance toggle."
               [v; zScore dev]) 15 t
      else t
  | None => t
  end.

(** CHECK 2: movement entropy *)
Definition check2 (data : BehaviorTelemetry) (t : Tally) : Tally :=
  if definedLt (movementEntropy data) AUTOMATION_MOVEMENT then
    hit (Msg "Movement entropy {0} indicates path prediction or automated movement. Human movement entropy is typically 0.4-0.9."
           [num (movementEntropy data)]) 20 t
  else t.

(** CHECK 3: pre-firing rate *)
Definition check3 (data : BehaviorTelemetry) (t : Tally) : Tally :=
  if definedGt (preFiringRate data) WALLHACK_PREFIRE_RATE then
    hit (Msg "Pre-firing rate {0}% indicates advance knowledge of enemy positions. Normal rate is 5-20%. Wallhack signature."
           [num (preFiringRate data)]) 30 t
  else t.

(** CHECK 4: wall-tracking events *)
Definition check4 (data : BehaviorTelemetry) (t : Tally) : Tally :=
  if definedGt (wallTrackEvents data) WALL_TRACK_THRESHOLD then
    hit (Msg "{0} wall-tracking events: player's camera tracked enemies through solid walls/floors. ESP/wallhack confirmed."
           [num (wallTrackEvents data)]) 35 t
  else t.

(** CHECK 5: spawn prediction accuracy *)
Definition check5 (data : BehaviorTelemetry) (t : Tally) : Tally :=
  if definedGt (spawnPrediction data) ESP_SPAWN_PREDICTION then
    hit (Msg "Spawn prediction accuracy {0}% indicates ESP (>70%). Player consistently pre-positions for enemy spawns."
           [num (spawnPrediction data)]) 25 t
  else t.

(** CHECK 6: camera snap pattern *)
Definition check6 (data : BehaviorTelemetry) (t : Tally) : Tally :=
  if definedGt (cameraBehavior data) CHEAT_CAMERA_PATTERN then
    hit (Msg "Camera snap pattern {0}% matches known wallhack/ESP overlay signatures."
           [(num (cameraBehavior data) * 100)%float]) 20 t
  else t.

Definition tally (data : BehaviorTelemetry) (config : option SentinelConfig)
    (w : World) (baseline : PlayerBaseline) : Correlation * Tally :=
  let t := mkTally baseline [] 0 in
  let t := check1 data config w t in
  let t := check2 data t in
  let t := check3 data t in
  let t := check4 data t in
  let t := check5 data t in
  let t := check6 data t in
  crossSignal t.

Definition analyzeBehavior (event : TelemetryEvent) (config : option SentinelConfig)
    (w : World) : option DetectionResult * World :=
  if negb (TelemetryEventType_eqb (eventType event) behavior_data) then (None, w)
  else
    let data := asBehavior (data event) in
    let '(baseline, w) := getOrCreateBaseline (playerId event) config w in
    let '(correlation, t) := tally data config w baseline in
    let flags := t_flags t in
    let score := t_score t in
    if JS.lt score SCORE_THRESHOLD then
      (None, commit (playerId event) (t_baseline t) w)
    else
      let confidence := JS.Math_min (score / 100) 0.99 in
      let '(baseline, w) := recordDetection (t_baseline t) "BehavioralAnalysis" confidence w in
      let '(samples, baseline) := profileLength baseline "behavior.reactionTime" config in
      let w := commit (playerId event) baseline w in
      (Some {|
         detected := true;
         module := "BehavioralAnalysis";
         cheatType := if JS.ge score 70 then wallhack_esp else suspicious_behavior;
         severity := severityOf score;
         confidence := confidence;
         evidence := {|
           ev_metrics := [("reactionTime", reactionTime data);
                          ("preFiringRate", preFiringRate data);
                          ("wallTrackEvents", wallTrackEvents data);
                          ("spawnPrediction", spawnPrediction data)];
           flags := flags;
           ev_baselineSamples := samples;
           baselineDeviations := [];
           crossSignalCorrelation := correlatedModules correlation |};
         description := ("Behavioral analysis flagged {n} anomalies: ", flags);
         recommendedAction := resolveAction confidence config w |}, w).

End Behavior.

(** ** sentinel-core.ts: the dispatch pipeline *)

(** How a call that may throw ends. *)
Inductive Completion (A : Type) :=
  | Normal (a : A)
  | Throw (err : string).
Arguments Normal {A} a.
Arguments Throw {A} err.

(** A detector plug-in: it may return a result or [null], or throw, and in
    each case it may have written to the shared state before. *)
Definition Handler : Type :=
  TelemetryEvent -> option SentinelConfig -> World ->
  Completion (option DetectionResult) * World.

Record DetectorModule := mkModule { name : string; handler : Handler }.

(** The observer; awaiting it either completes or throws, and other tasks
    (hence any change of the shared state) may run meanwhile. *)
Definition DetectionCallback : Type :=
  DetectionResult -> TelemetryEvent -> World -> Completion unit * World.

(** The built-in detectors do not throw. *)
Definition total (f : TelemetryEvent -> option SentinelConfig -> World ->
                     option DetectionResult * World) : Handler :=
  fun event config w => let '(r, w) := f event config w in (Normal r, w).

(** Registry of all detection modules *)
Definition MODULES : list DetectorModule := [
  mkModule "AimAnalysis" (total Aim.analyzeAim);
  mkModule "InputAnalysis" (total Input.analyzeInput);
  mkModule "PacketAnalysis" (total Packets.analyzePackets);
  mkModule "StatisticalAnalysis" (total Stats.analyzeStats);
  mkModule "BehavioralAnalysis" (total Behavior.analyzeBehavior) ].

(** What one call of [processTelemetry] leaves: the returned array, the
    state, and (a ghost of the model) the names of the modules whose
    handler was called, in call order. *)
Record Run := mkRun {
  results : list DetectionResult;
  world : World;
  invoked : list string }.

Definition logError (moduleName err : string) (w : World) : World :=
  console_error ("[SENTINEL] " +:+ moduleName +:+ " error: " +:+ err) w.

(** The body of [for (const module of MODULES) { try { ... } catch { ... } }]. *)
Fixpoint dispatch (modules : list DetectorModule) (callback : option DetectionCallback)
    (event : TelemetryEvent) (config : option SentinelConfig) (run : Run) : Run :=
  match modules with
  | [] => run
  | m :: rest =>
      let calls := invoked run ++ [name m] in
      match handler m event config (world run) with
      | (Normal (Some result), w) =>
          if detected result then
            let results := results run ++ [result] in
            match callback with
            | Some detectionCallback =>
                match detectionCallback result event w with
                | (Normal _, w) =>
                    dispatch rest callback event config (mkRun results w calls)
                | (Throw err, w) =>
                    dispatch rest callback event config
                      (mkRun results (logError (name m) err w) calls)
                end
            | None => dispatch rest callback event config (mkRun results w calls)
            end
          else dispatch rest callback event config (mkRun (results run) w calls)
      | (Normal None, w) =>
          dispatch rest callback event config (mkRun (results run) w calls)
      | (Throw err, w) =>
          dispatch rest callback event config
            (mkRun (results run) (logError (name m) err w) calls)
      end
  end.

(** [processTelemetry] over a registry [modules] and the registered
    observer [callback] (the module variable [detectionCallback]). *)
Definition processTelemetryWith (modules : list DetectorModule)
    (callback : option DetectionCallback) (event : TelemetryEvent)
    (config : option SentinelConfig) (w : World) : Run :=
  let run := mkRun [] w [] in
  (* Verify pipeline integrity before processing *)
  if negb (pipelineReady (getPipelineState w)) then run
  else dispatch modules callback event config run.

Definition processTelemetry (callback : option DetectionCallback)
    (event : TelemetryEvent) (config : option SentinelConfig) (w : World)
    : list DetectionResult * World :=
  let run := processTelemetryWith MODULES callback event config w in
  (results run, world run).

Definition getModuleNames : list string := map name MODULES.

(** Replaying a sequence of events, one call of [processTelemetry] after
    the other, and collecting what each call returns. *)
Fixpoint replay (callback : option DetectionCallback) (config : option SentinelConfig)
    (events : list TelemetryEvent) (w : World) : list (list DetectionResult) * World :=
  match events with
  | [] => ([], w)
  | event :: rest =>
      let '(rs, w) := processTelemetry callback event config w in
      let '(out, w) := replay callback config rest w in
      (rs :: out, w)
  end.

(** The state of a process whose license subsystem has finished ([ready])
    or not, before any telemetry: no baseline, nothing logged. *)
Definition freshWorld (token : Z) (clock : nat -> Z) : World :=
  mkWorld token ∅ clock 0 [].

(** ** Definitions the properties are stated with *)

(** The window [getMetricProfile] creates for a capacity [c], and a
    sequence of pushes. *)
Definition emptyWindow (c : Z) : RollingSamples := mkRolling [] c 0 0.

Definition pushAll (profile : RollingSamples) (vs : list float) : RollingSamples :=
  fold_left pushSample vs profile.

(** The deviation test as the specification words it: too little history;
    effectively constant history; z-score against the threshold. *)
Definition deviationSpec (value : float) (window : RollingSamples)
    (config : SentinelConfig) : Deviation :=
  if Z.of_nat (length (values window)) <? minSamplesForBaseline config then
    mkDeviation false 0
  else if JS.lt (stddev window) 0.001 then
    mkDeviation (JS.gt (JS.Math_abs (value - mean window)) 0.001) 0
  else
    mkDeviation
      (JS.gt (JS.Math_abs ((value - mean window) / stddev window))
         (deviationThreshold config))
      ((value - mean window) / stddev window).

(** The arithmetic mean and the sample (n-1) standard deviation of a list
    of binary64 values, summed from left to right. *)
Definition sumOf (vs : list float) : float := fold_left PrimFloat.add vs 0%float.

Definition arithmeticMean (vs : list float) : float :=
  (sumOf vs / JS.of_nat (length vs))%float.

Definition sampleStdDev (vs : list float) : float :=
  PrimFloat.sqrt
    (fold_left (fun acc v => acc + (v - arithmeticMean vs) * (v - arithmeticMean vs)) vs 0
     / JS.of_nat (length vs - 1))%float.

(** The number of distinct module names among the recent detections. *)
Definition distinctModules (baseline : PlayerBaseline) : nat :=
  size (list_to_set (map td_module (recentDetections baseline)) : gset string).

(** Five equal samples in a window of the default capacity. *)
Definition constantWindow : RollingSamples :=
  pushAll (emptyWindow 50) [1; 1; 1; 1; 1]%float.

(** A plug-in that always throws, and one that reports a fixed result for
    every event. *)
Definition throwing : Handler := fun _ _ w => (Throw "boom", w).

Definition fixedResult : DetectionResult := {|
  detected := true;
  module := "Fixed";
  cheatType := suspicious_behavior;
  severity := low;
  confidence := 0.5;
  evidence := mkEvidence [] [] 0 [] [];
  description := ("fixed", []);
  recommendedAction := flag |}.

Definition reporting : Handler := fun _ _ w => (Normal (Some fixedResult), w).

(** The end-to-end scenario: an [aim_data] event carrying only
    [snapAngle = 150] and [timeToTarget = 50]. *)
Definition snapEvent (player session lobby game : string) (time : Z) : TelemetryEvent :=
  mkEvent player session lobby game time aim_data
    (AimData (mkAim (Some 150%float) None None (Some 50%float) None None)).

(** What the scenario is expected to report. *)
Definition snapFlags : list Flag := [
  Msg "Snap angle {0} deg exceeds human biomechanical limit (120 deg). Aimbot signature detected."
    [150%float];
  Msg "Time-to-target {0}ms is below human neural transmission minimum (80ms). Hardware-assisted targeting."
    [50%float] ].

Definition snapResult : DetectionResult := {|
  detected := true;
  module := "AimAnalysis";
  cheatType := aim_assist_abuse;
  severity := medium;
  confidence := 0.55;
  evidence := {|
    ev_metrics := [("snapAngle", Some 150%float); ("trackingSmoothness", None);
                   ("headshotPct", None); ("timeToTarget", Some 50%float)];
    flags := snapFlags;
    ev_baselineSamples := 1;
    baselineDeviations := [];
    crossSignalCorrelation := [] |};
  description := ("Aim analysis flagged {n} anomalies: ", snapFlags);
  recommendedAction := flag |}.

(** [confidence = Math.min(score / 100, 0.99)], as every detector has it. *)
Definition confidenceOf (score : float) : float := JS.Math_min (score / 100) 0.99.

(** A score either stays below the 40-point threshold or gives a
    confidence within [0.40, 0.99]. *)
Definition boundedOrBelow (score : float) : bool :=
  JS.lt score 40
  || (JS.le 0.40 (confidenceOf score) && JS.le (confidenceOf score) 0.99).

(** [s'] is [s], or [s] plus one of the weights. *)
Definition bumped (s : float) (weights : list float) (s' : float) : Prop :=
  s' = s \/ In s' (map (fun k => (s + k)%float) weights).

(** The scores reachable from [s] through steps that each add at most one
    weight of their list. *)
Fixpoint sums (s : float) (steps : list (list float)) : list float :=
  match steps with
  | [] => [s]
  | weights :: rest =>
      flat_map (fun s' => sums s' rest) (s :: map (fun k => (s + k)%float) weights)
  end.

(** What a returned result says about the score behind it. *)
Definition fromScore (r : DetectionResult) : Prop :=
  exists score,
    JS.lt score 40 = false /\
    confidence r = confidenceOf score /\
    JS.le 0.40 (confidence r) = true /\
    JS.le (confidence r) 0.99 = true.

(** Two replays whose wall clocks differ by a constant [delta]: what the
    second has stored is what the first has, with every stored time moved
    by [delta]. *)
Definition shiftDetection (delta : Z) (d : TimestampedDetection) : TimestampedDetection :=
  mkTD (td_module d) (td_confidence d) (td_timestamp d + delta).

Definition shiftBaseline (delta : Z) (b : PlayerBaseline) : PlayerBaseline :=
  mkBaseline (bl_playerId b) (createdAt b + delta) (eventCount b) (metrics b)
    (map (shiftDetection delta) (recentDetections b)).

Definition shiftTally (delta : Z) (t : Tally) : Tally :=
  mkTally (shiftBaseline delta (t_baseline t)) (t_flags t) (t_score t).

Definition shifted (delta : Z) (w w' : World) : Prop :=
  pipelineToken w' = pipelineToken w /\
  playerBaselines w' = shiftBaseline delta <$> playerBaselines w /\
  (forall n, clock w' n = clock w n + delta) /\
  ticks w' = ticks w /\
  console w' = console w.

(** Two events that differ at most in [sessionId], [lobbyId], [matchId]
    and [timestamp]. *)
Definition sameTelemetry (e e' : TelemetryEvent) : Prop :=
  playerId e = playerId e' /\ eventType e = eventType e' /\ data e = data e'.

(** An [input_data] event of a scripted device, and three events replayed
    under a clock that advances 1 ms per reading, and under one that does
    the same within a call of [processTelemetry] and lets 100 s pass
    between two events (the first event reads the clock three times, the
    next two twice each). *)
Definition scriptEvent (player : string) (time : Z) : TelemetryEvent :=
  mkEvent player "s" "l" "m" time input_data
    (InputData (mkInput (Some 0.1%float) (Some 0.1%float) None None None None)).

Definition replayedEvents : list TelemetryEvent :=
  [snapEvent "p" "s" "l" "m" 1000; scriptEvent "p" 2000; snapEvent "p" "s" "l" "m" 3000].

Definition fastClock (n : nat) : Z := Z.of_nat n.
Definition slowClock (n : nat) : Z :=
  Z.of_nat n + 100000 * (if (n <? 3)%nat then 0 else if (n <? 5)%nat then 1 else 2).

(** A handler that answers alike on states shifted by [delta], for two
    events with the same telemetry. *)
Definition steady (delta : Z) (e e' : TelemetryEvent) (config : option SentinelConfig)
    (h : Handler) : Prop :=
  forall w w', shifted delta w w' ->
    (h e' config w').1 = (h e config w).1 /\
    shifted delta (h e config w).2 (h e' config w').2.

(** The events of [replayedEvents] sent a day later, in another session. *)
Definition replayedLater : list TelemetryEvent :=
  [snapEvent "p" "s2" "l2" "m2" 86401000; scriptEvent "p" 86402000;
   snapEvent "p" "s2" "l2" "m2" 86403000].


(** ** Definitions for the properties of the store and of the detectors *)

(** A window within its capacity whose stored statistics are those of its
    values. *)
Definition windowOk (p : RollingSamples) : Prop :=
  Z.of_nat (length (values p)) <= maxSamples p /\
  mean p = calculateMean (values p) /\
  stddev p = calculateStdDev (values p).

(** A baseline stored under [key]: it carries that player's id, at most 50
    recent detections, and sound windows. *)
Definition baselineOk (key : string) (b : PlayerBaseline) : Prop :=
  bl_playerId b = key /\
  (length (recentDetections b) <= 50)%nat /\
  map_Forall (fun _ p => windowOk p) (metrics b).

Definition storeOk (w : World) : Prop :=
  map_Forall baselineOk (playerBaselines w).

(** The effect of [getMetricProfile] followed by [pushSample] on the
    baseline object. *)
Definition pushInto (metricName : string) (v : float) (config : option SentinelConfig)
    (b : PlayerBaseline) : PlayerBaseline :=
  setMetric (getMetricProfile b metricName config).2 metricName
    (pushSample (getMetricProfile b metricName config).1 v).

(** [b'] is [b] after some pushes into metric windows named in [names]. *)
Inductive trackedIn (config : option SentinelConfig) (names : list string)
    : PlayerBaseline -> PlayerBaseline -> Prop :=
  | tracked_same b : trackedIn config names b b
  | tracked_push b b' metricName v :
      In metricName names -> trackedIn config names b b' ->
      trackedIn config names b (pushInto metricName v config b').

(** The metric windows each detector keeps. *)
Definition trackedMetrics (ty : TelemetryEventType) : list string :=
  match ty with
  | aim_data => ["aim.snapAngle"; "aim.trackingSmoothness"]
  | input_data => ["input.entropy"; "input.timingVariance"]
  | packet_data => ["packet.rate"]
  | stats_data => ["stats.kdRatio"]
  | behavior_data => ["behavior.reactionTime"]
  end.

(** The registered module that handles an event type. *)
Definition moduleFor (ty : TelemetryEventType) : string :=
  match ty with
  | aim_data => "AimAnalysis"
  | input_data => "InputAnalysis"
  | packet_data => "PacketAnalysis"
  | stats_data => "StatisticalAnalysis"
  | behavior_data => "BehavioralAnalysis"
  end.

(** The five detectors share one outline and differ in the event type they
    accept, their checks, the module name they report and record under,
    the metric window they count for [baselineSamples], and the result
    they build.  [runShape] is that outline; each detector is shown to be
    an instance of it. *)
Record DetectorShape := mkShape {
  ds_type : TelemetryEventType;
  ds_module : string;
  ds_profile : string;
  ds_tally : TelemetryData -> option SentinelConfig -> World -> PlayerBaseline ->
             Correlation * Tally;
  ds_result : TelemetryData -> float -> float -> list Flag -> nat -> Correlation ->
              ActionType -> DetectionResult }.

Definition runShape (s : DetectorShape) (event : TelemetryEvent)
    (config : option SentinelConfig) (w : World) : option DetectionResult * World :=
  if negb (TelemetryEventType_eqb (eventType event) (ds_type s)) then (None, w)
  else
    let '(baseline, w) := getOrCreateBaseline (playerId event) config w in
    let '(correlation, t) := ds_tally s (data event) config w baseline in
    if JS.lt (t_score t) 40 then (None, commit (playerId event) (t_baseline t) w)
    else
      let confidence := JS.Math_min (t_score t / 100) 0.99 in
      let '(baseline, w) := recordDetection (t_baseline t) (ds_module s) confidence w in
      let '(samples, baseline) := profileLength baseline (ds_profile s) config in
      let w := commit (playerId event) baseline w in
      (Some (ds_result s (data event) (t_score t) confidence (t_flags t) samples
               correlation (resolveAction confidence config w)), w).

Definition aimShape : DetectorShape := {|
  ds_type := aim_data;
  ds_module := "AimAnalysis";
  ds_profile := "aim.snapAngle";
  ds_tally := fun d => Aim.tally (asAim d);
  ds_result := fun d score confidence flags samples correlation action => {|
    detected := true;
    module := "AimAnalysis";
    cheatType := if JS.ge score 80 then aimbot else aim_assist_abuse;
    severity := severityOf score;
    confidence := confidence;
    evidence := {|
      ev_metrics := [("snapAngle", snapAngle (asAim d));
                     ("trackingSmoothness", trackingSmoothness (asAim d));
                     ("headshotPct", headshotPct (asAim d));
                     ("timeToTarget", timeToTarget (asAim d))];
      flags := flags;
      ev_baselineSamples := samples;
      baselineDeviations := [];
      crossSignalCorrelation := correlatedModules correlation |};
    description := ("Aim analysis flagged {n} anomalies: ", flags);
    recommendedAction := action |} |}.

Definition inputShape : DetectorShape := {|
  ds_type := input_data;
  ds_module := "InputAnalysis";
  ds_profile := "input.entropy";
  ds_tally := fun d => Input.tally (asInput d);
  ds_result := fun d score confidence flags samples correlation action => {|
    detected := true;
    module := "InputAnalysis";
    cheatType := if JS.ge score 70 then cronus_zen else macro_script;
    severity := severityOf score;
    confidence := confidence;
    evidence := {|
      ev_metrics := [("inputEntropy", inputEntropy (asInput d));
                     ("timingVariance", timingVariance (asInput d));
                     ("recoilPattern", recoilPattern (asInput d));
                     ("microAdjustments", microAdjustments (asInput d))];
      flags := flags;
      ev_baselineSamples := samples;
      baselineDeviations := [];
      crossSignalCorrelation := correlatedModules correlation |};
    description := ("Input analysis detected {n} anomalies: ", flags);
    recommendedAction := action |} |}.

Definition packetsShape : DetectorShape := {|
  ds_type := packet_data;
  ds_module := "PacketAnalysis";
  ds_profile := "packet.rate";
  ds_tally := fun d => Packets.tally (asPacket d);
  ds_result := fun d score confidence flags samples correlation action => {|
    detected := true;
    module := "PacketAnalysis";
    cheatType := if JS.gt (num (duplicateRate (asPacket d))) Packets.DUPLICATE_THRESHOLD
                 then packet_injection else network_manipulation;
    severity := severityOf score;
    confidence := confidence;
    evidence := {|
      ev_metrics := [("packetRate", packetRate (asPacket d));
                     ("burstCount", burstCount (asPacket d));
                     ("avgPacketSize", avgPacketSize (asPacket d));
                     ("outOfOrder", outOfOrder (asPacket d))];
      flags := flags;
      ev_baselineSamples := samples;
      baselineDeviations := [];
      crossSignalCorrelation := correlatedModules correlation |};
    description := ("Packet analysis flagged {n} anomalies: ", flags);
    recommendedAction := action |} |}.

Definition statsShape : DetectorShape := {|
  ds_type := stats_data;
  ds_module := "StatisticalAnalysis";
  ds_profile := "stats.kdRatio";
  ds_tally := fun d => Stats.tally (asStats d);
  ds_result := fun d score confidence flags samples correlation action => {|
    detected := true;
    module := "StatisticalAnalysis";
    cheatType := statistical_impossibility;
    severity := severityOf score;
    confidence := confidence;
    evidence := {|
      ev_metrics := [("kdRatio", kdRatio (asStats d));
                     ("winRate", winRate (asStats d));
                     ("accuracyZScore", accuracyZScore (asStats d));
                     ("headshotZScore", headshotZScore (asStats d))];
      flags := flags;
      ev_baselineSamples := samples;
      baselineDeviations := [];
      crossSignalCorrelation := correlatedModules correlation |};
    description := ("Statistical analysis flagged {n} impossibilities: ", flags);
    recommendedAction := action |} |}.

Definition behaviorShape : DetectorShape := {|
  ds_type := behavior_data;
  ds_module := "BehavioralAnalysis";
  ds_profile := "behavior.reactionTime";
  ds_tally := fun d => Behavior.tally (asBehavior d);
  ds_result := fun d score confidence flags samples correlation action => {|
    detected := true;
    module := "BehavioralAnalysis";
    cheatType := if JS.ge score 70 then wallhack_esp else suspicious_behavior;
    severity := severityOf score;
    confidence := confidence;
    evidence := {|
      ev_metrics := [("reactionTime", reactionTime (asBehavior d));
                     ("preFiringRate", preFiringRate (asBehavior d));
                     ("wallTrackEvents", wallTrackEvents (asBehavior d));
                     ("spawnPrediction", spawnPrediction (asBehavior d))];
      flags := flags;
      ev_baselineSamples := samples;
      baselineDeviations := [];
      crossSignalCorrelation := correlatedModules correlation |};
    description := ("Behavioral analysis flagged {n} anomalies: ", flags);
    recommendedAction := action |} |}.

Definition shapeFor (ty : TelemetryEventType) : DetectorShape :=
  match ty with
  | aim_data => aimShape
  | input_data => inputShape
  | packet_data => packetsShape
  | stats_data => statsShape
  | behavior_data => behaviorShape
  end.

(** The detector of the registry that accepts events of type [ty]. *)
Definition detectorFor (ty : TelemetryEventType)
    : TelemetryEvent -> option SentinelConfig -> World -> option DetectionResult * World :=
  match ty with
  | aim_data => Aim.analyzeAim
  | input_data => Input.analyzeInput
  | packet_data => Packets.analyzePackets
  | stats_data => Stats.analyzeStats
  | behavior_data => Behavior.analyzeBehavior
  end.

Definition resultList (r : option DetectionResult) : list DetectionResult :=
  match r with Some r => [r] | None => [] end.

(** The registry entry of the detector for [ty]. *)
Definition moduleOf (ty : TelemetryEventType) : DetectorModule :=
  mkModule (moduleFor ty) (total (detectorFor ty)).

(** The weights each detector's six checks can add, in source order,
    followed by the two cross-signal bonuses. *)
Definition weightsFor (ty : TelemetryEventType) : list (list float) :=
  match ty with
  | aim_data => [[30; 15]; [25; 12]; [20]; [25]; [15]; [20]; [15; 8]]
  | input_data => [[30; 15]; [25]; [30]; [20]; [15]; [25]; [15; 8]]
  | packet_data => [[25; 12]; [30]; [20]; [25]; [20]; [30]; [15; 8]]
  | stats_data => [[30; 15]; [20]; [25]; [25]; [15]; [20]; [15; 8]]
  | behavior_data => [[30; 15]; [20]; [30]; [35]; [25]; [20]; [15; 8]]
  end%float.

(** The pairs (score, number of flags) reachable from [(s, n)] through
    steps that each either do nothing or add one weight of their list and
    one flag. *)
Fixpoint tallies (s : float) (n : nat) (steps : list (list float)) : list (float * nat) :=
  match steps with
  | [] => [(s, n)]
  | weights :: rest =>
      flat_map (fun sn => tallies sn.1 sn.2 rest)
        ((s, n) :: map (fun k => ((s + k)%float, S n)) weights)
  end.

(** [t'] has the score and flags of [t], or one more flag and the score
    plus one of the weights. *)
Definition flagged (t : Tally) (weights : list float) (t' : Tally) : Prop :=
  In (t_score t', length (t_flags t'))
    ((t_score t, length (t_flags t))
       :: map (fun k => ((t_score t + k)%float, S (length (t_flags t)))) weights).

#[global] Instance Severity_eq_dec : EqDecision Severity.
Proof. solve_decision. Defined.

#[global] Instance ActionType_eq_dec : EqDecision ActionType.
Proof. solve_decision. Defined.

(** The severity bands read on the confidence scale: 0.8 and above,
    0.6 and above, and the rest. *)
Definition severityAt (c : float) : Severity :=
  if JS.ge c 0.8 then critical else if JS.ge c 0.6 then high else medium.

(** [resolveAction] with the default thresholds and the engine ready. *)
Definition defaultAction (c : float) : ActionType :=
  if JS.ge c (autobanConfidence DEFAULT_CONFIG) then permanent_ban
  else if JS.ge c (shadowbanConfidence DEFAULT_CONFIG) then shadow_ban
  else flag.

(** Every tally of a detector that reaches the threshold satisfies [P]. *)
Definition reported (P : float -> nat -> bool) (ty : TelemetryEventType) : bool :=
  forallb (fun sn => JS.lt sn.1 40 || P sn.1 sn.2) (tallies 0 0 (weightsFor ty)).

(** ** Start-up and the statistics helpers (sentinel-baseline.ts) *)

(** How the beacon call of [_initLicenseSubsystem] ends: building the
    payload or starting the request throws; the request fails or is
    aborted, which [.catch(() => null)] turns into [null]; or a response
    arrives. *)
Inductive BeaconOutcome := SetupThrows | NoResponse | Responded.

Definition setToken (token : Z) (w : World) : World :=
  mkWorld token (playerBaselines w) (clock w) (ticks w) (console w).

(** The state once the promise of [_initLicenseSubsystem] has settled. *)
Definition _initLicenseSubsystem (outcome : BeaconOutcome) (w : World) : World :=
  match outcome with
  | SetupThrows => setToken 1 w
  | NoResponse => setToken 1 w
  | Responded =>
      let w := setToken 1 w in
      setToken (Z.lor (pipelineToken w) 2) w
  end.

(** One round of the loop of [pearsonCorrelation]; [nth i x nan] is
    [x[i]], which is a number for every index the loop visits. *)
Definition pearsonStep (x y : list float) (meanX meanY : float)
    (acc : float * float * float) (i : nat) : float * float * float :=
  let '(num, denomX, denomY) := acc in
  let dx := (nth i x nan - meanX)%float in
  let dy := (nth i y nan - meanY)%float in
  ((num + dx * dy)%float, (denomX + dx * dx)%float, (denomY + dy * dy)%float).

Definition pearsonCorrelation (x y : list float) : float :=
  let n := Nat.min (length x) (length y) in
  if (n <? 3)%nat then 0%float
  else
    let meanX := calculateMean (firstn n x) in
    let meanY := calculateMean (firstn n y) in
    let '(num, denomX, denomY) :=
      fold_left (pearsonStep x y meanX meanY) (seq 0 n) (0%float, 0%float, 0%float) in
    let denom := JS.Math_sqrt (denomX * denomY) in
    if PrimFloat.eqb denom 0 then 0%float else (num / denom)%float.

(** The accumulator of the loop with the two denominators exchanged. *)
Definition swap23 (acc : float * float * float) : float * float * float :=
  let '(a, b, c) := acc in (a, c, b).

(** The outcome of a stateful call with the readiness token replaced in
    the state it leaves. *)
Definition retoken {A} (token : Z) (rw : A * World) : A * World :=
  (rw.1, setToken token rw.2).

(** The state after the observer, if there is one, has been awaited on
    what a detector found: where it throws, the error is logged under the
    detector's module name. *)
Definition observed (callback : option DetectionCallback) (moduleName : string)
    (event : TelemetryEvent) (found : option DetectionResult * World) : World :=
  match found.1, callback with
  | Some r, Some detectionCallback =>
      match detectionCallback r event found.2 with
      | (Normal _, w) => w
      | (Throw err, w) => logError moduleName err w
      end
  | _, _ => found.2
  end.

(** Two versions of a baseline with the same identity fields. *)
Definition sameIdentity (b b0 : PlayerBaseline) : Prop :=
  bl_playerId b = bl_playerId b0 /\ createdAt b = createdAt b0 /\
  eventCount b = eventCount b0.

(** What a step may do to the store: every baseline stays, with its
    identity fields; a baseline that appears is stored under its own
    player id with [eventCount] 0. *)
Definition storeGrows (w w' : World) : Prop :=
  (forall q b0, playerBaselines w !! q = Some b0 ->
     exists b, playerBaselines w' !! q = Some b /\ sameIdentity b b0) /\
  (forall q b, playerBaselines w !! q = None -> playerBaselines w' !! q = Some b ->
     bl_playerId b = q /\ eventCount b = 0).
(** * Properties *)

(** ** Action resolution *)

Section ActionResolver.

Variables (confidence : float) (config : option SentinelConfig) (w : World).
Hypothesis ready : pipelineReady (pipelineToken w) = true.

Lemma resolveAction_ready :
  resolveAction confidence config w =
    if JS.ge confidence (autobanConfidence (orDefault config)) then permanent_ban
    else if JS.ge confidence (shadowbanConfidence (orDefault config)) then shadow_ban
    else flag.
Proof.
  unfold resolveAction. rewrite ready. cbn [negb].
  repeat case_match; reflexivity.
Qed.

End ActionResolver.

Lemma resolveAction_not_ready confidence config w :
  pipelineReady (pipelineToken w) = false -> resolveAction confidence config w = flag.
Proof. intros H. unfold resolveAction. now rewrite H. Qed.

Lemma resolveAction_range confidence config w :
  resolveAction confidence config w = permanent_ban \/
  resolveAction confidence config w = shadow_ban \/
  resolveAction confidence config w = flag.
Proof. unfold resolveAction. repeat case_match; auto. Qed.

(** C6. With the engine ready, [resolveAction] answers "permanent_ban"
    exactly when the confidence reaches [autobanConfidence], otherwise
    "shadow_ban" exactly when it reaches [shadowbanConfidence], and "flag"
    in every remaining case, below [flagConfidence] too.  With the default
    thresholds 0.90, 0.70, 0.50 and 0.10 map to permanent_ban, shadow_ban,
    flag and flag.  Whatever the input and the state, the answer is never
    "temporary_ban" nor "hardware_ban". *)
Theorem resolveAction_tiers :
  (forall confidence config w,
      pipelineReady (pipelineToken w) = true ->
      let c := orDefault config in
      (resolveAction confidence config w = permanent_ban <->
         JS.ge confidence (autobanConfidence c) = true) /\
      (resolveAction confidence config w = shadow_ban <->
         JS.ge confidence (autobanConfidence c) = false /\
         JS.ge confidence (shadowbanConfidence c) = true) /\
      (resolveAction confidence config w = flag <->
         JS.ge confidence (autobanConfidence c) = false /\
         JS.ge confidence (shadowbanConfidence c) = false)) /\
  (forall config w,
      pipelineReady (pipelineToken w) = true ->
      orDefault config = DEFAULT_CONFIG ->
      resolveAction 0.90 config w = permanent_ban /\
      resolveAction 0.70 config w = shadow_ban /\
      resolveAction 0.50 config w = flag /\
      resolveAction 0.10 config w = flag) /\
  (forall confidence config w,
      resolveAction confidence config w <> temporary_ban /\
      resolveAction confidence config w <> hardware_ban).
Proof.
  split; [| split].
  - intros confidence config w ready c. subst c.
    rewrite (resolveAction_ready _ _ _ ready).
    destruct (JS.ge confidence (autobanConfidence (orDefault config)));
      destruct (JS.ge confidence (shadowbanConfidence (orDefault config)));
      repeat split; intros; try discriminate; try tauto;
      match goal with H : _ /\ _ |- _ => destruct H; discriminate end.
  - intros config w ready Hdef.
    rewrite !(resolveAction_ready _ _ _ ready), Hdef. repeat split; reflexivity.
  - intros confidence config w.
    destruct (resolveAction_range confidence config w) as [H | [H | H]];
      rewrite H; split; discriminate.
Qed.

Lemma resolveAction_tiers_witness :
  pipelineReady (pipelineToken (freshWorld 1 (fun _ => 0))) = true /\
  resolveAction 0.90 None (freshWorld 1 (fun _ => 0)) = permanent_ban /\
  resolveAction 0.70 None (freshWorld 1 (fun _ => 0)) = shadow_ban /\
  resolveAction 0.50 None (freshWorld 1 (fun _ => 0)) = flag /\
  resolveAction 0.10 None (freshWorld 1 (fun _ => 0)) = flag.
Proof.
  split; [reflexivity |].
  apply (proj1 (proj2 resolveAction_tiers) None (freshWorld 1 (fun _ => 0)));
    reflexivity.
Defined.

(** ** Deviation test *)

Lemma deviatesFromBaseline_ready value profile config w :
  pipelineReady (pipelineToken w) = true ->
  deviatesFromBaseline value profile config w =
    deviationSpec value profile (orDefault config).
Proof.
  intros ready. unfold deviatesFromBaseline, deviationSpec.
  rewrite ready. cbn [negb]. repeat case_match; reflexivity.
Qed.

Lemma deviatesFromBaseline_not_ready value profile config w :
  pipelineReady (pipelineToken w) = false ->
  deviatesFromBaseline value profile config w = mkDeviation false 0.
Proof. intros H. unfold deviatesFromBaseline. now rewrite H. Qed.

(** C2, as stated, fails before the license subsystem has set bit 0x1: on
    a window of five samples equal to 1 (standard deviation 0) the value 2
    deviates by the second case of the definition, and the code answers
    [{deviates: false, zScore: 0}]. *)
Lemma deviatesFromBaseline_gate_counterexample :
  deviatesFromBaseline 2 constantWindow None (freshWorld 0 (fun _ => 0))
    = mkDeviation false 0 /\
  deviationSpec 2 constantWindow DEFAULT_CONFIG = mkDeviation true 0 /\
  deviatesFromBaseline 2 constantWindow None (freshWorld 0 (fun _ => 0))
    <> deviationSpec 2 constantWindow (orDefault None).
Proof.
  split; [reflexivity | split; [reflexivity |]].
  intros H. vm_compute in H. discriminate H.
Qed.

(** C2 (amended).  With the engine ready (bit 0x1 of the pipeline token
    set), [deviatesFromBaseline] follows the three-case definition: fewer
    than [minSamplesForBaseline] samples give [{false, 0}]; otherwise a
    stored stddev below 0.001 gives [{|value - mean| > 0.001, 0}];
    otherwise [zScore = (value - mean) / stddev] and
    [deviates = |zScore| > deviationThreshold].  With the engine not ready
    it returns [{false, 0}] in every case.  The function only reads the
    window: it returns the verdict and writes nothing. *)
Theorem deviatesFromBaseline_cases value profile config w :
  (pipelineReady (pipelineToken w) = true ->
     let c := orDefault config in
     let n := Z.of_nat (length (values profile)) in
     (n < minSamplesForBaseline c ->
        deviatesFromBaseline value profile config w = mkDeviation false 0) /\
     (minSamplesForBaseline c <= n -> JS.lt (stddev profile) 0.001 = true ->
        deviatesFromBaseline value profile config w =
          mkDeviation (JS.gt (JS.Math_abs (value - mean profile)) 0.001) 0) /\
     (minSamplesForBaseline c <= n -> JS.lt (stddev profile) 0.001 = false ->
        deviatesFromBaseline value profile config w =
          mkDeviation
            (JS.gt (JS.Math_abs ((value - mean profile) / stddev profile))
               (deviationThreshold c))
            ((value - mean profile) / stddev profile)) /\
     deviatesFromBaseline value profile config w = deviationSpec value profile c) /\
  (pipelineReady (pipelineToken w) = false ->
     deviatesFromBaseline value profile config w = mkDeviation false 0).
Proof.
  split; [| apply deviatesFromBaseline_not_ready].
  intros ready c n. subst c n.
  rewrite (deviatesFromBaseline_ready _ _ _ _ ready). unfold deviationSpec.
  repeat split.
  - intros Hn. apply Z.ltb_lt in Hn. now rewrite Hn.
  - intros Hn Hs. apply Z.ltb_ge in Hn. now rewrite Hn, Hs.
  - intros Hn Hs. apply Z.ltb_ge in Hn. now rewrite Hn, Hs.
Qed.

Lemma deviatesFromBaseline_cases_witness :
  deviatesFromBaseline 2 constantWindow None (freshWorld 1 (fun _ => 0))
    = mkDeviation true 0.
Proof.
  destruct (deviatesFromBaseline_cases 2 constantWindow None
              (freshWorld 1 (fun _ => 0))) as [Hready _].
  destruct (Hready eq_refl) as (_ & Hconst & _).
  rewrite Hconst; [reflexivity | vm_compute; discriminate | reflexivity].
Defined.

(** ** Cross-signal correlation *)

Lemma elem_of_uniqueFrom seen xs x :
  x ∈ uniqueFrom seen xs <-> x ∈ xs /\ x ∉ seen.
Proof.
  revert seen. induction xs as [| y ys IH]; intros seen; cbn [uniqueFrom].
  - set_solver.
  - case_bool_decide as Hy.
    + rewrite IH. set_solver.
    + rewrite elem_of_cons, IH. destruct (decide (x = y)); set_solver.
Qed.

Lemma NoDup_uniqueFrom seen xs : NoDup (uniqueFrom seen xs).
Proof.
  revert seen. induction xs as [| y ys IH]; intros seen; cbn [uniqueFrom].
  - constructor.
  - case_bool_decide as Hy; [apply IH |].
    constructor; [| apply IH].
    rewrite elem_of_uniqueFrom. set_solver.
Qed.

(** [unique] lists each distinct element once: its length is the size of
    the set of the elements. *)
Lemma length_unique xs : length (unique xs) = size (list_to_set xs : gset string).
Proof.
  rewrite <- (size_list_to_set (C := gset string) (unique xs))
    by apply NoDup_uniqueFrom.
  f_equal. apply set_eq. intros x.
  rewrite !elem_of_list_to_set. unfold unique.
  rewrite elem_of_uniqueFrom. set_solver.
Qed.

Lemma calculateCrossSignalBonus_few baseline :
  (length (recentDetections baseline) < 2)%nat ->
  calculateCrossSignalBonus baseline = mkCorrelation 0 [].
Proof.
  intros H. unfold calculateCrossSignalBonus.
  apply Nat.ltb_lt in H. now rewrite H.
Qed.

Lemma calculateCrossSignalBonus_many baseline :
  (2 <= length (recentDetections baseline))%nat ->
  calculateCrossSignalBonus baseline =
    if (3 <=? distinctModules baseline)%nat then
      mkCorrelation 15 (unique (map td_module (recentDetections baseline)))
    else if (2 <=? distinctModules baseline)%nat then
      mkCorrelation 8 (unique (map td_module (recentDetections baseline)))
    else mkCorrelation 0 [].
Proof.
  intros H. unfold calculateCrossSignalBonus, distinctModules.
  apply Nat.ltb_ge in H. rewrite H. now rewrite length_unique.
Qed.

(** C5. [calculateCrossSignalBonus] returns bonus 0 and no module when
    there are fewer than 2 recent detections; otherwise, with m the number
    of distinct module names among them, bonus 15 when m >= 3, bonus 8
    when m = 2, and bonus 0 and no module when m = 1. *)
Theorem calculateCrossSignalBonus_table baseline :
  ((length (recentDetections baseline) < 2)%nat ->
     calculateCrossSignalBonus baseline = mkCorrelation 0 []) /\
  ((2 <= length (recentDetections baseline))%nat ->
     ((3 <= distinctModules baseline)%nat ->
        bonus (calculateCrossSignalBonus baseline) = 15%float) /\
     (distinctModules baseline = 2%nat ->
        bonus (calculateCrossSignalBonus baseline) = 8%float) /\
     (distinctModules baseline = 1%nat ->
        calculateCrossSignalBonus baseline = mkCorrelation 0 [])).
Proof.
  split; [apply calculateCrossSignalBonus_few |].
  intros H. rewrite (calculateCrossSignalBonus_many _ H).
  repeat split.
  - intros Hm. apply Nat.leb_le in Hm. now rewrite Hm.
  - intros Hm. now rewrite Hm.
  - intros Hm. now rewrite Hm.
Qed.

Lemma calculateCrossSignalBonus_table_witness :
  bonus (calculateCrossSignalBonus
           (mkBaseline "p" 0 0 ∅
              [mkTD "AimAnalysis" 0.55 1; mkTD "InputAnalysis" 0.55 2;
               mkTD "AimAnalysis" 0.55 3])) = 8%float.
Proof.
  apply (proj2 (calculateCrossSignalBonus_table _)).
  - cbn. lia.
  - vm_compute. reflexivity.
Defined.

(** ** Rolling window *)

Section RollingWindow.

Implicit Types (p : RollingSamples) (v : float) (vs : list float).

Lemma values_pushSample p v :
  values (pushSample p v) =
    if Z.of_nat (length (values p ++ [v])) >? maxSamples p
    then tail (values p ++ [v]) else values p ++ [v].
Proof. reflexivity. Qed.

Lemma maxSamples_pushSample p v : maxSamples (pushSample p v) = maxSamples p.
Proof. reflexivity. Qed.

Lemma pushAll_snoc p vs v : pushAll p (vs ++ [v]) = pushSample (pushAll p vs) v.
Proof. unfold pushAll. now rewrite fold_left_app. Qed.

Lemma maxSamples_pushAll p vs : maxSamples (pushAll p vs) = maxSamples p.
Proof.
  induction vs as [| v vs IH] using rev_ind; [reflexivity |].
  now rewrite pushAll_snoc, maxSamples_pushSample.
Qed.

Lemma tail_drop {A} (l : list A) n : tail (drop n l) = drop (S n) l.
Proof.
  revert n. induction l as [| x l IH]; intros [| n]; cbn; auto.
Qed.

Lemma tail_snoc {A} (l : list A) x : l <> [] -> tail (l ++ [x]) = tail l ++ [x].
Proof. now destruct l. Qed.

(** The window after any pushes holds the last [c] of them (all of them
    while fewer than [c] were pushed), in push order. *)
Lemma values_pushAll (c : Z) vs :
  1 <= c ->
  values (pushAll (emptyWindow c) vs) = drop (length vs - Z.to_nat c) vs.
Proof.
  intros Hc. induction vs as [| v vs IH] using rev_ind; [reflexivity |].
  rewrite pushAll_snoc, values_pushSample, maxSamples_pushAll, IH.
  cbn [emptyWindow maxSamples].
  rewrite !length_app, length_drop. cbn [length].
  destruct (Z.gtb_spec (Z.of_nat (length vs - (length vs - Z.to_nat c) + 1)) c)
    as [Hgt | Hle].
  - assert (Hn : (Z.to_nat c <= length vs)%nat) by lia.
    rewrite tail_snoc.
    + rewrite tail_drop, drop_app_le by lia. f_equal. f_equal. lia.
    + intros Hnil. apply (f_equal (@length float)) in Hnil.
      rewrite length_drop in Hnil. cbn in Hnil. lia.
  - replace (length vs - Z.to_nat c)%nat with 0%nat by lia.
    replace (length vs + 1 - Z.to_nat c)%nat with 0%nat by lia.
    now rewrite !drop_0.
Qed.

Lemma pushSample_at_capacity p v :
  1 <= maxSamples p -> Z.of_nat (length (values p)) = maxSamples p ->
  values (pushSample p v) = tail (values p) ++ [v].
Proof.
  intros Hc Hfull. rewrite values_pushSample, length_app. cbn [length].
  destruct (Z.gtb_spec (Z.of_nat (length (values p) + 1)) (maxSamples p)); [| lia].
  apply tail_snoc. intros Hnil. rewrite Hnil in Hfull. cbn in Hfull. lia.
Qed.

End RollingWindow.

(** C3. For a capacity c >= 1 and c + k values pushed one at a time into an
    empty window of that capacity, the window then holds exactly c values,
    the last c pushed, in push order; and a push into the window thus
    filled drops its single oldest value and appends the new one. *)
Theorem pushSample_fifo (c : Z) (k : nat) (vs : list float) :
  1 <= c ->
  length vs = (Z.to_nat c + k)%nat ->
  let window := pushAll (emptyWindow c) vs in
  length (values window) = Z.to_nat c /\
  values window = drop k vs /\
  forall v, values (pushSample window v) = tail (values window) ++ [v].
Proof.
  intros Hc Hlen window.
  assert (Hvalues : values window = drop k vs).
  { subst window. rewrite values_pushAll by assumption. f_equal. lia. }
  assert (Hsize : length (values window) = Z.to_nat c).
  { rewrite Hvalues, length_drop. lia. }
  repeat split; try assumption.
  intros v. apply pushSample_at_capacity.
  - subst window. now rewrite maxSamples_pushAll.
  - subst window. rewrite maxSamples_pushAll, Hsize. cbn. lia.
Qed.

Lemma pushSample_fifo_witness :
  values (pushAll (emptyWindow 3) [10; 20; 30; 40; 50]%float) = [30; 40; 50]%float.
Proof.
  apply (proj1 (proj2 (pushSample_fifo 3 2 [10; 20; 30; 40; 50]%float
                         ltac:(lia) eq_refl))).
Defined.

Lemma calculateMean_arithmeticMean vs :
  vs <> [] -> calculateMean vs = arithmeticMean vs.
Proof. intros H. destruct vs; [contradiction | reflexivity]. Qed.

Lemma calculateStdDev_sampleStdDev vs :
  (3 <= length vs)%nat -> calculateStdDev vs = sampleStdDev vs.
Proof.
  intros H. unfold calculateStdDev, sampleStdDev.
  destruct (Nat.ltb_spec (length vs) 3) as [Hlt | _]; [lia |].
  cbv zeta. rewrite calculateMean_arithmeticMean; [reflexivity |].
  intros ->. cbn in H. lia.
Qed.

Lemma calculateStdDev_few vs : (length vs < 3)%nat -> calculateStdDev vs = 0%float.
Proof.
  intros H. unfold calculateStdDev. apply Nat.ltb_lt in H. now rewrite H.
Qed.

(** C4. Right after [pushSample], the stored mean is the arithmetic mean of
    the values the window now holds, and the stored stddev is their sample
    (n-1) standard deviation when there are at least 3 of them and 0 when
    there are fewer.  (A window of capacity at least 1 is never empty
    after a push; one emptied by a capacity below 1 stores mean 0.) *)
Theorem pushSample_statistics (p : RollingSamples) (v : float) :
  let p' := pushSample p v in
  (values p' <> [] -> mean p' = arithmeticMean (values p')) /\
  ((3 <= length (values p'))%nat -> stddev p' = sampleStdDev (values p')) /\
  ((length (values p') < 3)%nat -> stddev p' = 0%float) /\
  (1 <= maxSamples p -> values p' <> []) /\
  (values p' = [] -> mean p' = 0%float).
Proof.
  intros p'. repeat split.
  - apply calculateMean_arithmeticMean.
  - apply calculateStdDev_sampleStdDev.
  - apply calculateStdDev_few.
  - intros Hc Hnil. apply (f_equal (@length float)) in Hnil.
    subst p'. rewrite values_pushSample in Hnil.
    assert (Hl : length (values p ++ [v]) = S (length (values p)))
      by (rewrite length_app; cbn; lia).
    destruct (Z.gtb_spec (Z.of_nat (length (values p ++ [v]))) (maxSamples p));
      destruct (values p ++ [v]) as [| a [| b l]]; cbn in *; lia.
  - intros Hnil. change (mean p') with (calculateMean (values p')).
    now rewrite Hnil.
Qed.

Lemma pushSample_statistics_witness :
  mean (pushSample (pushAll (emptyWindow 3) [2; 4; 4]%float) 7) = 5%float /\
  stddev (pushSample (pushAll (emptyWindow 3) [2; 4; 4]%float) 7)
    = sampleStdDev [4; 4; 7]%float.
Proof.
  destruct (pushSample_statistics (pushAll (emptyWindow 3) [2; 4; 4]%float) 7)
    as (Hmean & Hsd & _).
  split.
  - rewrite Hmean; [reflexivity | vm_compute; discriminate].
  - rewrite Hsd; [reflexivity | vm_compute; lia].
Defined.

(** ** Dispatch pipeline *)

Section Dispatch.

Variables (callback : option DetectionCallback) (event : TelemetryEvent)
          (config : option SentinelConfig).

Lemma dispatch_app modules1 modules2 run :
  dispatch (modules1 ++ modules2) callback event config run =
    dispatch modules2 callback event config
      (dispatch modules1 callback event config run).
Proof.
  revert run. induction modules1 as [| m rest IH]; intros run; [reflexivity |].
  cbn [app dispatch].
  destruct (handler m event config (world run)) as [[[result |] | err] w];
    try apply IH.
  destruct (detected result); [| apply IH].
  destruct callback as [cb |]; [| apply IH].
  destruct (cb result event w) as [[[] | err] w']; apply IH.
Qed.

(** Every module of the registry is called, in registration order. *)
Lemma invoked_dispatch modules run :
  invoked (dispatch modules callback event config run) =
    invoked run ++ map name modules.
Proof.
  revert run. induction modules as [| m rest IH]; intros run.
  - cbn. now rewrite app_nil_r.
  - cbn [dispatch map].
    destruct (handler m event config (world run)) as [[[result |] | err] w].
    + destruct (detected result).
      * destruct callback as [cb |].
        -- destruct (cb result event w) as [[[] | err] w'];
             rewrite IH; cbn [invoked]; now rewrite <- app_assoc.
        -- rewrite IH; cbn [invoked]; now rewrite <- app_assoc.
      * rewrite IH; cbn [invoked]; now rewrite <- app_assoc.
    + rewrite IH; cbn [invoked]; now rewrite <- app_assoc.
    + rewrite IH; cbn [invoked]; now rewrite <- app_assoc.
Qed.

(** Results are only ever appended. *)
Lemma results_dispatch modules run :
  exists more, results (dispatch modules callback event config run) =
                 results run ++ more.
Proof.
  revert run. induction modules as [| m rest IH]; intros run.
  - exists []. cbn. now rewrite app_nil_r.
  - cbn [dispatch].
    destruct (handler m event config (world run)) as [[[result |] | err] w].
    + destruct (detected result).
      * destruct callback as [cb |].
        -- destruct (cb result event w) as [[[] | err] w'];
             match goal with |- context [dispatch rest _ _ _ ?r] =>
               destruct (IH r) as [more Hmore] end;
             rewrite Hmore; cbn [results]; rewrite <- app_assoc; eauto.
        -- match goal with |- context [dispatch rest _ _ _ ?r] =>
             destruct (IH r) as [more Hmore] end.
           rewrite Hmore; cbn [results]; rewrite <- app_assoc; eauto.
      * apply (IH (mkRun (results run) w (invoked run ++ [name m]))).
    + apply (IH (mkRun (results run) w (invoked run ++ [name m]))).
    + apply (IH (mkRun (results run) (logError (name m) err w)
                   (invoked run ++ [name m]))).
Qed.

(** A plug-in that throws adds no result; its error is logged. *)
Lemma dispatch_throw m run err w :
  handler m event config (world run) = (Throw err, w) ->
  dispatch [m] callback event config run =
    mkRun (results run) (logError (name m) err w) (invoked run ++ [name m]).
Proof. intros H. cbn [dispatch]. now rewrite H. Qed.

(** A plug-in that returns a detected result has it appended. *)
Lemma dispatch_report m run result w :
  handler m event config (world run) = (Normal (Some result), w) ->
  detected result = true ->
  results (dispatch [m] callback event config run) = results run ++ [result].
Proof.
  intros H Hd. cbn [dispatch]. rewrite H, Hd.
  destruct callback as [cb |]; [| reflexivity].
  now destruct (cb result event w) as [[[] | err'] w'].
Qed.

End Dispatch.

(** C7. While bit 0x1 of the pipeline state is clear, [processTelemetry]
    returns the empty array, calls no detector of the registry (whatever
    the registry and the observer), and leaves the state, hence every
    baseline, as it was. *)
Theorem processTelemetry_not_ready modules callback event config w :
  Z.land (getPipelineState w) 1 = 0 ->
  processTelemetryWith modules callback event config w = mkRun [] w [] /\
  processTelemetry callback event config w = ([], w) /\
  playerBaselines (snd (processTelemetry callback event config w)) = playerBaselines w.
Proof.
  intros Hbit.
  assert (Hgate : processTelemetryWith modules callback event config w = mkRun [] w []
                  /\ processTelemetryWith MODULES callback event config w = mkRun [] w []).
  { unfold processTelemetryWith, pipelineReady. rewrite Hbit. now cbn. }
  destruct Hgate as [Hany Hbuiltin].
  unfold processTelemetry. rewrite Hany, Hbuiltin. now cbn.
Qed.

Lemma processTelemetry_not_ready_witness :
  processTelemetryWith [mkModule "Reporting" reporting] None (snapEvent "p" "s" "l" "m" 0)
    None (freshWorld 0 (fun _ => 0))
  = mkRun [] (freshWorld 0 (fun _ => 0)) [].
Proof.
  apply (proj1 (processTelemetry_not_ready [mkModule "Reporting" reporting] None
                  (snapEvent "p" "s" "l" "m" 0) None (freshWorld 0 (fun _ => 0)) eq_refl)).
Defined.

(** C8. When a registered detector throws, the dispatch loop records no
    result for it and goes on: every detector of the registry is still
    called, in registration order, and the result a later detector returns
    for the event is in the array [processTelemetry] returns. *)
Theorem processTelemetry_failure_isolation
    (before between after : list DetectorModule) (bad good : DetectorModule)
    callback event config w err wbad result wgood :
  pipelineReady (getPipelineState w) = true ->
  let start := mkRun [] w [] in
  let atBad := dispatch before callback event config start in
  let afterBad := dispatch [bad] callback event config atBad in
  let atGood := dispatch between callback event config afterBad in
  handler bad event config (world atBad) = (Throw err, wbad) ->
  handler good event config (world atGood) = (Normal (Some result), wgood) ->
  detected result = true ->
  let final := processTelemetryWith (before ++ bad :: between ++ good :: after)
                 callback event config w in
  results afterBad = results atBad /\
  invoked final = map name (before ++ bad :: between ++ good :: after) /\
  In result (results final) /\
  (forall r, In r (results atBad) -> In r (results final)).
Proof.
  intros ready start atBad afterBad atGood Hbad Hgood Hdet final.
  assert (Hfinal : final =
    dispatch after callback event config
      (dispatch [good] callback event config atGood)).
  { subst final. unfold processTelemetryWith. rewrite ready. cbn [negb].
    change (bad :: between ++ good :: after)
      with ([bad] ++ between ++ [good] ++ after).
    now rewrite !dispatch_app. }
  repeat split.
  - subst afterBad. now rewrite (dispatch_throw _ _ _ _ _ _ _ Hbad).
  - subst final. unfold processTelemetryWith. rewrite ready. cbn [negb].
    now rewrite invoked_dispatch.
  - rewrite Hfinal.
    destruct (results_dispatch callback event config after
                (dispatch [good] callback event config atGood)) as [more ->].
    rewrite (dispatch_report _ _ _ _ _ _ _ Hgood Hdet).
    apply in_or_app. left. apply in_or_app. right. now left.
  - intros r Hr. rewrite Hfinal.
    destruct (results_dispatch callback event config after
                (dispatch [good] callback event config atGood)) as [more ->].
    rewrite (dispatch_report _ _ _ _ _ _ _ Hgood Hdet).
    subst atGood.
    destruct (results_dispatch callback event config between afterBad) as [more' ->].
    subst afterBad. rewrite (dispatch_throw _ _ _ _ _ _ _ Hbad). cbn [results].
    repeat (apply in_or_app; left). exact Hr.
Qed.

Lemma processTelemetry_failure_isolation_witness :
  results (processTelemetryWith
             [mkModule "Throwing" throwing; mkModule "Reporting" reporting]
             None (snapEvent "p" "s" "l" "m" 0) None (freshWorld 1 (fun _ => 0)))
    = [fixedResult] /\
  invoked (processTelemetryWith
             [mkModule "Throwing" throwing; mkModule "Reporting" reporting]
             None (snapEvent "p" "s" "l" "m" 0) None (freshWorld 1 (fun _ => 0)))
    = ["Throwing"; "Reporting"].
Proof.
  destruct (processTelemetry_failure_isolation [] [] []
              (mkModule "Throwing" throwing) (mkModule "Reporting" reporting)
              None (snapEvent "p" "s" "l" "m" 0) None (freshWorld 1 (fun _ => 0))
              "boom" (freshWorld 1 (fun _ => 0)) fixedResult
              (logError "Throwing" "boom" (freshWorld 1 (fun _ => 0)))
              eq_refl eq_refl eq_refl eq_refl) as (_ & Hcalls & _).
  split; [reflexivity | exact Hcalls].
Defined.

(** ** End-to-end scenario *)

Lemma getOrCreateBaseline_new player config w :
  playerBaselines w !! player = None ->
  exists w',
    getOrCreateBaseline player config w =
      (mkBaseline player (clock w (ticks w)) 0 ∅ [], w') /\
    pipelineToken w' = pipelineToken w.
Proof.
  intros H. unfold getOrCreateBaseline. rewrite H. cbn. eauto.
Qed.

(** The checks read the world through the readiness bit alone. *)
Lemma Aim_tally_readiness data config w w' baseline :
  pipelineReady (pipelineToken w) = pipelineReady (pipelineToken w') ->
  Aim.tally data config w baseline = Aim.tally data config w' baseline.
Proof.
  intros H. unfold Aim.tally, Aim.check1, Aim.check2, deviatesFromBaseline.
  now rewrite H.
Qed.

Lemma Aim_tally_snap config w player now :
  pipelineReady (pipelineToken w) = true ->
  orDefault config = DEFAULT_CONFIG ->
  Aim.tally (mkAim (Some 150%float) None None (Some 50%float) None None) config w
    (mkBaseline player now 0 ∅ []) =
  (mkCorrelation 0 [],
   mkTally
     (mkBaseline player now 0
        (<["aim.snapAngle" := mkRolling [150%float] 50 150 0]> ∅) [])
     snapFlags 55).
Proof.
  intros ready Hdef.
  rewrite (Aim_tally_readiness _ _ w (freshWorld 1 (fun _ => 0))) by now rewrite ready.
  destruct config as [c |]; cbn in Hdef; subst; vm_compute; reflexivity.
Qed.

Lemma analyzeAim_snap config w player session lobby game time :
  pipelineReady (pipelineToken w) = true ->
  orDefault config = DEFAULT_CONFIG ->
  playerBaselines w !! player = None ->
  exists w', Aim.analyzeAim (snapEvent player session lobby game time) config w
             = (Some snapResult, w').
Proof.
  intros ready Hdef Hnew. unfold Aim.analyzeAim.
  cbn [eventType snapEvent TelemetryEventType_eqb negb data asAim playerId].
  destruct (getOrCreateBaseline_new player config w Hnew) as (w1 & -> & Htoken).
  rewrite Aim_tally_snap by (rewrite ?Htoken; assumption).
  cbn [t_score t_flags t_baseline correlatedModules].
  change (JS.lt 55 Aim.SCORE_THRESHOLD) with false. cbv iota.
  unfold recordDetection, profileLength, getMetricProfile.
  cbn [Date_now metrics recentDetections].
  rewrite lookup_insert_eq. cbn [values length].
  eexists. f_equal. unfold snapResult. f_equal.
  rewrite resolveAction_ready by (cbn; rewrite ?Htoken; assumption).
  now rewrite Hdef.
Qed.

(** C1. Under the default configuration and with the engine ready, an
    [aim_data] event carrying only [snapAngle = 150] and
    [timeToTarget = 50], for a player without a baseline, yields one
    detection, from AimAnalysis: raw score 55, confidence 0.55, severity
    "medium", recommended action "flag". *)
Theorem processTelemetry_aim_scenario
    callback config w player session lobby game time :
  pipelineReady (getPipelineState w) = true ->
  orDefault config = DEFAULT_CONFIG ->
  playerBaselines w !! player = None ->
  let event := snapEvent player session lobby game time in
  let baseline := getOrCreateBaseline player config w in
  t_score (Aim.tally (asAim (data event)) config baseline.2 baseline.1).2 = 55%float /\
  exists result w',
    processTelemetry callback event config w = ([result], w') /\
    result = snapResult /\
    detected result = true /\
    module result = "AimAnalysis" /\
    confidence result = 0.55%float /\
    severity result = medium /\
    recommendedAction result = flag.
Proof.
  intros ready Hdef Hnew event baseline. split.
  - subst baseline event.
    destruct (getOrCreateBaseline_new player config w Hnew) as (w1 & -> & Htoken).
    cbn [fst snd data snapEvent asAim].
    rewrite Aim_tally_snap by (rewrite ?Htoken; assumption). reflexivity.
  - destruct (analyzeAim_snap config w player session lobby game time ready Hdef Hnew)
      as [w1 Haim].
    assert (Hrest : forall w2,
      dispatch (tail MODULES) callback event config (mkRun [snapResult] w2 ["AimAnalysis"])
      = mkRun [snapResult] w2 (map name MODULES)).
    { intros w2. reflexivity. }
    unfold processTelemetry, processTelemetryWith. rewrite ready. cbn [negb].
    change MODULES with (mkModule "AimAnalysis" (total Aim.analyzeAim) :: tail MODULES).
    cbn [dispatch handler total world results invoked name app].
    unfold total. subst event. rewrite Haim. cbn [detected snapResult].
    destruct callback as [cb |].
    + destruct (cb snapResult _ w1) as [[[] | err] w2]; rewrite Hrest;
        cbn [results world]; eexists _, _; repeat split; reflexivity.
    + rewrite Hrest. cbn [results world]. eexists _, _; repeat split; reflexivity.
Qed.

Lemma processTelemetry_aim_scenario_witness :
  processTelemetry None (snapEvent "player-1" "s" "l" "m" 0) None
    (freshWorld 1 (fun n => Z.of_nat n))
  = ([snapResult], snd (processTelemetry None (snapEvent "player-1" "s" "l" "m" 0) None
                          (freshWorld 1 (fun n => Z.of_nat n)))).
Proof.
  destruct (processTelemetry_aim_scenario None None
              (freshWorld 1 (fun n => Z.of_nat n)) "player-1" "s" "l" "m" 0
              eq_refl eq_refl eq_refl) as (_ & result & w' & Hrun & -> & _).
  rewrite Hrun. reflexivity.
Defined.

(** ** Confidence range of the detectors *)

Lemma pushMetric_score metricName v config t :
  t_score (pushMetric metricName v config t).2 = t_score t.
Proof.
  unfold pushMetric. now destruct (getMetricProfile (t_baseline t) metricName config).
Qed.

Lemma bumped_same s weights : bumped s weights s.
Proof. now left. Qed.

Lemma bumped_hit msg k weights t :
  In k weights -> bumped (t_score t) weights (t_score (hit msg k t)).
Proof. intros H. right. cbn [hit t_score]. now apply (in_map (fun k => _ + k)%float). Qed.

Create HintDb score.
#[local] Hint Resolve bumped_same bumped_hit : score.
#[local] Hint Extern 1 (In _ _) => cbn; tauto : score.

(** A check that first pushes into a metric window. *)
Ltac tracked_check :=
  match goal with
  | |- context [pushMetric ?n ?v ?c ?t] =>
      let H := fresh "Hscore" in
      pose proof (pushMetric_score n v c t) as H;
      destruct (pushMetric n v c t) as [? ?]; cbn [snd] in H; rewrite <- H
  end.

Ltac check_score :=
  intros;
  repeat match goal with
         | |- context [match ?x with Some _ => _ | None => _ end] => destruct x
         end;
  try tracked_check;
  repeat match goal with
         | |- context [if ?c then _ else _] => destruct c
         end;
  auto with score.

Lemma crossSignal_score t :
  bumped (t_score t) [15; 8]%float (t_score (crossSignal t).2).
Proof.
  unfold crossSignal, calculateCrossSignalBonus.
  repeat match goal with
         | |- context [if (?a <? ?b)%nat then _ else _] => destruct (a <? b)%nat
         | |- context [if (?a <=? ?b)%nat then _ else _] => destruct (a <=? b)%nat
         end;
    cbn [bonus]; vm_compute (JS.gt _ 0); cbn [snd t_score];
    solve [apply bumped_same | right; cbn; tauto].
Qed.

Section CheckScores.

Variables (config : option SentinelConfig) (w : World) (t : Tally).

Lemma Aim_check1_score d : bumped (t_score t) [30; 15]%float (t_score (Aim.check1 d config w t)).
Proof. unfold Aim.check1. check_score. Qed.
Lemma Aim_check2_score d : bumped (t_score t) [25; 12]%float (t_score (Aim.check2 d config w t)).
Proof. unfold Aim.check2. check_score. Qed.
Lemma Aim_check3_score d : bumped (t_score t) [20]%float (t_score (Aim.check3 d t)).
Proof. unfold Aim.check3. check_score. Qed.
Lemma Aim_check4_score d : bumped (t_score t) [25]%float (t_score (Aim.check4 d t)).
Proof. unfold Aim.check4. check_score. Qed.
Lemma Aim_check5_score d : bumped (t_score t) [15]%float (t_score (Aim.check5 d t)).
Proof. unfold Aim.check5. check_score. Qed.
Lemma Aim_check6_score d : bumped (t_score t) [20]%float (t_score (Aim.check6 d t)).
Proof. unfold Aim.check6. check_score. Qed.

Lemma Input_check1_score d : bumped (t_score t) [30; 15]%float (t_score (Input.check1 d config w t)).
Proof. unfold Input.check1. check_score. Qed.
Lemma Input_check2_score d : bumped (t_score t) [25]%float (t_score (Input.check2 d config t)).
Proof. unfold Input.check2. check_score. Qed.
Lemma Input_check3_score d : bumped (t_score t) [30]%float (t_score (Input.check3 d t)).
Proof. unfold Input.check3. check_score. Qed.
Lemma Input_check4_score d : bumped (t_score t) [20]%float (t_score (Input.check4 d t)).
Proof. unfold Input.check4. check_score. Qed.
Lemma Input_check5_score d : bumped (t_score t) [15]%float (t_score (Input.check5 d t)).
Proof. unfold Input.check5. check_score. Qed.
Lemma Input_check6_score d : bumped (t_score t) [25]%float (t_score (Input.check6 d t)).
Proof. unfold Input.check6. check_score. Qed.

Lemma Packets_check1_score d : bumped (t_score t) [25; 12]%float (t_score (Packets.check1 d config w t)).
Proof. unfold Packets.check1. check_score. Qed.
Lemma Packets_check2_score d : bumped (t_score t) [30]%float (t_score (Packets.check2 d t)).
Proof. unfold Packets.check2. check_score. Qed.
Lemma Packets_check3_score d : bumped (t_score t) [20]%float (t_score (Packets.check3 d t)).
Proof. unfold Packets.check3. check_score. Qed.
Lemma Packets_check4_score d : bumped (t_score t) [25]%float (t_score (Packets.check4 d t)).
Proof. unfold Packets.check4. check_score. Qed.
Lemma Packets_check5_score d : bumped (t_score t) [20]%float (t_score (Packets.check5 d t)).
Proof. unfold Packets.check5. check_score. Qed.
Lemma Packets_check6_score d : bumped (t_score t) [30]%float (t_score (Packets.check6 d t)).
Proof. unfold Packets.check6. check_score. Qed.

Lemma Stats_check1_score d : bumped (t_score t) [30; 15]%float (t_score (Stats.check1 d config w t)).
Proof. unfold Stats.check1. check_score. Qed.
Lemma Stats_check2_score d : bumped (t_score t) [20]%float (t_score (Stats.check2 d t)).
Proof. unfold Stats.check2. destruct (definedGt _ _); auto with score. Qed.
Lemma Stats_check3_score d : bumped (t_score t) [25]%float (t_score (Stats.check3 d t)).
Proof. unfold Stats.check3. destruct (definedGt _ _); auto with score. Qed.
Lemma Stats_check4_score d : bumped (t_score t) [25]%float (t_score (Stats.check4 d t)).
Proof. unfold Stats.check4. check_score. Qed.
Lemma Stats_check5_score d : bumped (t_score t) [15]%float (t_score (Stats.check5 d t)).
Proof. unfold Stats.check5. check_score. Qed.
Lemma Stats_check6_score d : bumped (t_score t) [20]%float (t_score (Stats.check6 d t)).
Proof. unfold Stats.check6. check_score. Qed.

Lemma Behavior_check1_score d : bumped (t_score t) [30; 15]%float (t_score (Behavior.check1 d config w t)).
Proof. unfold Behavior.check1. check_score. Qed.
Lemma Behavior_check2_score d : bumped (t_score t) [20]%float (t_score (Behavior.check2 d t)).
Proof. unfold Behavior.check2. check_score. Qed.
Lemma Behavior_check3_score d : bumped (t_score t) [30]%float (t_score (Behavior.check3 d t)).
Proof. unfold Behavior.check3. check_score. Qed.
Lemma Behavior_check4_score d : bumped (t_score t) [35]%float (t_score (Behavior.check4 d t)).
Proof. unfold Behavior.check4. check_score. Qed.
Lemma Behavior_check5_score d : bumped (t_score t) [25]%float (t_score (Behavior.check5 d t)).
Proof. unfold Behavior.check5. check_score. Qed.
Lemma Behavior_check6_score d : bumped (t_score t) [20]%float (t_score (Behavior.check6 d t)).
Proof. unfold Behavior.check6. check_score. Qed.

End CheckScores.

Lemma sums_here s : In s (sums s []).
Proof. now left. Qed.

Lemma sums_step s weights s1 rest s' :
  bumped s weights s1 -> In s' (sums s1 rest) -> In s' (sums s (weights :: rest)).
Proof.
  intros Hb Hin. cbn [sums]. apply in_flat_map. exists s1. split; [| exact Hin].
  destruct Hb as [-> | Hb]; [now left | now right].
Qed.

(** Every sum a detector's weights can form is below the threshold or
    gives a confidence within bounds. *)
Lemma sums_bounded steps s :
  forallb boundedOrBelow (sums 0 steps) = true ->
  In s (sums 0 steps) -> boundedOrBelow s = true.
Proof. intros Hall Hin. now apply (proj1 (forallb_forall _ _) Hall). Qed.

Section TallyScores.

Variables (config : option SentinelConfig) (w : World) (baseline : PlayerBaseline).

Lemma Aim_tally_score d :
  boundedOrBelow (t_score (Aim.tally d config w baseline).2) = true.
Proof.
  apply (sums_bounded [[30; 15]; [25; 12]; [20]; [25]; [15]; [20]; [15; 8]]%float);
    [vm_compute; reflexivity |].
  unfold Aim.tally. cbv zeta.
  eapply sums_step; [apply (Aim_check1_score config w (mkTally baseline [] 0) d) |].
  eapply sums_step; [apply Aim_check2_score |].
  eapply sums_step; [apply Aim_check3_score |].
  eapply sums_step; [apply Aim_check4_score |].
  eapply sums_step; [apply Aim_check5_score |].
  eapply sums_step; [apply Aim_check6_score |].
  eapply sums_step; [apply crossSignal_score |].
  apply sums_here.
Qed.

Lemma Input_tally_score d :
  boundedOrBelow (t_score (Input.tally d config w baseline).2) = true.
Proof.
  apply (sums_bounded [[30; 15]; [25]; [30]; [20]; [15]; [25]; [15; 8]]%float);
    [vm_compute; reflexivity |].
  unfold Input.tally. cbv zeta.
  eapply sums_step; [apply (Input_check1_score config w (mkTally baseline [] 0) d) |].
  eapply sums_step; [apply Input_check2_score |].
  eapply sums_step; [apply Input_check3_score |].
  eapply sums_step; [apply Input_check4_score |].
  eapply sums_step; [apply Input_check5_score |].
  eapply sums_step; [apply Input_check6_score |].
  eapply sums_step; [apply crossSignal_score |].
  apply sums_here.
Qed.

Lemma Packets_tally_score d :
  boundedOrBelow (t_score (Packets.tally d config w baseline).2) = true.
Proof.
  apply (sums_bounded [[25; 12]; [30]; [20]; [25]; [20]; [30]; [15; 8]]%float);
    [vm_compute; reflexivity |].
  unfold Packets.tally. cbv zeta.
  eapply sums_step; [apply (Packets_check1_score config w (mkTally baseline [] 0) d) |].
  eapply sums_step; [apply Packets_check2_score |].
  eapply sums_step; [apply Packets_check3_score |].
  eapply sums_step; [apply Packets_check4_score |].
  eapply sums_step; [apply Packets_check5_score |].
  eapply sums_step; [apply Packets_check6_score |].
  eapply sums_step; [apply crossSignal_score |].
  apply sums_here.
Qed.

Lemma Stats_tally_score d :
  boundedOrBelow (t_score (Stats.tally d config w baseline).2) = true.
Proof.
  apply (sums_bounded [[30; 15]; [20]; [25]; [25]; [15]; [20]; [15; 8]]%float);
    [vm_compute; reflexivity |].
  unfold Stats.tally. cbv zeta.
  eapply sums_step; [apply (Stats_check1_score config w (mkTally baseline [] 0) d) |].
  eapply sums_step; [apply Stats_check2_score |].
  eapply sums_step; [apply Stats_check3_score |].
  eapply sums_step; [apply Stats_check4_score |].
  eapply sums_step; [apply Stats_check5_score |].
  eapply sums_step; [apply Stats_check6_score |].
  eapply sums_step; [apply crossSignal_score |].
  apply sums_here.
Qed.

Lemma Behavior_tally_score d :
  boundedOrBelow (t_score (Behavior.tally d config w baseline).2) = true.
Proof.
  apply (sums_bounded [[30; 15]; [20]; [30]; [35]; [25]; [20]; [15; 8]]%float);
    [vm_compute; reflexivity |].
  unfold Behavior.tally. cbv zeta.
  eapply sums_step; [apply (Behavior_check1_score config w (mkTally baseline [] 0) d) |].
  eapply sums_step; [apply Behavior_check2_score |].
  eapply sums_step; [apply Behavior_check3_score |].
  eapply sums_step; [apply Behavior_check4_score |].
  eapply sums_step; [apply Behavior_check5_score |].
  eapply sums_step; [apply Behavior_check6_score |].
  eapply sums_step; [apply crossSignal_score |].
  apply sums_here.
Qed.

End TallyScores.

Lemma fromScore_intro score r :
  boundedOrBelow score = true -> JS.lt score 40 = false ->
  confidence r = confidenceOf score -> fromScore r.
Proof.
  intros Hok Hlt Hconf. exists score. unfold boundedOrBelow in Hok.
  rewrite Hlt in Hok. cbn [orb] in Hok. apply andb_true_iff in Hok as [Hlo Hhi].
  rewrite Hconf. auto.
Qed.

(** The common end of the five detectors: nothing below the threshold,
    and the confidence computed from the score. *)
Ltac detector_confidence tally tally_score :=
  intros Hrun;
  match type of Hrun with
  | context [if negb ?c then _ else _] => destruct c; cbn [negb] in Hrun
  end; [| discriminate Hrun];
  match type of Hrun with
  | context [getOrCreateBaseline ?p ?c ?w] =>
      destruct (getOrCreateBaseline p c w) as [? ?]
  end;
  match type of Hrun with
  | context [tally ?d ?c ?w ?b] =>
      pose proof (tally_score c w b d) as Hok;
      destruct (tally d c w b) as [? ?];
      cbn [snd] in Hok;
      match type of Hrun with
      | context [if JS.lt ?s ?limit then _ else _] =>
          destruct (JS.lt s limit) eqn:Hlt; [discriminate Hrun |];
          repeat match type of Hrun with
                 | context [recordDetection ?b ?m ?c ?w] =>
                     destruct (recordDetection b m c w) as [? ?]
                 | context [profileLength ?b ?m ?c] =>
                     destruct (profileLength b m c) as [? ?]
                 end;
          injection Hrun as <- _;
          eapply fromScore_intro; [exact Hok | exact Hlt | reflexivity]
      end
  end.

Lemma analyzeAim_confidence event config w r w' :
  Aim.analyzeAim event config w = (Some r, w') -> fromScore r.
Proof. unfold Aim.analyzeAim. detector_confidence Aim.tally Aim_tally_score. Qed.

Lemma analyzeInput_confidence event config w r w' :
  Input.analyzeInput event config w = (Some r, w') -> fromScore r.
Proof. unfold Input.analyzeInput. detector_confidence Input.tally Input_tally_score. Qed.

Lemma analyzePackets_confidence event config w r w' :
  Packets.analyzePackets event config w = (Some r, w') -> fromScore r.
Proof. unfold Packets.analyzePackets. detector_confidence Packets.tally Packets_tally_score. Qed.

Lemma analyzeStats_confidence event config w r w' :
  Stats.analyzeStats event config w = (Some r, w') -> fromScore r.
Proof. unfold Stats.analyzeStats. detector_confidence Stats.tally Stats_tally_score. Qed.

Lemma analyzeBehavior_confidence event config w r w' :
  Behavior.analyzeBehavior event config w = (Some r, w') -> fromScore r.
Proof. unfold Behavior.analyzeBehavior. detector_confidence Behavior.tally Behavior_tally_score. Qed.

Lemma total_result f event config w c w' r :
  total f event config w = (c, w') -> c = Normal (Some r) ->
  f event config w = (Some r, w').
Proof.
  unfold total. destruct (f event config w) as [o w0].
  intros [= <- <-] [= ->]. reflexivity.
Qed.

(** C10. Whatever the event, the configuration and the state, a result
    returned by one of the five registered detectors comes from a score
    that is not below the 40-point threshold, its confidence is
    [min(score / 100, 0.99)], and that confidence lies in [0.40, 0.99]. *)
Theorem detector_confidence_range m event config w result w' :
  In m MODULES ->
  handler m event config w = (Normal (Some result), w') ->
  JS.le 0.40 (confidence result) = true /\
  JS.le (confidence result) 0.99 = true /\
  exists score,
    JS.lt score 40 = false /\ confidence result = JS.Math_min (score / 100) 0.99.
Proof.
  intros Hm Hrun.
  assert (H : fromScore result).
  { cbn [MODULES In] in Hm.
    destruct Hm as [<- | [<- | [<- | [<- | [<- | []]]]]]; cbn [handler] in Hrun;
      apply (total_result _ _ _ _ _ _ result) in Hrun; try reflexivity.
    - exact (analyzeAim_confidence _ _ _ _ _ Hrun).
    - exact (analyzeInput_confidence _ _ _ _ _ Hrun).
    - exact (analyzePackets_confidence _ _ _ _ _ Hrun).
    - exact (analyzeStats_confidence _ _ _ _ _ Hrun).
    - exact (analyzeBehavior_confidence _ _ _ _ _ Hrun). }
  destruct H as (score & Hlt & Hconf & Hlo & Hhi). eauto 6.
Qed.

Lemma detector_confidence_range_witness :
  JS.le 0.40 (confidence snapResult) = true /\
  JS.le (confidence snapResult) 0.99 = true.
Proof.
  destruct (detector_confidence_range
              (mkModule "AimAnalysis" (total Aim.analyzeAim))
              (snapEvent "player-1" "s" "l" "m" 0) None
              (freshWorld 1 (fun n => Z.of_nat n)) snapResult
              (snd (Aim.analyzeAim (snapEvent "player-1" "s" "l" "m" 0) None
                      (freshWorld 1 (fun n => Z.of_nat n)))))
    as (Hlo & Hhi & _).
  - cbn. tauto.
  - vm_compute. reflexivity.
  - split; assumption.
Defined.

(** ** Reproducibility *)


Section TimeShift.

Variable delta : Z.

Lemma filter_shift cutoff l :
  List.filter (fun d => td_timestamp d >? cutoff + delta) (map (shiftDetection delta) l)
  = map (shiftDetection delta) (List.filter (fun d => td_timestamp d >? cutoff) l).
Proof.
  induction l as [| d l IH]; [reflexivity |]. cbn [map List.filter shiftDetection td_timestamp].
  replace (td_timestamp d + delta >? cutoff + delta) with (td_timestamp d >? cutoff)
    by (destruct (Z.gtb_spec (td_timestamp d) cutoff),
          (Z.gtb_spec (td_timestamp d + delta) (cutoff + delta)); lia || reflexivity).
  destruct (td_timestamp d >? cutoff); cbn [map]; now rewrite IH.
Qed.

Lemma Date_now_shift w w' :
  shifted delta w w' ->
  (Date_now w').1 = (Date_now w).1 + delta /\
  shifted delta (Date_now w).2 (Date_now w').2.
Proof.
  intros (Ht & Hb & Hc & Hk & Hl). unfold Date_now, shifted. cbn.
  rewrite Hk. repeat split; auto.
Qed.

Lemma setBaselines_shift m w w' :
  shifted delta w w' ->
  shifted delta (setBaselines m w) (setBaselines (shiftBaseline delta <$> m) w').
Proof. intros (Ht & Hb & Hc & Hk & Hl). unfold shifted. cbn. auto. Qed.

Lemma commit_shift player b w w' :
  shifted delta w w' ->
  shifted delta (commit player b w) (commit player (shiftBaseline delta b) w').
Proof.
  intros H. pose proof H as (Ht & Hb & Hc & Hk & Hl). unfold commit.
  rewrite Hb, <- fmap_insert. now apply setBaselines_shift.
Qed.

Lemma getOrCreateBaseline_shift player config w w' :
  shifted delta w w' ->
  (getOrCreateBaseline player config w').1
    = shiftBaseline delta (getOrCreateBaseline player config w).1 /\
  shifted delta (getOrCreateBaseline player config w).2
    (getOrCreateBaseline player config w').2.
Proof.
  intros H. pose proof H as (Ht & Hb & Hc & Hk & Hl).
  unfold getOrCreateBaseline. rewrite Hb, lookup_fmap.
  destruct (playerBaselines w !! player) as [b |]; cbn [fmap option_fmap option_map].
  - cbn. rewrite Hk, Hc.
    replace (clock w (ticks w) + delta - correlationWindowMs (orDefault config))
      with (clock w (ticks w) - correlationWindowMs (orDefault config) + delta) by lia.
    rewrite filter_shift. split; [reflexivity |].
    unfold shifted. cbn. repeat split; auto.
    rewrite Hb, fmap_insert. reflexivity.
  - cbn. rewrite !Hk, !Hc. split; [reflexivity |].
    unfold shifted. cbn. repeat split; auto.
    rewrite Hb, !fmap_insert. reflexivity.
Qed.


Lemma getMetricProfile_shift b metricName config :
  getMetricProfile (shiftBaseline delta b) metricName config =
    ((getMetricProfile b metricName config).1,
     shiftBaseline delta (getMetricProfile b metricName config).2).
Proof.
  unfold getMetricProfile. cbn [shiftBaseline metrics].
  now destruct (metrics b !! metricName).
Qed.

Lemma pushMetric_shift metricName v config t :
  pushMetric metricName v config (shiftTally delta t) =
    ((pushMetric metricName v config t).1,
     shiftTally delta (pushMetric metricName v config t).2).
Proof.
  unfold pushMetric. cbn [shiftTally t_baseline t_flags t_score].
  rewrite getMetricProfile_shift.
  now destruct (getMetricProfile (t_baseline t) metricName config).
Qed.

Lemma profileLength_shift b metricName config :
  profileLength (shiftBaseline delta b) metricName config =
    ((profileLength b metricName config).1,
     shiftBaseline delta (profileLength b metricName config).2).
Proof.
  unfold profileLength. rewrite getMetricProfile_shift.
  now destruct (getMetricProfile b metricName config).
Qed.

Lemma calculateCrossSignalBonus_shift b :
  calculateCrossSignalBonus (shiftBaseline delta b) = calculateCrossSignalBonus b.
Proof.
  unfold calculateCrossSignalBonus. cbn [shiftBaseline recentDetections].
  rewrite length_map, map_map. reflexivity.
Qed.

Lemma crossSignal_shift t :
  crossSignal (shiftTally delta t) =
    ((crossSignal t).1, shiftTally delta (crossSignal t).2).
Proof.
  unfold crossSignal. cbn [shiftTally t_baseline t_flags t_score].
  rewrite calculateCrossSignalBonus_shift.
  now destruct (JS.gt (bonus (calculateCrossSignalBonus (t_baseline t))) 0).
Qed.

Lemma tail_map {A B} (f : A -> B) l : tail (map f l) = map f (tail l).
Proof. now destruct l. Qed.

Lemma recordDetection_shift b moduleName c w w' :
  shifted delta w w' ->
  (recordDetection (shiftBaseline delta b) moduleName c w').1
    = shiftBaseline delta (recordDetection b moduleName c w).1 /\
  shifted delta (recordDetection b moduleName c w).2
    (recordDetection (shiftBaseline delta b) moduleName c w').2.
Proof.
  intros H. pose proof H as (Ht & Hb & Hc & Hk & Hl).
  unfold recordDetection. cbn. rewrite Hk, Hc, !length_app, length_map.
  split; [| unfold shifted; cbn; repeat split; auto].
  unfold shiftBaseline. cbn. f_equal.
  match goal with |- context [if ?over then _ else _] => destruct over end.
  - rewrite <- tail_map, map_app. reflexivity.
  - rewrite map_app. reflexivity.
Qed.

End TimeShift.

Lemma deviatesFromBaseline_token v profile config w w' :
  pipelineToken w' = pipelineToken w ->
  deviatesFromBaseline v profile config w' = deviatesFromBaseline v profile config w.
Proof. intros H. unfold deviatesFromBaseline. now rewrite H. Qed.

Lemma resolveAction_token c config w w' :
  pipelineToken w' = pipelineToken w ->
  resolveAction c config w' = resolveAction c config w.
Proof. intros H. unfold resolveAction. now rewrite H. Qed.

(** A check that pushes into a metric window does the same on the shifted
    tally; so does one that only compares a field. *)
Ltac shift_check Htoken :=
  intros;
  repeat match goal with
         | |- context [match ?x with Some _ => _ | None => _ end] => destruct x
         end;
  rewrite ?pushMetric_shift;
  repeat match goal with
         | |- context [pushMetric ?n ?v ?c ?t] => destruct (pushMetric n v c t) as [? ?]
         end;
  cbn [fst snd];
  rewrite ?(deviatesFromBaseline_token _ _ _ _ _ Htoken);
  repeat match goal with
         | |- context [if ?c then _ else _] => destruct c
         end;
  reflexivity.

Section ShiftedChecks.

Variables (delta : Z) (config : option SentinelConfig) (w w' : World).
Hypothesis Htoken : pipelineToken w' = pipelineToken w.

Lemma Aim_tally_shift d b :
  Aim.tally d config w' (shiftBaseline delta b) =
    ((Aim.tally d config w b).1, shiftTally delta (Aim.tally d config w b).2).
Proof.
  assert (H1 : forall t, Aim.check1 d config w' (shiftTally delta t)
                         = shiftTally delta (Aim.check1 d config w t))
    by (unfold Aim.check1; shift_check Htoken).
  assert (H2 : forall t, Aim.check2 d config w' (shiftTally delta t)
                         = shiftTally delta (Aim.check2 d config w t))
    by (unfold Aim.check2; shift_check Htoken).
  assert (H3 : forall t, Aim.check3 d (shiftTally delta t) = shiftTally delta (Aim.check3 d t))
    by (unfold Aim.check3; shift_check Htoken).
  assert (H4 : forall t, Aim.check4 d (shiftTally delta t) = shiftTally delta (Aim.check4 d t))
    by (unfold Aim.check4; shift_check Htoken).
  assert (H5 : forall t, Aim.check5 d (shiftTally delta t) = shiftTally delta (Aim.check5 d t))
    by (unfold Aim.check5; shift_check Htoken).
  assert (H6 : forall t, Aim.check6 d (shiftTally delta t) = shiftTally delta (Aim.check6 d t))
    by (unfold Aim.check6; shift_check Htoken).
  unfold Aim.tally. cbv zeta.
  change (mkTally (shiftBaseline delta b) [] 0)
    with (shiftTally delta (mkTally b [] 0)).
  now rewrite H1, H2, H3, H4, H5, H6, crossSignal_shift.
Qed.


Lemma Input_tally_shift d b :
  Input.tally d config w' (shiftBaseline delta b) =
    ((Input.tally d config w b).1, shiftTally delta (Input.tally d config w b).2).
Proof.
  assert (H1 : forall t, Input.check1 d config w' (shiftTally delta t)
                         = shiftTally delta (Input.check1 d config w t))
    by (unfold Input.check1; shift_check Htoken).
  assert (H2 : forall t, Input.check2 d config (shiftTally delta t)
                         = shiftTally delta (Input.check2 d config t))
    by (unfold Input.check2; shift_check Htoken).
  assert (H3 : forall t, Input.check3 d (shiftTally delta t)
                         = shiftTally delta (Input.check3 d t))
    by (unfold Input.check3; shift_check Htoken).
  assert (H4 : forall t, Input.check4 d (shiftTally delta t)
                         = shiftTally delta (Input.check4 d t))
    by (unfold Input.check4; shift_check Htoken).
  assert (H5 : forall t, Input.check5 d (shiftTally delta t)
                         = shiftTally delta (Input.check5 d t))
    by (unfold Input.check5; shift_check Htoken).
  assert (H6 : forall t, Input.check6 d (shiftTally delta t)
                         = shiftTally delta (Input.check6 d t))
    by (unfold Input.check6; shift_check Htoken).
  unfold Input.tally. cbv zeta.
  change (mkTally (shiftBaseline delta b) [] 0)
    with (shiftTally delta (mkTally b [] 0)).
  now rewrite H1, H2, H3, H4, H5, H6, crossSignal_shift.
Qed.

Lemma Packets_tally_shift d b :
  Packets.tally d config w' (shiftBaseline delta b) =
    ((Packets.tally d config w b).1, shiftTally delta (Packets.tally d config w b).2).
Proof.
  assert (H1 : forall t, Packets.check1 d config w' (shiftTally delta t)
                         = shiftTally delta (Packets.check1 d config w t))
    by (unfold Packets.check1; shift_check Htoken).
  assert (H2 : forall t, Packets.check2 d (shiftTally delta t)
                         = shiftTally delta (Packets.check2 d t))
    by (unfold Packets.check2; shift_check Htoken).
  assert (H3 : forall t, Packets.check3 d (shiftTally delta t)
                         = shiftTally delta (Packets.check3 d t))
    by (unfold Packets.check3; shift_check Htoken).
  assert (H4 : forall t, Packets.check4 d (shiftTally delta t)
                         = shiftTally delta (Packets.check4 d t))
    by (unfold Packets.check4; shift_check Htoken).
  assert (H5 : forall t, Packets.check5 d (shiftTally delta t)
                         = shiftTally delta (Packets.check5 d t))
    by (unfold Packets.check5; shift_check Htoken).
  assert (H6 : forall t, Packets.check6 d (shiftTally delta t)
                         = shiftTally delta (Packets.check6 d t))
    by (unfold Packets.check6; shift_check Htoken).
  unfold Packets.tally. cbv zeta.
  change (mkTally (shiftBaseline delta b) [] 0)
    with (shiftTally delta (mkTally b [] 0)).
  now rewrite H1, H2, H3, H4, H5, H6, crossSignal_shift.
Qed.

Lemma Stats_tally_shift d b :
  Stats.tally d config w' (shiftBaseline delta b) =
    ((Stats.tally d config w b).1, shiftTally delta (Stats.tally d config w b).2).
Proof.
  assert (H1 : forall t, Stats.check1 d config w' (shiftTally delta t)
                         = shiftTally delta (Stats.check1 d config w t))
    by (unfold Stats.check1; shift_check Htoken).
  assert (H2 : forall t, Stats.check2 d (shiftTally delta t)
                         = shiftTally delta (Stats.check2 d t))
    by (unfold Stats.check2; shift_check Htoken).
  assert (H3 : forall t, Stats.check3 d (shiftTally delta t)
                         = shiftTally delta (Stats.check3 d t))
    by (unfold Stats.check3; shift_check Htoken).
  assert (H4 : forall t, Stats.check4 d (shiftTally delta t)
                         = shiftTally delta (Stats.check4 d t))
    by (unfold Stats.check4; shift_check Htoken).
  assert (H5 : forall t, Stats.check5 d (shiftTally delta t)
                         = shiftTally delta (Stats.check5 d t))
    by (unfold Stats.check5; shift_check Htoken).
  assert (H6 : forall t, Stats.check6 d (shiftTally delta t)
                         = shiftTally delta (Stats.check6 d t))
    by (unfold Stats.check6; shift_check Htoken).
  unfold Stats.tally. cbv zeta.
  change (mkTally (shiftBaseline delta b) [] 0)
    with (shiftTally delta (mkTally b [] 0)).
  now rewrite H1, H2, H3, H4, H5, H6, crossSignal_shift.
Qed.

Lemma Behavior_tally_shift d b :
  Behavior.tally d config w' (shiftBaseline delta b) =
    ((Behavior.tally d config w b).1, shiftTally delta (Behavior.tally d config w b).2).
Proof.
  assert (H1 : forall t, Behavior.check1 d config w' (shiftTally delta t)
                         = shiftTally delta (Behavior.check1 d config w t))
    by (unfold Behavior.check1; shift_check Htoken).
  assert (H2 : forall t, Behavior.check2 d (shiftTally delta t)
                         = shiftTally delta (Behavior.check2 d t))
    by (unfold Behavior.check2; shift_check Htoken).
  assert (H3 : forall t, Behavior.check3 d (shiftTally delta t)
                         = shiftTally delta (Behavior.check3 d t))
    by (unfold Behavior.check3; shift_check Htoken).
  assert (H4 : forall t, Behavior.check4 d (shiftTally delta t)
                         = shiftTally delta (Behavior.check4 d t))
    by (unfold Behavior.check4; shift_check Htoken).
  assert (H5 : forall t, Behavior.check5 d (shiftTally delta t)
                         = shiftTally delta (Behavior.check5 d t))
    by (unfold Behavior.check5; shift_check Htoken).
  assert (H6 : forall t, Behavior.check6 d (shiftTally delta t)
                         = shiftTally delta (Behavior.check6 d t))
    by (unfold Behavior.check6; shift_check Htoken).
  unfold Behavior.tally. cbv zeta.
  change (mkTally (shiftBaseline delta b) [] 0)
    with (shiftTally delta (mkTally b [] 0)).
  now rewrite H1, H2, H3, H4, H5, H6, crossSignal_shift.
Qed.

End ShiftedChecks.

(** A detector run on shifted states and on events with the same
    telemetry returns the same result and leaves shifted states. *)
Ltac detector_shift tally tally_shift :=
  intros Hs (Hp & Hty & Hd);
  rewrite <- Hp, <- Hty, <- Hd;
  match goal with
  | |- context [if negb ?c then _ else _] => destruct c; cbn [negb]
  end; [| split; [reflexivity | exact Hs]];
  match type of Hs with
  | shifted ?d ?w0 ?w1 =>
      match goal with
      | |- context [getOrCreateBaseline ?p ?c w0] =>
          destruct (getOrCreateBaseline_shift d p c w0 w1 Hs) as [Hb Hw];
          destruct (getOrCreateBaseline p c w0) as [b0 w0'];
          destruct (getOrCreateBaseline p c w1) as [b1 w1'];
          cbn [fst snd] in Hb, Hw; subst b1;
          rewrite (tally_shift d c w0' w1' (proj1 Hw));
          match goal with
          | |- context [tally ?dd c w0' b0] => destruct (tally dd c w0' b0) as [? ?]
          end;
          cbn [fst snd shiftTally t_score t_flags t_baseline];
          match goal with
          | |- context [if JS.lt ?s ?limit then _ else _] => destruct (JS.lt s limit)
          end; [split; [reflexivity | now apply commit_shift] |];
          match goal with
          | |- context [recordDetection ?tb ?m ?cf w0'] =>
              destruct (recordDetection_shift d tb m cf w0' w1' Hw) as [Hb2 Hw2];
              destruct (recordDetection tb m cf w0') as [b2 w2];
              destruct (recordDetection (shiftBaseline d tb) m cf w1') as [b2' w2'];
              cbn [fst snd] in Hb2, Hw2; subst b2';
              rewrite profileLength_shift;
              match goal with
              | |- context [profileLength ?pb ?pn ?pc] =>
                  destruct (profileLength pb pn pc) as [? ?]
              end;
              cbn [fst snd];
              match goal with
              | |- context [commit p ?b w2] =>
                  pose proof (commit_shift d p b w2 w2' Hw2) as Hw3;
                  rewrite (resolveAction_token _ _ _ _ (proj1 Hw3));
                  split; [reflexivity | exact Hw3]
              end
          end
      end
  end.

Section ShiftedDetectors.

Variables (delta : Z) (e e' : TelemetryEvent) (config : option SentinelConfig)
          (w w' : World).

Lemma analyzeAim_shift :
  shifted delta w w' -> sameTelemetry e e' ->
  (Aim.analyzeAim e' config w').1 = (Aim.analyzeAim e config w).1 /\
  shifted delta (Aim.analyzeAim e config w).2 (Aim.analyzeAim e' config w').2.
Proof. unfold Aim.analyzeAim. detector_shift Aim.tally Aim_tally_shift. Qed.

Lemma analyzeInput_shift :
  shifted delta w w' -> sameTelemetry e e' ->
  (Input.analyzeInput e' config w').1 = (Input.analyzeInput e config w).1 /\
  shifted delta (Input.analyzeInput e config w).2 (Input.analyzeInput e' config w').2.
Proof. unfold Input.analyzeInput. detector_shift Input.tally Input_tally_shift. Qed.

Lemma analyzePackets_shift :
  shifted delta w w' -> sameTelemetry e e' ->
  (Packets.analyzePackets e' config w').1 = (Packets.analyzePackets e config w).1 /\
  shifted delta (Packets.analyzePackets e config w).2 (Packets.analyzePackets e' config w').2.
Proof. unfold Packets.analyzePackets. detector_shift Packets.tally Packets_tally_shift. Qed.

Lemma analyzeStats_shift :
  shifted delta w w' -> sameTelemetry e e' ->
  (Stats.analyzeStats e' config w').1 = (Stats.analyzeStats e config w).1 /\
  shifted delta (Stats.analyzeStats e config w).2 (Stats.analyzeStats e' config w').2.
Proof. unfold Stats.analyzeStats. detector_shift Stats.tally Stats_tally_shift. Qed.

Lemma analyzeBehavior_shift :
  shifted delta w w' -> sameTelemetry e e' ->
  (Behavior.analyzeBehavior e' config w').1 = (Behavior.analyzeBehavior e config w).1 /\
  shifted delta (Behavior.analyzeBehavior e config w).2
    (Behavior.analyzeBehavior e' config w').2.
Proof. unfold Behavior.analyzeBehavior. detector_shift Behavior.tally Behavior_tally_shift. Qed.

End ShiftedDetectors.

Section ShiftedDispatch.

Variables (delta : Z) (e e' : TelemetryEvent) (config : option SentinelConfig).
Hypothesis Hsame : sameTelemetry e e'.

Lemma steady_total f :
  (forall w w', shifted delta w w' ->
     (f e' config w').1 = (f e config w).1 /\
     shifted delta (f e config w).2 (f e' config w').2) ->
  steady delta e e' config (total f).
Proof.
  intros Hf w w' Hs. destruct (Hf w w' Hs) as [Hr Hw]. unfold total.
  destruct (f e config w) as [r w1], (f e' config w') as [r' w1'].
  cbn in *. now subst.
Qed.

Lemma logError_shift moduleName err w w' :
  shifted delta w w' ->
  shifted delta (logError moduleName err w) (logError moduleName err w').
Proof.
  intros (Ht & Hb & Hc & Hk & Hl). unfold shifted, logError, console_error. cbn.
  rewrite Hl. auto.
Qed.

Lemma dispatch_shift modules :
  Forall (fun m => steady delta e e' config (handler m)) modules ->
  forall run run',
    results run' = results run -> shifted delta (world run) (world run') ->
    results (dispatch modules None e' config run')
      = results (dispatch modules None e config run) /\
    shifted delta (world (dispatch modules None e config run))
      (world (dispatch modules None e' config run')).
Proof.
  induction 1 as [| m rest Hm _ IH]; intros run run' Hres Hw; [now split |].
  cbn [dispatch]. destruct (Hm _ _ Hw) as [Hc Hw1].
  destruct (handler m e config (world run)) as [c w1],
           (handler m e' config (world run')) as [c' w1'].
  cbn [fst snd] in Hc, Hw1. subst c'.
  destruct c as [[result |] | err].
  - destruct (detected result); apply IH; cbn [results world]; congruence.
  - apply IH; cbn [results world]; congruence.
  - apply IH; cbn [results world]; [congruence | now apply logError_shift].
Qed.

Lemma MODULES_steady : Forall (fun m => steady delta e e' config (handler m)) MODULES.
Proof.
  unfold MODULES.
  repeat apply Forall_cons_2; [.. | apply Forall_nil_2];
    cbn [handler]; apply steady_total; intros w w' Hs.
  - now apply analyzeAim_shift.
  - now apply analyzeInput_shift.
  - now apply analyzePackets_shift.
  - now apply analyzeStats_shift.
  - now apply analyzeBehavior_shift.
Qed.

Lemma processTelemetry_shift w w' :
  shifted delta w w' ->
  (processTelemetry None e' config w').1 = (processTelemetry None e config w).1 /\
  shifted delta (processTelemetry None e config w).2 (processTelemetry None e' config w').2.
Proof.
  intros Hs. pose proof Hs as (Ht & _).
  unfold processTelemetry, processTelemetryWith, getPipelineState. rewrite Ht.
  destruct (negb (pipelineReady (pipelineToken w))); cbn [fst snd results world].
  - now split.
  - now apply dispatch_shift; [apply MODULES_steady | |].
Qed.

End ShiftedDispatch.

Lemma replay_shift delta config events events' :
  Forall2 sameTelemetry events events' ->
  forall w w', shifted delta w w' ->
    (replay None config events' w').1 = (replay None config events w).1.
Proof.
  induction 1 as [| e e' events events' He _ IH]; intros w w' Hs; [reflexivity |].
  cbn [replay].
  destruct (processTelemetry_shift delta e e' config He w w' Hs) as [Hr Hw].
  destruct (processTelemetry None e config w) as [rs w1],
           (processTelemetry None e' config w') as [rs' w1'].
  cbn [fst snd] in Hr, Hw. subst rs'.
  specialize (IH _ _ Hw).
  destruct (replay None config events w1) as [out w2],
           (replay None config events' w1') as [out' w2'].
  cbn [fst snd] in IH |- *. now subst.
Qed.

Lemma freshWorld_shifted delta token clock clock' :
  (forall n, clock' n = clock n + delta) ->
  shifted delta (freshWorld token clock) (freshWorld token clock').
Proof.
  intros Hc. unfold shifted, freshWorld. cbn. repeat split; auto.
Qed.



(** * Further properties of the baseline store *)

Section BaselineStore.

Variables (player : string) (config : option SentinelConfig) (w : World).

Lemma getOrCreateBaseline_existing b0 :
  playerBaselines w !! player = Some b0 ->
  getOrCreateBaseline player config w =
    (mkBaseline (bl_playerId b0) (createdAt b0) (eventCount b0) (metrics b0)
       (List.filter
          (fun d => td_timestamp d >? clock w (ticks w) - correlationWindowMs (orDefault config))
          (recentDetections b0)),
     setBaselines
       (<[player :=
            mkBaseline (bl_playerId b0) (createdAt b0) (eventCount b0) (metrics b0)
              (List.filter
                 (fun d => td_timestamp d >?
                           clock w (ticks w) - correlationWindowMs (orDefault config))
                 (recentDetections b0))]> (playerBaselines w))
       (Date_now w).2).
Proof. intros H. unfold getOrCreateBaseline. rewrite H. reflexivity. Qed.

Lemma getOrCreateBaseline_fresh :
  playerBaselines w !! player = None ->
  getOrCreateBaseline player config w =
    (mkBaseline player (clock w (ticks w)) 0 ∅ [],
     setBaselines
       (<[player := mkBaseline player (clock w (ticks w)) 0 ∅ []]>
          (<[player := mkBaseline player (clock w (ticks w)) 0 ∅ []]> (playerBaselines w)))
       (Date_now (Date_now w).2).2).
Proof. intros H. unfold getOrCreateBaseline. rewrite H. reflexivity. Qed.

(** What [getOrCreateBaseline] leaves outside the player's entry. *)
Lemma getOrCreateBaseline_frame :
  let w' := (getOrCreateBaseline player config w).2 in
  pipelineToken w' = pipelineToken w /\ clock w' = clock w /\
  console w' = console w /\
  (ticks w <= ticks w' <= ticks w + 2)%nat /\
  forall q, q <> player -> playerBaselines w' !! q = playerBaselines w !! q.
Proof.
  destruct (playerBaselines w !! player) as [b0 |] eqn:Hl.
  - rewrite (getOrCreateBaseline_existing b0 Hl). cbn.
    repeat split; try lia. intros q Hq. now rewrite lookup_insert_ne.
  - rewrite (getOrCreateBaseline_fresh Hl). cbn.
    repeat split; try lia. intros q Hq. now rewrite !lookup_insert_ne.
Qed.

Lemma getOrCreateBaseline_lookup :
  playerBaselines (getOrCreateBaseline player config w).2 !! player
    = Some (getOrCreateBaseline player config w).1.
Proof.
  destruct (playerBaselines w !! player) as [b0 |] eqn:Hl.
  - rewrite (getOrCreateBaseline_existing b0 Hl). cbn. apply lookup_insert_eq.
  - rewrite (getOrCreateBaseline_fresh Hl). cbn. apply lookup_insert_eq.
Qed.

End BaselineStore.

(** X1. [getOrCreateBaseline] is a get-or-insert on the player map: the
    baseline it returns is the one then stored under the player's id; no
    other player's entry changes; a player seen for the first time gets an
    empty baseline stamped with the current clock reading; a known player
    keeps id, creation time, event count and every metric window. *)
Theorem getOrCreateBaseline_get_or_insert player config w :
  let b := (getOrCreateBaseline player config w).1 in
  let w' := (getOrCreateBaseline player config w).2 in
  playerBaselines w' !! player = Some b /\
  (forall q, q <> player -> playerBaselines w' !! q = playerBaselines w !! q) /\
  (playerBaselines w !! player = None ->
     b = mkBaseline player (clock w (ticks w)) 0 ∅ []) /\
  (forall b0, playerBaselines w !! player = Some b0 ->
     bl_playerId b = bl_playerId b0 /\ createdAt b = createdAt b0 /\
     eventCount b = eventCount b0 /\ metrics b = metrics b0).
Proof.
  intros b w'. subst b w'. repeat split.
  - apply getOrCreateBaseline_lookup.
  - apply getOrCreateBaseline_frame.
  - intros Hl. now rewrite (getOrCreateBaseline_fresh _ _ _ Hl).
  - rewrite (getOrCreateBaseline_existing _ _ _ _ H). reflexivity.
  - rewrite (getOrCreateBaseline_existing _ _ _ _ H). reflexivity.
  - rewrite (getOrCreateBaseline_existing _ _ _ _ H). reflexivity.
  - rewrite (getOrCreateBaseline_existing _ _ _ _ H). reflexivity.
Qed.

Lemma getOrCreateBaseline_get_or_insert_witness :
  (getOrCreateBaseline "p" None (freshWorld 1 fastClock)).1
    = mkBaseline "p" 0 0 ∅ [].
Proof.
  apply (proj1 (proj2 (proj2 (getOrCreateBaseline_get_or_insert "p" None
                                (freshWorld 1 fastClock))))).
  reflexivity.
Defined.

Lemma filter_sublist {A} (f : A -> bool) (l : list A) : sublist (List.filter f l) l.
Proof.
  induction l as [| x l IH]; cbn; [constructor |].
  destruct (f x); [now apply sublist_skip | now apply sublist_cons].
Qed.

(** X2. For a known player, [getOrCreateBaseline] prunes the detection log
    against the current clock reading: a detection stays exactly when its
    timestamp is strictly later than the reading minus
    [correlationWindowMs] (one aged exactly the window is dropped), and
    the detections kept stay in their order. *)
Theorem getOrCreateBaseline_prunes player config w b0 :
  playerBaselines w !! player = Some b0 ->
  let b := (getOrCreateBaseline player config w).1 in
  let cutoff := clock w (ticks w) - correlationWindowMs (orDefault config) in
  (forall d, In d (recentDetections b) <->
             In d (recentDetections b0) /\ cutoff < td_timestamp d) /\
  sublist (recentDetections b) (recentDetections b0).
Proof.
  intros Hl b cutoff. subst b cutoff.
  rewrite (getOrCreateBaseline_existing _ _ _ _ Hl). cbn [fst recentDetections].
  split; [| apply filter_sublist].
  intros d. rewrite filter_In. rewrite Z.gtb_ltb, Z.ltb_lt. reflexivity.
Qed.

Lemma getOrCreateBaseline_prunes_witness :
  recentDetections
    (getOrCreateBaseline "p" None
       (mkWorld 1
          {["p" := mkBaseline "p" 0 0 ∅
                     [mkTD "AimAnalysis" 0.55 40000; mkTD "InputAnalysis" 0.55 90000]]}
          (fun _ => 100000) 0 [])).1
  = [mkTD "InputAnalysis" 0.55 90000].
Proof.
  pose proof (getOrCreateBaseline_prunes "p" None
    (mkWorld 1
       {["p" := mkBaseline "p" 0 0 ∅
                  [mkTD "AimAnalysis" 0.55 40000; mkTD "InputAnalysis" 0.55 90000]]}
       (fun _ => 100000) 0 []) _ eq_refl) as [_ Hsub].
  clear Hsub. vm_compute. reflexivity.
Defined.

(** X3. Metric windows are independent: fetching a window and pushing a
    sample into it stores the pushed window under that metric's name and
    changes neither another metric's window nor the detection log, the
    flags or the score.  A window that exists keeps its capacity whatever
    the configuration now says; a missing one starts empty with capacity
    [baselineSamples]. *)
Theorem pushMetric_independent metricName v config t :
  let r := pushMetric metricName v config t in
  let before :=
    default (mkRolling [] (baselineSamples (orDefault config)) 0 0)
      (metrics (t_baseline t) !! metricName) in
  r.1 = pushSample before v /\
  maxSamples r.1 = maxSamples before /\
  metrics (t_baseline r.2) !! metricName = Some r.1 /\
  (forall other, other <> metricName ->
     metrics (t_baseline r.2) !! other = metrics (t_baseline t) !! other) /\
  recentDetections (t_baseline r.2) = recentDetections (t_baseline t) /\
  t_flags r.2 = t_flags t /\ t_score r.2 = t_score t.
Proof.
  unfold pushMetric, getMetricProfile.
  destruct (metrics (t_baseline t) !! metricName) as [p |] eqn:Hl; cbn.
  - repeat split; try apply lookup_insert_eq.
    intros other Hne. now rewrite lookup_insert_ne.
  - repeat split; try apply lookup_insert_eq.
    intros other Hne. now rewrite !lookup_insert_ne.
Qed.

Lemma last_tail_snoc {A} (l : list A) x : l <> [] -> last (tail (l ++ [x])) = Some x.
Proof.
  intros Hl. rewrite tail_snoc by assumption.
  apply last_snoc.
Qed.

Lemma pushSample_within_capacity_aux (p : RollingSamples) (v : float) :
  Z.of_nat (length (values p)) <= maxSamples p ->
  Z.of_nat (length (values (pushSample p v))) <= maxSamples (pushSample p v).
Proof.
  intros Hcap. rewrite values_pushSample, maxSamples_pushSample.
  assert (Hlen : length (values p ++ [v]) = S (length (values p)))
    by (rewrite length_app; cbn; lia).
  destruct (Z.gtb_spec (Z.of_nat (length (values p ++ [v]))) (maxSamples p)); [| lia].
  destruct (values p ++ [v]); cbn in *; lia.
Qed.

(** X4. A push keeps a window within its capacity: a window holding at
    most [maxSamples] values still does afterwards, with the capacity
    unchanged; when the capacity is at least 1 the pushed value is the
    newest (last) one and the size grows by one up to the capacity; a
    window of capacity 0 or less that is empty stays empty, with mean and
    stddev 0. *)
Theorem pushSample_within_capacity (p : RollingSamples) (v : float) :
  Z.of_nat (length (values p)) <= maxSamples p ->
  let p' := pushSample p v in
  Z.of_nat (length (values p')) <= maxSamples p' /\
  maxSamples p' = maxSamples p /\
  (1 <= maxSamples p ->
     last (values p') = Some v /\
     Z.of_nat (length (values p')) =
       Z.min (Z.of_nat (length (values p)) + 1) (maxSamples p)) /\
  (maxSamples p <= 0 ->
     values p' = [] /\ mean p' = 0%float /\ stddev p' = 0%float).
Proof.
  intros Hcap p'.
  assert (Hlen : length (values p ++ [v]) = S (length (values p)))
    by (rewrite length_app; cbn; lia).
  assert (Hv : values p' =
               if Z.of_nat (length (values p ++ [v])) >? maxSamples p
               then tail (values p ++ [v]) else values p ++ [v]) by reflexivity.
  repeat split.
  - rewrite Hv. cbn [maxSamples p' pushSample].
    destruct (Z.gtb_spec (Z.of_nat (length (values p ++ [v]))) (maxSamples p)).
    + destruct (values p ++ [v]); cbn in *; lia.
    + lia.
  - rewrite Hv.
    destruct (Z.gtb_spec (Z.of_nat (length (values p ++ [v]))) (maxSamples p)).
    + apply last_tail_snoc. intros Hnil. rewrite Hnil in *. cbn in *. lia.
    + apply last_snoc.
  - rewrite Hv.
    destruct (Z.gtb_spec (Z.of_nat (length (values p ++ [v]))) (maxSamples p)).
    + destruct (values p ++ [v]); cbn in *; lia.
    + lia.
  - assert (Hnil : values p = []) by (destruct (values p); cbn in *; [easy | lia]).
    rewrite Hv, Hnil. cbn.
    destruct (Z.gtb_spec (Z.of_nat 1) (maxSamples p)); [reflexivity | cbn in *; lia].
  - assert (Hnil : values p' = []).
    { assert (Hp : values p = []) by (destruct (values p); cbn in *; [easy | lia]).
      rewrite Hv, Hp. cbn. destruct (Z.gtb_spec (Z.of_nat 1) (maxSamples p)); [reflexivity | cbn in *; lia]. }
    change (mean p') with (calculateMean (values p')). now rewrite Hnil.
  - assert (Hnil : values p' = []).
    { assert (Hp : values p = []) by (destruct (values p); cbn in *; [easy | lia]).
      rewrite Hv, Hp. cbn. destruct (Z.gtb_spec (Z.of_nat 1) (maxSamples p)); [reflexivity | cbn in *; lia]. }
    change (stddev p') with (calculateStdDev (values p')). now rewrite Hnil.
Qed.

Lemma pushSample_within_capacity_witness :
  last (values (pushSample (pushAll (emptyWindow 2) [1; 2]%float) 3)) = Some 3%float.
Proof.
  apply (proj1 (proj2 (proj2 (pushSample_within_capacity
                                (pushAll (emptyWindow 2) [1; 2]%float) 3
                                ltac:(vm_compute; discriminate)))));
    vm_compute; discriminate.
Defined.

Lemma recordDetection_log_aux b moduleName c w :
  metrics (recordDetection b moduleName c w).1 = metrics b /\
  bl_playerId (recordDetection b moduleName c w).1 = bl_playerId b /\
  ((length (recentDetections b) <= 50)%nat ->
   (length (recentDetections (recordDetection b moduleName c w).1) <= 50)%nat).
Proof.
  repeat split. intros Hle. cbn.
  match goal with |- context [if ?over then _ else _] => destruct over eqn:Hover end.
  - assert (Hlen : length (recentDetections b ++ [mkTD moduleName c (clock w (ticks w))])
                   = S (length (recentDetections b)))
      by (rewrite length_app; cbn; lia).
    destruct (recentDetections b ++ [mkTD moduleName c (clock w (ticks w))]); cbn in *; lia.
  - rewrite Z.gtb_ltb in Hover. apply Z.ltb_ge in Hover. lia.
Qed.



Lemma calculateCrossSignalBonus_cases baseline :
  calculateCrossSignalBonus baseline = mkCorrelation 0 [] \/
  (calculateCrossSignalBonus baseline
     = mkCorrelation 8 (unique (map td_module (recentDetections baseline))) /\
   distinctModules baseline = 2%nat) \/
  (calculateCrossSignalBonus baseline
     = mkCorrelation 15 (unique (map td_module (recentDetections baseline))) /\
   (3 <= distinctModules baseline)%nat).
Proof.
  unfold calculateCrossSignalBonus, distinctModules. rewrite <- length_unique.
  destruct (Nat.ltb_spec (length (recentDetections baseline)) 2); [now left |].
  destruct (Nat.leb_spec 3 (length (unique (map td_module (recentDetections baseline))))).
  - right. right. now split.
  - destruct (Nat.leb_spec 2 (length (unique (map td_module (recentDetections baseline))))).
    + right. left. split; [reflexivity | lia].
    + now left.
Qed.

(** X6. The correlation result is one of three shapes: bonus 0 with no
    module, bonus 8 with exactly two modules, or bonus 15 with three or
    more.  The modules listed are the distinct modules of the recent
    detections, each once; the bonus is positive exactly when the recent
    detections name at least two distinct modules. *)
Theorem calculateCrossSignalBonus_modules baseline :
  let r := calculateCrossSignalBonus baseline in
  (bonus r = 0%float /\ correlatedModules r = [] \/
   bonus r = 8%float /\ length (correlatedModules r) = 2%nat \/
   bonus r = 15%float /\ (3 <= length (correlatedModules r))%nat) /\
  NoDup (correlatedModules r) /\
  (forall m, In m (correlatedModules r) ->
             In m (map td_module (recentDetections baseline))) /\
  (JS.gt (bonus r) 0 = true <-> (2 <= distinctModules baseline)%nat) /\
  (JS.gt (bonus r) 0 = true ->
     forall m, In m (map td_module (recentDetections baseline)) ->
               In m (correlatedModules r)).
Proof.
  intros r. subst r.
  assert (Hall : forall m, In m (unique (map td_module (recentDetections baseline)))
                           <-> In m (map td_module (recentDetections baseline))).
  { intros m. rewrite <- !list_elem_of_In. unfold unique.
    rewrite elem_of_uniqueFrom. set_solver. }
  assert (Hsmall : (length (recentDetections baseline) < 2)%nat ->
                   (distinctModules baseline < 2)%nat).
  { intros Hlt. unfold distinctModules. rewrite <- length_unique.
    pose proof (NoDup_uniqueFrom [] (map td_module (recentDetections baseline))) as Hnd.
    assert (Hincl : (length (unique (map td_module (recentDetections baseline)))
                     <= length (map td_module (recentDetections baseline)))%nat).
    { apply NoDup_incl_length.
      - apply NoDup_ListNoDup. exact Hnd.
      - intros m Hm. now apply Hall. }
    rewrite length_map in Hincl. lia. }
  destruct (calculateCrossSignalBonus_cases baseline) as [H | [[H Hm] | [H Hm]]];
    rewrite H; cbn [bonus correlatedModules];
    refine (conj _ (conj _ (conj _ (conj (conj _ _) _)))).
  - now left.
  - constructor.
  - intros m [].
  - intros Hgt. vm_compute in Hgt. discriminate.
  - intros Hm. exfalso.
    destruct (Nat.ltb_spec (length (recentDetections baseline)) 2) as [Hlt | Hge].
    + specialize (Hsmall Hlt). lia.
    + rewrite (calculateCrossSignalBonus_many _ Hge) in H.
      destruct (Nat.leb_spec 3 (distinctModules baseline)); [discriminate H |].
      destruct (Nat.leb_spec 2 (distinctModules baseline)); [discriminate H | lia].
  - intros Hgt. vm_compute in Hgt. discriminate.
  - right. left. split; [reflexivity |]. rewrite length_unique. exact Hm.
  - exact (NoDup_uniqueFrom [] _).
  - intros m Hin. now apply Hall.
  - intros _. lia.
  - intros _. reflexivity.
  - intros _ m Hin. now apply Hall.
  - right. right. split; [reflexivity |]. rewrite length_unique. exact Hm.
  - exact (NoDup_uniqueFrom [] _).
  - intros m Hin. now apply Hall.
  - intros _. lia.
  - intros _. reflexivity.
  - intros _ m Hin. now apply Hall.
Qed.

Lemma calculateCrossSignalBonus_modules_witness :
  In "InputAnalysis"
    (correlatedModules
       (calculateCrossSignalBonus
          (mkBaseline "p" 0 0 ∅
             [mkTD "AimAnalysis" 0.55 1; mkTD "InputAnalysis" 0.55 2;
              mkTD "AimAnalysis" 0.55 3]))).
Proof.
  apply (proj2 (proj2 (proj2 (proj2 (calculateCrossSignalBonus_modules
           (mkBaseline "p" 0 0 ∅
              [mkTD "AimAnalysis" 0.55 1; mkTD "InputAnalysis" 0.55 2;
               mkTD "AimAnalysis" 0.55 3])))))).
  - vm_compute. reflexivity.
  - cbn in *. tauto.
Defined.

(** * The detectors as instances of one outline *)

Lemma detectorFor_shape ty event config w :
  detectorFor ty event config w = runShape (shapeFor ty) event config w.
Proof. destruct ty; reflexivity. Qed.

Lemma shapeFor_type ty : ds_type (shapeFor ty) = ty.
Proof. now destruct ty. Qed.

Lemma shapeFor_module ty : ds_module (shapeFor ty) = moduleFor ty.
Proof. now destruct ty. Qed.

Lemma shapeFor_profile ty : In (ds_profile (shapeFor ty)) (trackedMetrics ty).
Proof. destruct ty; cbn; tauto. Qed.

Lemma TelemetryEventType_eqb_eq a b : TelemetryEventType_eqb a b = true <-> a = b.
Proof. destruct a, b; cbn; split; congruence. Qed.

Lemma runShape_mismatch s event config w :
  eventType event <> ds_type s -> runShape s event config w = (None, w).
Proof.
  intros Hne. unfold runShape.
  destruct (TelemetryEventType_eqb (eventType event) (ds_type s)) eqn:E; [| reflexivity].
  apply TelemetryEventType_eqb_eq in E. contradiction.
Qed.

Lemma shape_result_fields ty d score cf fl n co a :
  let r := ds_result (shapeFor ty) d score cf fl n co a in
  detected r = true /\ module r = moduleFor ty /\ confidence r = cf /\
  severity r = severityOf score /\ recommendedAction r = a /\
  flags (evidence r) = fl /\ snd (description r) = fl /\
  ev_baselineSamples (evidence r) = n /\
  crossSignalCorrelation (evidence r) = correlatedModules co /\
  baselineDeviations (evidence r) = [].
Proof. destruct ty; repeat split. Qed.

(** The two ways a detector ends on an event of its type. *)
Lemma runShape_cases s event config w :
  eventType event = ds_type s ->
  let bw := getOrCreateBaseline (playerId event) config w in
  let ct := ds_tally s (data event) config bw.2 bw.1 in
  let t := ct.2 in
  let cf := confidenceOf (t_score t) in
  let rw := recordDetection (t_baseline t) (ds_module s) cf bw.2 in
  let pl := profileLength rw.1 (ds_profile s) config in
  let w' := commit (playerId event) pl.2 rw.2 in
  (JS.lt (t_score t) 40 = true /\
   runShape s event config w = (None, commit (playerId event) (t_baseline t) bw.2)) \/
  (JS.lt (t_score t) 40 = false /\
   runShape s event config w =
     (Some (ds_result s (data event) (t_score t) cf (t_flags t) pl.1 ct.1
              (resolveAction cf config w')), w')).
Proof.
  intros Hty. cbv zeta. unfold runShape.
  rewrite (proj2 (TelemetryEventType_eqb_eq _ _) Hty). cbn [negb].
  destruct (getOrCreateBaseline (playerId event) config w) as [b0 w0]. cbn [fst snd].
  destruct (ds_tally s (data event) config w0 b0) as [co t]. cbn [fst snd].
  destruct (JS.lt (t_score t) 40); [left; now split | right].
  split; [reflexivity |]. unfold confidenceOf.
  destruct (recordDetection (t_baseline t) (ds_module s)
              (JS.Math_min (t_score t / 100) 0.99) w0) as [b1 w1]. cbn [fst snd].
  now destruct (profileLength b1 (ds_profile s) config) as [n b2].
Qed.

(** ** What the checks do to the baseline *)

Lemma pushMetric_baseline metricName v config t :
  t_baseline (pushMetric metricName v config t).2 = pushInto metricName v config (t_baseline t).
Proof.
  unfold pushMetric, pushInto.
  now destruct (getMetricProfile (t_baseline t) metricName config).
Qed.

Lemma crossSignal_baseline t : t_baseline (crossSignal t).2 = t_baseline t.
Proof.
  unfold crossSignal.
  now destruct (JS.gt (bonus (calculateCrossSignalBonus (t_baseline t))) 0).
Qed.

Section Tracked.

Variables (config : option SentinelConfig) (names : list string).

Lemma trackedIn_trans b1 b2 b3 :
  trackedIn config names b1 b2 -> trackedIn config names b2 b3 ->
  trackedIn config names b1 b3.
Proof.
  intros H12 H23. induction H23 as [| b2 b3 m v Hm _ IH]; [assumption |].
  now apply tracked_push; [| apply IH].
Qed.

Lemma trackedIn_one metricName v b :
  In metricName names -> trackedIn config names b (pushInto metricName v config b).
Proof. intros H. apply tracked_push; [assumption | apply tracked_same]. Qed.

Lemma pushInto_frame metricName v b :
  bl_playerId (pushInto metricName v config b) = bl_playerId b /\
  createdAt (pushInto metricName v config b) = createdAt b /\
  eventCount (pushInto metricName v config b) = eventCount b /\
  recentDetections (pushInto metricName v config b) = recentDetections b /\
  forall other, other <> metricName ->
    metrics (pushInto metricName v config b) !! other = metrics b !! other.
Proof.
  unfold pushInto, getMetricProfile.
  destruct (metrics b !! metricName); cbn; repeat split;
    intros other Hne; now rewrite ?lookup_insert_ne.
Qed.

(** Pushes into metric windows leave the identity of the baseline and its
    detection log alone, and every window not named. *)
Lemma trackedIn_frame b b' :
  trackedIn config names b b' ->
  bl_playerId b' = bl_playerId b /\ createdAt b' = createdAt b /\
  eventCount b' = eventCount b /\ recentDetections b' = recentDetections b /\
  forall other, ~ In other names -> metrics b' !! other = metrics b !! other.
Proof.
  induction 1 as [| b b' m v Hm _ IH]; [repeat split |].
  destruct IH as (H1 & H2 & H3 & H4 & H5).
  destruct (pushInto_frame m v b') as (G1 & G2 & G3 & G4 & G5).
  repeat split; try congruence.
  intros other Hother. rewrite G5, H5; [reflexivity | assumption |].
  intros ->. contradiction.
Qed.

Lemma windowOk_pushSample p v : windowOk p -> windowOk (pushSample p v).
Proof.
  intros (Hcap & _). repeat split.
  apply (pushSample_within_capacity_aux p v Hcap).
Qed.

End Tracked.

(** A check leaves the baseline as it is or pushes into one named window. *)
Ltac check_tracked :=
  intros;
  repeat match goal with
         | |- context [match ?x with Some _ => _ | None => _ end] => destruct x
         end;
  first
    [ match goal with
      | |- context [pushMetric ?n ?v ?c ?t] =>
          let H := fresh "Hpush" in
          pose proof (pushMetric_baseline n v c t) as H;
          destruct (pushMetric n v c t) as [? ?]; cbn [snd] in H;
          repeat match goal with
                 | |- context [if ?c then _ else _] => destruct c
                 end;
          cbn [hit t_baseline]; rewrite H;
          apply trackedIn_one; cbn; tauto
      end
    | repeat match goal with
             | |- context [if ?c then _ else _] => destruct c
             end;
      cbn [hit t_baseline]; apply tracked_same ].

Section TallyTracked.

Variables (config : option SentinelConfig) (w : World) (b : PlayerBaseline).

Lemma Aim_tally_tracked d :
  trackedIn config (trackedMetrics aim_data) b (t_baseline (Aim.tally d config w b).2).
Proof.
  unfold Aim.tally. cbv zeta. rewrite crossSignal_baseline.
  set (names := trackedMetrics aim_data).
  assert (H1 : forall t, trackedIn config names (t_baseline t) (t_baseline (Aim.check1 d config w t)))
    by (unfold Aim.check1; check_tracked).
  assert (H2 : forall t, trackedIn config names (t_baseline t) (t_baseline (Aim.check2 d config w t)))
    by (unfold Aim.check2; check_tracked).
  assert (H3 : forall t, trackedIn config names (t_baseline t) (t_baseline (Aim.check3 d t)))
    by (unfold Aim.check3; check_tracked).
  assert (H4 : forall t, trackedIn config names (t_baseline t) (t_baseline (Aim.check4 d t)))
    by (unfold Aim.check4; check_tracked).
  assert (H5 : forall t, trackedIn config names (t_baseline t) (t_baseline (Aim.check5 d t)))
    by (unfold Aim.check5; check_tracked).
  assert (H6 : forall t, trackedIn config names (t_baseline t) (t_baseline (Aim.check6 d t)))
    by (unfold Aim.check6; check_tracked).
  eapply trackedIn_trans; [| apply H6]. eapply trackedIn_trans; [| apply H5].
  eapply trackedIn_trans; [| apply H4]. eapply trackedIn_trans; [| apply H3].
  eapply trackedIn_trans; [| apply H2]. apply (H1 (mkTally b [] 0)).
Qed.

Lemma Input_tally_tracked d :
  trackedIn config (trackedMetrics input_data) b (t_baseline (Input.tally d config w b).2).
Proof.
  unfold Input.tally. cbv zeta. rewrite crossSignal_baseline.
  set (names := trackedMetrics input_data).
  assert (H1 : forall t, trackedIn config names (t_baseline t) (t_baseline (Input.check1 d config w t)))
    by (unfold Input.check1; check_tracked).
  assert (H2 : forall t, trackedIn config names (t_baseline t) (t_baseline (Input.check2 d config t)))
    by (unfold Input.check2; check_tracked).
  assert (H3 : forall t, trackedIn config names (t_baseline t) (t_baseline (Input.check3 d t)))
    by (unfold Input.check3; check_tracked).
  assert (H4 : forall t, trackedIn config names (t_baseline t) (t_baseline (Input.check4 d t)))
    by (unfold Input.check4; check_tracked).
  assert (H5 : forall t, trackedIn config names (t_baseline t) (t_baseline (Input.check5 d t)))
    by (unfold Input.check5; check_tracked).
  assert (H6 : forall t, trackedIn config names (t_baseline t) (t_baseline (Input.check6 d t)))
    by (unfold Input.check6; check_tracked).
  eapply trackedIn_trans; [| apply H6]. eapply trackedIn_trans; [| apply H5].
  eapply trackedIn_trans; [| apply H4]. eapply trackedIn_trans; [| apply H3].
  eapply trackedIn_trans; [| apply H2]. apply (H1 (mkTally b [] 0)).
Qed.

Lemma Packets_tally_tracked d :
  trackedIn config (trackedMetrics packet_data) b (t_baseline (Packets.tally d config w b).2).
Proof.
  unfold Packets.tally. cbv zeta. rewrite crossSignal_baseline.
  set (names := trackedMetrics packet_data).
  assert (H1 : forall t, trackedIn config names (t_baseline t) (t_baseline (Packets.check1 d config w t)))
    by (unfold Packets.check1; check_tracked).
  assert (H2 : forall t, trackedIn config names (t_baseline t) (t_baseline (Packets.check2 d t)))
    by (unfold Packets.check2; check_tracked).
  assert (H3 : forall t, trackedIn config names (t_baseline t) (t_baseline (Packets.check3 d t)))
    by (unfold Packets.check3; check_tracked).
  assert (H4 : forall t, trackedIn config names (t_baseline t) (t_baseline (Packets.check4 d t)))
    by (unfold Packets.check4; check_tracked).
  assert (H5 : forall t, trackedIn config names (t_baseline t) (t_baseline (Packets.check5 d t)))
    by (unfold Packets.check5; check_tracked).
  assert (H6 : forall t, trackedIn config names (t_baseline t) (t_baseline (Packets.check6 d t)))
    by (unfold Packets.check6; check_tracked).
  eapply trackedIn_trans; [| apply H6]. eapply trackedIn_trans; [| apply H5].
  eapply trackedIn_trans; [| apply H4]. eapply trackedIn_trans; [| apply H3].
  eapply trackedIn_trans; [| apply H2]. apply (H1 (mkTally b [] 0)).
Qed.

Lemma Stats_tally_tracked d :
  trackedIn config (trackedMetrics stats_data) b (t_baseline (Stats.tally d config w b).2).
Proof.
  unfold Stats.tally. cbv zeta. rewrite crossSignal_baseline.
  set (names := trackedMetrics stats_data).
  assert (H1 : forall t, trackedIn config names (t_baseline t) (t_baseline (Stats.check1 d config w t)))
    by (unfold Stats.check1; check_tracked).
  assert (H2 : forall t, trackedIn config names (t_baseline t) (t_baseline (Stats.check2 d t)))
    by (unfold Stats.check2; check_tracked).
  assert (H3 : forall t, trackedIn config names (t_baseline t) (t_baseline (Stats.check3 d t)))
    by (unfold Stats.check3; check_tracked).
  assert (H4 : forall t, trackedIn config names (t_baseline t) (t_baseline (Stats.check4 d t)))
    by (unfold Stats.check4; check_tracked).
  assert (H5 : forall t, trackedIn config names (t_baseline t) (t_baseline (Stats.check5 d t)))
    by (unfold Stats.check5; check_tracked).
  assert (H6 : forall t, trackedIn config names (t_baseline t) (t_baseline (Stats.check6 d t)))
    by (unfold Stats.check6; check_tracked).
  eapply trackedIn_trans; [| apply H6]. eapply trackedIn_trans; [| apply H5].
  eapply trackedIn_trans; [| apply H4]. eapply trackedIn_trans; [| apply H3].
  eapply trackedIn_trans; [| apply H2]. apply (H1 (mkTally b [] 0)).
Qed.

Lemma Behavior_tally_tracked d :
  trackedIn config (trackedMetrics behavior_data) b (t_baseline (Behavior.tally d config w b).2).
Proof.
  unfold Behavior.tally. cbv zeta. rewrite crossSignal_baseline.
  set (names := trackedMetrics behavior_data).
  assert (H1 : forall t, trackedIn config names (t_baseline t) (t_baseline (Behavior.check1 d config w t)))
    by (unfold Behavior.check1; check_tracked).
  assert (H2 : forall t, trackedIn config names (t_baseline t) (t_baseline (Behavior.check2 d t)))
    by (unfold Behavior.check2; check_tracked).
  assert (H3 : forall t, trackedIn config names (t_baseline t) (t_baseline (Behavior.check3 d t)))
    by (unfold Behavior.check3; check_tracked).
  assert (H4 : forall t, trackedIn config names (t_baseline t) (t_baseline (Behavior.check4 d t)))
    by (unfold Behavior.check4; check_tracked).
  assert (H5 : forall t, trackedIn config names (t_baseline t) (t_baseline (Behavior.check5 d t)))
    by (unfold Behavior.check5; check_tracked).
  assert (H6 : forall t, trackedIn config names (t_baseline t) (t_baseline (Behavior.check6 d t)))
    by (unfold Behavior.check6; check_tracked).
  eapply trackedIn_trans; [| apply H6]. eapply trackedIn_trans; [| apply H5].
  eapply trackedIn_trans; [| apply H4]. eapply trackedIn_trans; [| apply H3].
  eapply trackedIn_trans; [| apply H2]. apply (H1 (mkTally b [] 0)).
Qed.

End TallyTracked.

Lemma shape_tally_tracked ty d config w b :
  trackedIn config (trackedMetrics ty) b (t_baseline (ds_tally (shapeFor ty) d config w b).2).
Proof.
  destruct ty; cbn [shapeFor ds_tally aimShape inputShape packetsShape statsShape
                    behaviorShape].
  - apply Aim_tally_tracked.
  - apply Input_tally_tracked.
  - apply Packets_tally_tracked.
  - apply Stats_tally_tracked.
  - apply Behavior_tally_tracked.
Qed.

(** ** The store invariant *)

Section StoreInvariant.

Variable config : option SentinelConfig.
Hypothesis Hcapacity : 0 <= baselineSamples (orDefault config).

Lemma windowOk_new : windowOk (mkRolling [] (baselineSamples (orDefault config)) 0 0).
Proof. repeat split. cbn. exact Hcapacity. Qed.

Lemma getMetricProfile_ok b metricName :
  map_Forall (fun _ p => windowOk p) (metrics b) ->
  windowOk (getMetricProfile b metricName config).1 /\
  map_Forall (fun _ p => windowOk p) (metrics (getMetricProfile b metricName config).2).
Proof.
  intros Hall. unfold getMetricProfile.
  destruct (metrics b !! metricName) as [p |] eqn:Hl; cbn.
  - split; [| assumption]. exact (Hall _ _ Hl).
  - split; [apply windowOk_new |].
    apply map_Forall_insert_2; [apply windowOk_new | assumption].
Qed.

Lemma pushInto_ok metricName v b :
  map_Forall (fun _ p => windowOk p) (metrics b) ->
  map_Forall (fun _ p => windowOk p) (metrics (pushInto metricName v config b)).
Proof.
  intros Hall. destruct (getMetricProfile_ok b metricName Hall) as [Hp Hm].
  unfold pushInto. cbn [setMetric metrics].
  apply map_Forall_insert_2; [now apply windowOk_pushSample | assumption].
Qed.

Lemma trackedIn_windows names b b' :
  trackedIn config names b b' ->
  map_Forall (fun _ p => windowOk p) (metrics b) ->
  map_Forall (fun _ p => windowOk p) (metrics b').
Proof.
  intros Htr Hall. induction Htr as [| b b' m v _ _ IH]; [assumption |].
  now apply pushInto_ok, IH.
Qed.

Lemma trackedIn_ok names key b b' :
  trackedIn config names b b' -> baselineOk key b -> baselineOk key b'.
Proof.
  intros Htr (Hid & Hlog & Hall).
  destruct (trackedIn_frame _ _ _ _ Htr) as (H1 & _ & _ & H4 & _).
  split; [congruence |]. split; [now rewrite H4 |].
  now apply (trackedIn_windows names b b').
Qed.

Lemma recordDetection_ok key b moduleName c w :
  baselineOk key b -> baselineOk key (recordDetection b moduleName c w).1.
Proof.
  intros (Hid & Hlog & Hall).
  destruct (recordDetection_log_aux b moduleName c w) as (Hm & Hi & Hb).
  split; [congruence |]. split; [now apply Hb | now rewrite Hm].
Qed.

Lemma profileLength_ok key b metricName :
  baselineOk key b -> baselineOk key (profileLength b metricName config).2.
Proof.
  intros (Hid & Hlog & Hall). unfold profileLength.
  destruct (getMetricProfile_ok b metricName Hall) as [_ Hm].
  unfold getMetricProfile in *.
  destruct (metrics b !! metricName); cbn in *;
    (split; [assumption |]); (split; assumption).
Qed.

Lemma commit_ok key b w : storeOk w -> baselineOk key b -> storeOk (commit key b w).
Proof. intros Hs Hb. unfold storeOk, commit. cbn. now apply map_Forall_insert_2. Qed.

Lemma filter_length_le {A} (f : A -> bool) l : (length (List.filter f l) <= length l)%nat.
Proof. induction l as [| x l IH]; cbn; [lia |]. destruct (f x); cbn; lia. Qed.

Lemma getOrCreateBaseline_ok player w :
  storeOk w ->
  baselineOk player (getOrCreateBaseline player config w).1 /\
  storeOk (getOrCreateBaseline player config w).2.
Proof.
  intros Hs.
  assert (Hb : baselineOk player (getOrCreateBaseline player config w).1).
  { destruct (playerBaselines w !! player) as [b0 |] eqn:Hl.
    - rewrite (getOrCreateBaseline_existing _ _ _ _ Hl). cbn [fst].
      destruct (Hs _ _ Hl) as (Hid & Hlog & Hall).
      split; [assumption |]. split; [| assumption]. cbn.
      etransitivity; [apply filter_length_le | assumption].
    - rewrite (getOrCreateBaseline_fresh _ _ _ Hl). cbn [fst].
      split; [reflexivity |]. split; [cbn; lia | apply map_Forall_empty]. }
  split; [assumption |].
  intros q bq Hq. destruct (decide (q = player)) as [-> | Hne].
  - rewrite getOrCreateBaseline_lookup in Hq. now injection Hq as <-.
  - destruct (getOrCreateBaseline_frame player config w) as (_ & _ & _ & _ & Hframe).
    rewrite (Hframe q Hne) in Hq. exact (Hs _ _ Hq).
Qed.

End StoreInvariant.

(** ** From one detector to the pipeline *)

Lemma detectorFor_mismatch ty event config w :
  eventType event <> ty -> detectorFor ty event config w = (None, w).
Proof.
  intros Hne. rewrite detectorFor_shape. apply runShape_mismatch.
  now rewrite shapeFor_type.
Qed.

Lemma detectorFor_cases ty event config w :
  eventType event = ty ->
  let s := shapeFor ty in
  let bw := getOrCreateBaseline (playerId event) config w in
  let ct := ds_tally s (data event) config bw.2 bw.1 in
  let t := ct.2 in
  let cf := confidenceOf (t_score t) in
  let rw := recordDetection (t_baseline t) (moduleFor ty) cf bw.2 in
  let pl := profileLength rw.1 (ds_profile s) config in
  let w' := commit (playerId event) pl.2 rw.2 in
  (JS.lt (t_score t) 40 = true /\
   detectorFor ty event config w = (None, commit (playerId event) (t_baseline t) bw.2)) \/
  (JS.lt (t_score t) 40 = false /\
   detectorFor ty event config w =
     (Some (ds_result s (data event) (t_score t) cf (t_flags t) pl.1 ct.1
              (resolveAction cf config w')), w')).
Proof.
  intros Hty. cbv zeta. rewrite detectorFor_shape, <- shapeFor_module.
  apply runShape_cases. now rewrite shapeFor_type.
Qed.

Lemma detectorFor_result ty event config w r w' :
  detectorFor ty event config w = (Some r, w') ->
  eventType event = ty /\ detected r = true /\ module r = moduleFor ty.
Proof.
  intros Hrun.
  destruct (TelemetryEventType_eqb (eventType event) ty) eqn:E.
  - apply TelemetryEventType_eqb_eq in E. split; [assumption |].
    destruct (detectorFor_cases ty event config w E) as [[_ H] | [_ H]];
      rewrite H in Hrun; [discriminate |].
    injection Hrun as <- _. destruct ty; split; reflexivity.
  - rewrite detectorFor_mismatch in Hrun; [discriminate |].
    intros Heq. apply TelemetryEventType_eqb_eq in Heq. congruence.
Qed.

Lemma MODULES_by_type :
  MODULES = map moduleOf [aim_data; input_data; packet_data; stats_data; behavior_data].
Proof. reflexivity. Qed.

Lemma handler_moduleOf ty event config w :
  handler (moduleOf ty) event config w =
    (Normal (detectorFor ty event config w).1, (detectorFor ty event config w).2).
Proof.
  unfold moduleOf, total. cbn [handler].
  now destruct (detectorFor ty event config w).
Qed.

Section Routing.

Variables (event : TelemetryEvent) (config : option SentinelConfig).

(** The detectors of the other types answer [null] at once. *)
Lemma dispatch_skip callback tys run :
  ~ In (eventType event) tys ->
  dispatch (map moduleOf tys) callback event config run =
    mkRun (results run) (world run) (invoked run ++ map moduleFor tys).
Proof.
  revert run. induction tys as [| ty tys IH]; intros run Hnot.
  - cbn. rewrite app_nil_r. now destruct run.
  - cbn [map dispatch]. rewrite handler_moduleOf.
    rewrite detectorFor_mismatch by (intros Heq; apply Hnot; now left).
    cbn [fst snd]. rewrite IH by (intros Hin; apply Hnot; now right).
    cbn [results world invoked name moduleOf]. now rewrite <- app_assoc.
Qed.

Lemma dispatch_route callback tys run :
  List.NoDup tys -> In (eventType event) tys ->
  let found := detectorFor (eventType event) event config (world run) in
  results (dispatch (map moduleOf tys) callback event config run)
    = results run ++ resultList found.1 /\
  (callback = None ->
   world (dispatch (map moduleOf tys) callback event config run) = found.2).
Proof.
  revert run. induction tys as [| ty tys IH]; intros run Hnd Hin; [destruct Hin |].
  inversion Hnd as [| ? ? Hnotin Hnd']; subst.
  cbn [map dispatch]. rewrite handler_moduleOf.
  destruct (TelemetryEventType_eqb (eventType event) ty) eqn:E.
  - apply TelemetryEventType_eqb_eq in E. subst ty. cbv zeta.
    destruct (detectorFor (eventType event) event config (world run)) as [[r |] w1] eqn:Hrun;
      cbn [fst snd resultList].
    + destruct (detectorFor_result _ _ _ _ _ _ Hrun) as (_ & Hd & _). rewrite Hd.
      destruct callback as [cb |].
      * destruct (cb r event w1) as [[[] | err] w2];
          rewrite dispatch_skip by assumption; cbn [results world];
          (split; [reflexivity | discriminate]).
      * rewrite dispatch_skip by assumption. cbn [results world]. now split.
    + rewrite dispatch_skip by assumption. cbn [results world].
      rewrite app_nil_r. now split.
  - assert (Hne : eventType event <> ty).
    { intros Heq. apply TelemetryEventType_eqb_eq in Heq. congruence. }
    rewrite detectorFor_mismatch by assumption. cbn [fst snd].
    destruct Hin as [Heq | Hin]; [congruence |].
    apply (IH (mkRun (results run) (world run) (invoked run ++ [name (moduleOf ty)]))
              Hnd' Hin).
Qed.

End Routing.

Lemma all_types ty : In ty [aim_data; input_data; packet_data; stats_data; behavior_data].
Proof. destruct ty; cbn; tauto. Qed.

Lemma NoDup_types : List.NoDup [aim_data; input_data; packet_data; stats_data; behavior_data].
Proof.
  repeat (constructor; [cbn; intros H; repeat destruct H as [H | H]; discriminate || easy |]).
  constructor.
Qed.

(** With the gate open, [processTelemetry] returns what the detector of
    the event's type returns, and without an observer leaves the state
    that detector leaves. *)
Lemma processTelemetry_routes callback event config w :
  pipelineReady (getPipelineState w) = true ->
  (processTelemetry callback event config w).1
    = resultList (detectorFor (eventType event) event config w).1 /\
  (callback = None ->
   (processTelemetry callback event config w).2
     = (detectorFor (eventType event) event config w).2).
Proof.
  intros ready. unfold processTelemetry, processTelemetryWith.
  rewrite ready. cbn [negb fst snd]. rewrite MODULES_by_type.
  apply (dispatch_route event config callback _ (mkRun [] w []) NoDup_types (all_types _)).
Qed.

(** ** What a detector does to the state *)

Lemma profileLength_frame b metricName config :
  bl_playerId (profileLength b metricName config).2 = bl_playerId b /\
  recentDetections (profileLength b metricName config).2 = recentDetections b /\
  forall other, other <> metricName ->
    metrics (profileLength b metricName config).2 !! other = metrics b !! other.
Proof.
  unfold profileLength, getMetricProfile.
  destruct (metrics b !! metricName); cbn; repeat split;
    intros other Hne; now rewrite ?lookup_insert_ne.
Qed.

Lemma recordDetection_last b moduleName c w :
  last (recentDetections (recordDetection b moduleName c w).1)
    = Some (mkTD moduleName c (clock w (ticks w))) /\
  (recordDetection b moduleName c w).2 = (Date_now w).2.
Proof.
  split; [| reflexivity]. cbn.
  match goal with |- context [if ?over then _ else _] => destruct over eqn:Hover end.
  - apply last_tail_snoc. intros Hnil. rewrite Hnil in Hover. discriminate.
  - apply last_snoc.
Qed.

Lemma commit_lookup player b w :
  playerBaselines (commit player b w) !! player = Some b /\
  (forall q, q <> player ->
     playerBaselines (commit player b w) !! q = playerBaselines w !! q) /\
  pipelineToken (commit player b w) = pipelineToken w /\
  clock (commit player b w) = clock w /\ ticks (commit player b w) = ticks w /\
  console (commit player b w) = console w.
Proof.
  unfold commit. cbn. repeat split; [apply lookup_insert_eq |].
  intros q Hq. now rewrite lookup_insert_ne.
Qed.

(** A detector writes to the entry of the event's player only; it changes
    neither the readiness token nor the console, and reads the clock at
    most three times. *)
Lemma detectorFor_frame ty event config w :
  let w' := (detectorFor ty event config w).2 in
  pipelineToken w' = pipelineToken w /\ clock w' = clock w /\
  console w' = console w /\ (ticks w <= ticks w' <= ticks w + 3)%nat /\
  forall q, q <> playerId event -> playerBaselines w' !! q = playerBaselines w !! q.
Proof.
  cbv zeta.
  destruct (getOrCreateBaseline_frame (playerId event) config w)
    as (Ht & Hc & Hl & Hk & Hq).
  destruct (TelemetryEventType_eqb (eventType event) ty) eqn:E.
  - apply TelemetryEventType_eqb_eq in E.
    destruct (detectorFor_cases ty event config w E) as [[_ H] | [_ H]];
      rewrite H; cbn [snd].
    + match goal with |- context [commit ?p ?b ?w0] =>
        destruct (commit_lookup p b w0) as (_ & Gq & Gt & Gc & Gk & Gl) end.
      rewrite Gt, Gc, Gk, Gl. repeat split; try assumption; try lia.
      intros q Hne. now rewrite Gq, Hq.
    + match goal with |- context [commit ?p ?b ?w0] =>
        destruct (commit_lookup p b w0) as (_ & Gq & Gt & Gc & Gk & Gl) end.
      rewrite Gt, Gc, Gk, Gl.
      match goal with |- context [recordDetection ?b ?m ?c ?w0] =>
        destruct (recordDetection_last b m c w0) as (_ & ->) end.
      cbn [Date_now snd pipelineToken clock console ticks].
      repeat split; try assumption; try lia.
      intros q Hne. rewrite Gq by assumption. cbn. now apply Hq.
  - rewrite detectorFor_mismatch.
    + cbn. repeat split; try lia.
    + intros Heq. apply TelemetryEventType_eqb_eq in Heq. congruence.
Qed.

Lemma detectorFor_ok ty event config w :
  0 <= baselineSamples (orDefault config) ->
  storeOk w -> storeOk (detectorFor ty event config w).2.
Proof.
  intros Hcap Hs.
  destruct (getOrCreateBaseline_ok config (playerId event) w Hs) as [Hb Hw].
  destruct (TelemetryEventType_eqb (eventType event) ty) eqn:E.
  - apply TelemetryEventType_eqb_eq in E.
    pose proof (shape_tally_tracked ty (data event) config
                  (getOrCreateBaseline (playerId event) config w).2
                  (getOrCreateBaseline (playerId event) config w).1) as Htr.
    pose proof (trackedIn_ok config Hcap _ _ _ _ Htr Hb) as Ht.
    destruct (detectorFor_cases ty event config w E) as [[_ H] | [_ H]];
      rewrite H; cbn [snd].
    + now apply commit_ok.
    + apply commit_ok.
      * match goal with |- context [recordDetection ?b ?m ?c ?w0] =>
          destruct (recordDetection_last b m c w0) as (_ & ->) end.
        exact Hw.
      * apply profileLength_ok; [assumption |]. now apply recordDetection_ok.
  - rewrite detectorFor_mismatch; [assumption |].
    intros Heq. apply TelemetryEventType_eqb_eq in Heq. congruence.
Qed.

Lemma processTelemetry_state event config w :
  (processTelemetry None event config w).2 =
    if pipelineReady (pipelineToken w)
    then (detectorFor (eventType event) event config w).2 else w.
Proof.
  destruct (pipelineReady (pipelineToken w)) eqn:ready.
  - now apply (processTelemetry_routes None event config w ready).
  - unfold processTelemetry, processTelemetryWith, getPipelineState. now rewrite ready.
Qed.

Lemma processTelemetry_results callback event config w :
  (processTelemetry callback event config w).1 =
    if pipelineReady (pipelineToken w)
    then resultList (detectorFor (eventType event) event config w).1 else [].
Proof.
  destruct (pipelineReady (pipelineToken w)) eqn:ready.
  - now apply (processTelemetry_routes callback event config w ready).
  - unfold processTelemetry, processTelemetryWith, getPipelineState. now rewrite ready.
Qed.

(** * Further properties of the pipeline *)



(** X9. Without an observer, [processTelemetry] writes to the baseline of
    the event's player only: the entry of every other player, the
    readiness token and the console are left as they were, and the clock
    is read at most three times. *)
Theorem processTelemetry_player_isolation event config w :
  let w' := (processTelemetry None event config w).2 in
  (forall q, q <> playerId event -> playerBaselines w' !! q = playerBaselines w !! q) /\
  pipelineToken w' = pipelineToken w /\ console w' = console w /\
  (ticks w <= ticks w' <= ticks w + 3)%nat.
Proof.
  cbv zeta. rewrite processTelemetry_state.
  destruct (pipelineReady (pipelineToken w)); [| repeat split; lia].
  destruct (detectorFor_frame (eventType event) event config w)
    as (Ht & Hc & Hl & Hk & Hq).
  repeat split; try assumption; lia.
Qed.

Lemma replay_cons callback config event events w :
  replay callback config (event :: events) w =
    ((processTelemetry callback event config w).1
       :: (replay callback config events (processTelemetry callback event config w).2).1,
     (replay callback config events (processTelemetry callback event config w).2).2).
Proof.
  cbn [replay]. destruct (processTelemetry callback event config w) as [rs w1].
  cbn [fst snd]. now destruct (replay callback config events w1).
Qed.

Lemma replay_storeOk config events w :
  0 <= baselineSamples (orDefault config) ->
  storeOk w -> storeOk (replay None config events w).2.
Proof.
  intros Hcap. revert w. induction events as [| e events IH]; intros w Hs; [assumption |].
  rewrite replay_cons. cbn [snd]. apply IH. rewrite processTelemetry_state.
  destruct (pipelineReady (pipelineToken w)); [| assumption].
  now apply detectorFor_ok.
Qed.

(** X10. Whatever events are replayed on a fresh engine without observer,
    under a configuration whose [baselineSamples] is not negative, the
    store stays sound: each baseline is stored under its own player id and
    holds at most 50 recent detections, and each of its metric windows
    holds at most [maxSamples] values, with the stored mean and stddev
    equal to those recomputed from these values. *)
Theorem replay_store_sound config events token clock :
  0 <= baselineSamples (orDefault config) ->
  let w := (replay None config events (freshWorld token clock)).2 in
  forall player b, playerBaselines w !! player = Some b ->
    bl_playerId b = player /\
    (length (recentDetections b) <= 50)%nat /\
    forall metricName p, metrics b !! metricName = Some p ->
      Z.of_nat (length (values p)) <= maxSamples p /\
      mean p = calculateMean (values p) /\
      stddev p = calculateStdDev (values p).
Proof.
  intros Hcap w player b Hl.
  assert (Hs : storeOk w).
  { apply replay_storeOk; [assumption |]. unfold storeOk, freshWorld. cbn.
    apply map_Forall_empty. }
  destruct (Hs _ _ Hl) as (Hid & Hlog & Hall).
  split; [assumption |]. split; [assumption |].
  intros metricName p Hp. exact (Hall _ _ Hp).
Qed.

Lemma replay_store_sound_witness :
  match playerBaselines (replay None None replayedEvents (freshWorld 1 fastClock)).2 !! "p"
  with
  | Some b => bl_playerId b = "p" /\ (length (recentDetections b) <= 50)%nat
  | None => False
  end.
Proof.
  destruct (playerBaselines (replay None None replayedEvents (freshWorld 1 fastClock)).2
              !! "p") as [b |] eqn:Hl.
  - destruct (replay_store_sound None replayedEvents 1 fastClock ltac:(cbn; lia) "p" b Hl)
      as (Hid & Hlog & _).
    now split.
  - vm_compute in Hl. discriminate Hl.
Defined.

Lemma recordDetection_shape b moduleName c w :
  let entry := mkTD moduleName c (clock w (ticks w)) in
  recentDetections (recordDetection b moduleName c w).1 = recentDetections b ++ [entry] \/
  recentDetections (recordDetection b moduleName c w).1
    = tail (recentDetections b) ++ [entry].
Proof.
  cbn.
  match goal with |- context [if ?over then _ else _] => destruct over eqn:Hover end;
    [right | now left].
  apply tail_snoc. intros Hnil. rewrite Hnil in Hover. discriminate.
Qed.



Lemma getOrCreateBaseline_metrics player config w :
  metrics (getOrCreateBaseline player config w).1
    = from_option metrics ∅ (playerBaselines w !! player).
Proof.
  destruct (playerBaselines w !! player) as [b0 |] eqn:Hl.
  - now rewrite (getOrCreateBaseline_existing _ _ _ _ Hl).
  - now rewrite (getOrCreateBaseline_fresh _ _ _ Hl).
Qed.

(** X12. A detector only writes the metric windows it keeps: without an
    observer, processing an event changes, in the baseline of its player,
    no window other than those of the event type's detector ([aim_data]:
    aim.snapAngle and aim.trackingSmoothness; [input_data]: input.entropy
    and input.timingVariance; [packet_data]: packet.rate; [stats_data]:
    stats.kdRatio; [behavior_data]: behavior.reactionTime). *)
Theorem processTelemetry_metric_footprint event config w metricName b' :
  ~ In metricName (trackedMetrics (eventType event)) ->
  playerBaselines (processTelemetry None event config w).2 !! playerId event = Some b' ->
  metrics b' !! metricName
    = from_option metrics ∅ (playerBaselines w !! playerId event) !! metricName.
Proof.
  intros Hnot. rewrite processTelemetry_state.
  destruct (pipelineReady (pipelineToken w)).
  - rewrite <- (getOrCreateBaseline_metrics (playerId event) config w).
    pose proof (shape_tally_tracked (eventType event) (data event) config
                  (getOrCreateBaseline (playerId event) config w).2
                  (getOrCreateBaseline (playerId event) config w).1) as Htr.
    apply trackedIn_frame in Htr. destruct Htr as (_ & _ & _ & _ & Hm).
    specialize (Hm metricName Hnot).
    destruct (detectorFor_cases (eventType event) event config w eq_refl)
      as [[_ H] | [_ H]]; rewrite H; cbn [snd];
      rewrite (proj1 (commit_lookup _ _ _)); intros [= <-]; [exact Hm |].
    match goal with
    | |- context [profileLength ?b ?m ?c] =>
        destruct (profileLength_frame b m c) as (_ & _ & Hp)
    end.
    rewrite Hp.
    + try match goal with
          | |- context [recordDetection ?b ?m ?c ?w0] =>
              rewrite (proj1 (recordDetection_log_aux b m c w0))
          end.
      cbn [metrics]. exact Hm.
    + intros ->. apply Hnot. apply shapeFor_profile.
  - intros ->. reflexivity.
Qed.

Lemma processTelemetry_metric_footprint_witness :
  match playerBaselines
          (processTelemetry None (snapEvent "p" "s" "l" "m" 0) None
             (mkWorld 1
                {["p" := mkBaseline "p" 0 0
                           {["input.entropy" := mkRolling [0.7%float] 50 0.7 0]} []]}
                fastClock 0 [])).2 !! "p"
  with
  | Some b => metrics b !! "input.entropy" = Some (mkRolling [0.7%float] 50 0.7 0)
  | None => False
  end.
Proof.
  set (e := snapEvent "p" "s" "l" "m" 0).
  set (w := mkWorld 1 _ fastClock 0 []).
  destruct (playerBaselines (processTelemetry None e None w).2 !! "p") as [b |] eqn:Hl.
  - assert (Hnot : ~ In "input.entropy" (trackedMetrics (eventType e)))
      by (vm_compute; intros [H | [H | []]]; discriminate H).
    rewrite (processTelemetry_metric_footprint e None w "input.entropy" b Hnot Hl).
    reflexivity.
  - vm_compute in Hl. discriminate Hl.
Defined.

(** * Scores, flags and verdicts *)

Lemma flagged_same t0 t weights :
  t_score t = t_score t0 -> t_flags t = t_flags t0 -> flagged t0 weights t.
Proof. intros Hs Hf. left. now rewrite Hs, Hf. Qed.

Lemma flagged_hit msg k t0 t weights :
  t_score t = t_score t0 -> t_flags t = t_flags t0 -> In k weights ->
  flagged t0 weights (hit msg k t).
Proof.
  intros Hs Hf Hk. right. cbn [hit t_score t_flags].
  rewrite length_app, Hs, Hf. cbn [length]. rewrite Nat.add_1_r.
  now apply (in_map (fun k => ((t_score t0 + k)%float, S (length (t_flags t0))))).
Qed.

Lemma pushMetric_tally metricName v config t :
  t_score (pushMetric metricName v config t).2 = t_score t /\
  t_flags (pushMetric metricName v config t).2 = t_flags t.
Proof.
  unfold pushMetric. now destruct (getMetricProfile (t_baseline t) metricName config).
Qed.

Ltac check_flagged :=
  intros;
  repeat match goal with
         | |- context [match ?x with Some _ => _ | None => _ end] => destruct x
         end;
  first
    [ match goal with
      | |- context [pushMetric ?n ?v ?c ?t] =>
          let H := fresh "Hpush" in
          pose proof (pushMetric_tally n v c t) as H;
          destruct (pushMetric n v c t) as [? ?]; cbn [snd] in H; destruct H;
          repeat match goal with
                 | |- context [if ?c then _ else _] => destruct c
                 end;
          first [ apply flagged_hit; [assumption | assumption | cbn; tauto]
                | apply flagged_same; assumption ]
      end
    | repeat match goal with
             | |- context [if ?c then _ else _] => destruct c
             end;
      first [ apply flagged_hit; [reflexivity | reflexivity | cbn; tauto]
            | apply flagged_same; reflexivity ] ].

Lemma crossSignal_flagged t : flagged t [15; 8]%float (crossSignal t).2.
Proof.
  unfold crossSignal.
  destruct (calculateCrossSignalBonus_cases (t_baseline t)) as [H | [[H _] | [H _]]];
    rewrite H; cbn [bonus correlatedModules]; vm_compute (JS.gt _ 0); cbn [snd].
  - now apply flagged_same.
  - right. cbn [t_score t_flags]. rewrite length_app, Nat.add_1_r. cbn. tauto.
  - right. cbn [t_score t_flags]. rewrite length_app, Nat.add_1_r. cbn. tauto.
Qed.

Lemma tallies_here s n : In (s, n) (tallies s n []).
Proof. now left. Qed.

Lemma tallies_step t weights t' rest x :
  flagged t weights t' ->
  In x (tallies (t_score t') (length (t_flags t')) rest) ->
  In x (tallies (t_score t) (length (t_flags t)) (weights :: rest)).
Proof.
  intros Hf Hin. cbn [tallies]. apply in_flat_map.
  exists (t_score t', length (t_flags t')). split; [exact Hf | exact Hin].
Qed.

Lemma tallies_forall (P : float * nat -> bool) steps x :
  forallb P (tallies 0 0 steps) = true -> In x (tallies 0 0 steps) -> P x = true.
Proof. intros Hall Hin. now apply (proj1 (forallb_forall _ _) Hall). Qed.

Section TallyFlagged.

Variables (config : option SentinelConfig) (w : World) (b : PlayerBaseline).

Lemma Aim_tally_flagged d :
  let t := (Aim.tally d config w b).2 in
  In (t_score t, length (t_flags t)) (tallies 0 0 (weightsFor aim_data)).
Proof.
  cbv zeta. unfold Aim.tally. cbv zeta.
  assert (H1 : forall t, flagged t [30; 15]%float (Aim.check1 d config w t))
    by (unfold Aim.check1; check_flagged).
  assert (H2 : forall t, flagged t [25; 12]%float (Aim.check2 d config w t))
    by (unfold Aim.check2; check_flagged).
  assert (H3 : forall t, flagged t [20]%float (Aim.check3 d t))
    by (unfold Aim.check3; check_flagged).
  assert (H4 : forall t, flagged t [25]%float (Aim.check4 d t))
    by (unfold Aim.check4; check_flagged).
  assert (H5 : forall t, flagged t [15]%float (Aim.check5 d t))
    by (unfold Aim.check5; check_flagged).
  assert (H6 : forall t, flagged t [20]%float (Aim.check6 d t))
    by (unfold Aim.check6; check_flagged).
  change (weightsFor aim_data) with
    ([[30; 15]; [25; 12]; [20]; [25]; [15]; [20]; [15; 8]]%float).
  apply (tallies_step (mkTally b [] 0) _ _ _ _ (H1 _)).
  eapply tallies_step; [apply H2 |].
  eapply tallies_step; [apply H3 |].
  eapply tallies_step; [apply H4 |].
  eapply tallies_step; [apply H5 |].
  eapply tallies_step; [apply H6 |].
  eapply tallies_step; [apply crossSignal_flagged |].
  apply tallies_here.
Qed.

Lemma Input_tally_flagged d :
  let t := (Input.tally d config w b).2 in
  In (t_score t, length (t_flags t)) (tallies 0 0 (weightsFor input_data)).
Proof.
  cbv zeta. unfold Input.tally. cbv zeta.
  assert (H1 : forall t, flagged t [30; 15]%float (Input.check1 d config w t))
    by (unfold Input.check1; check_flagged).
  assert (H2 : forall t, flagged t [25]%float (Input.check2 d config t))
    by (unfold Input.check2; check_flagged).
  assert (H3 : forall t, flagged t [30]%float (Input.check3 d t))
    by (unfold Input.check3; check_flagged).
  assert (H4 : forall t, flagged t [20]%float (Input.check4 d t))
    by (unfold Input.check4; check_flagged).
  assert (H5 : forall t, flagged t [15]%float (Input.check5 d t))
    by (unfold Input.check5; check_flagged).
  assert (H6 : forall t, flagged t [25]%float (Input.check6 d t))
    by (unfold Input.check6; check_flagged).
  change (weightsFor input_data) with
    ([[30; 15]; [25]; [30]; [20]; [15]; [25]; [15; 8]]%float).
  apply (tallies_step (mkTally b [] 0) _ _ _ _ (H1 _)).
  eapply tallies_step; [apply H2 |].
  eapply tallies_step; [apply H3 |].
  eapply tallies_step; [apply H4 |].
  eapply tallies_step; [apply H5 |].
  eapply tallies_step; [apply H6 |].
  eapply tallies_step; [apply crossSignal_flagged |].
  apply tallies_here.
Qed.

Lemma Packets_tally_flagged d :
  let t := (Packets.tally d config w b).2 in
  In (t_score t, length (t_flags t)) (tallies 0 0 (weightsFor packet_data)).
Proof.
  cbv zeta. unfold Packets.tally. cbv zeta.
  assert (H1 : forall t, flagged t [25; 12]%float (Packets.check1 d config w t))
    by (unfold Packets.check1; check_flagged).
  assert (H2 : forall t, flagged t [30]%float (Packets.check2 d t))
    by (unfold Packets.check2; check_flagged).
  assert (H3 : forall t, flagged t [20]%float (Packets.check3 d t))
    by (unfold Packets.check3; check_flagged).
  assert (H4 : forall t, flagged t [25]%float (Packets.check4 d t))
    by (unfold Packets.check4; check_flagged).
  assert (H5 : forall t, flagged t [20]%float (Packets.check5 d t))
    by (unfold Packets.check5; check_flagged).
  assert (H6 : forall t, flagged t [30]%float (Packets.check6 d t))
    by (unfold Packets.check6; check_flagged).
  change (weightsFor packet_data) with
    ([[25; 12]; [30]; [20]; [25]; [20]; [30]; [15; 8]]%float).
  apply (tallies_step (mkTally b [] 0) _ _ _ _ (H1 _)).
  eapply tallies_step; [apply H2 |].
  eapply tallies_step; [apply H3 |].
  eapply tallies_step; [apply H4 |].
  eapply tallies_step; [apply H5 |].
  eapply tallies_step; [apply H6 |].
  eapply tallies_step; [apply crossSignal_flagged |].
  apply tallies_here.
Qed.

Lemma Stats_tally_flagged d :
  let t := (Stats.tally d config w b).2 in
  In (t_score t, length (t_flags t)) (tallies 0 0 (weightsFor stats_data)).
Proof.
  cbv zeta. unfold Stats.tally. cbv zeta.
  assert (H1 : forall t, flagged t [30; 15]%float (Stats.check1 d config w t))
    by (unfold Stats.check1; check_flagged).
  assert (H2 : forall t, flagged t [20]%float (Stats.check2 d t))
    by (unfold Stats.check2; check_flagged).
  assert (H3 : forall t, flagged t [25]%float (Stats.check3 d t))
    by (unfold Stats.check3; check_flagged).
  assert (H4 : forall t, flagged t [25]%float (Stats.check4 d t))
    by (unfold Stats.check4; check_flagged).
  assert (H5 : forall t, flagged t [15]%float (Stats.check5 d t))
    by (unfold Stats.check5; check_flagged).
  assert (H6 : forall t, flagged t [20]%float (Stats.check6 d t))
    by (unfold Stats.check6; check_flagged).
  change (weightsFor stats_data) with
    ([[30; 15]; [20]; [25]; [25]; [15]; [20]; [15; 8]]%float).
  apply (tallies_step (mkTally b [] 0) _ _ _ _ (H1 _)).
  eapply tallies_step; [apply H2 |].
  eapply tallies_step; [apply H3 |].
  eapply tallies_step; [apply H4 |].
  eapply tallies_step; [apply H5 |].
  eapply tallies_step; [apply H6 |].
  eapply tallies_step; [apply crossSignal_flagged |].
  apply tallies_here.
Qed.

Lemma Behavior_tally_flagged d :
  let t := (Behavior.tally d config w b).2 in
  In (t_score t, length (t_flags t)) (tallies 0 0 (weightsFor behavior_data)).
Proof.
  cbv zeta. unfold Behavior.tally. cbv zeta.
  assert (H1 : forall t, flagged t [30; 15]%float (Behavior.check1 d config w t))
    by (unfold Behavior.check1; check_flagged).
  assert (H2 : forall t, flagged t [20]%float (Behavior.check2 d t))
    by (unfold Behavior.check2; check_flagged).
  assert (H3 : forall t, flagged t [30]%float (Behavior.check3 d t))
    by (unfold Behavior.check3; check_flagged).
  assert (H4 : forall t, flagged t [35]%float (Behavior.check4 d t))
    by (unfold Behavior.check4; check_flagged).
  assert (H5 : forall t, flagged t [25]%float (Behavior.check5 d t))
    by (unfold Behavior.check5; check_flagged).
  assert (H6 : forall t, flagged t [20]%float (Behavior.check6 d t))
    by (unfold Behavior.check6; check_flagged).
  change (weightsFor behavior_data) with
    ([[30; 15]; [20]; [30]; [35]; [25]; [20]; [15; 8]]%float).
  apply (tallies_step (mkTally b [] 0) _ _ _ _ (H1 _)).
  eapply tallies_step; [apply H2 |].
  eapply tallies_step; [apply H3 |].
  eapply tallies_step; [apply H4 |].
  eapply tallies_step; [apply H5 |].
  eapply tallies_step; [apply H6 |].
  eapply tallies_step; [apply crossSignal_flagged |].
  apply tallies_here.
Qed.

End TallyFlagged.

Lemma shape_tally_flagged ty d config w b :
  let t := (ds_tally (shapeFor ty) d config w b).2 in
  In (t_score t, length (t_flags t)) (tallies 0 0 (weightsFor ty)).
Proof.
  destruct ty.
  - apply Aim_tally_flagged.
  - apply Input_tally_flagged.
  - apply Packets_tally_flagged.
  - apply Stats_tally_flagged.
  - apply Behavior_tally_flagged.
Qed.

(** What a returned result is made of: the engine is ready, and the
    result's confidence, severity, flags and action come from one tally of
    the detector of the event's type that reached the threshold. *)
Lemma processTelemetry_anatomy callback event config w r :
  In r (processTelemetry callback event config w).1 ->
  pipelineReady (pipelineToken w) = true /\
  exists score fl,
    In (score, length fl) (tallies 0 0 (weightsFor (eventType event))) /\
    JS.lt score 40 = false /\
    confidence r = confidenceOf score /\
    severity r = severityOf score /\
    flags (evidence r) = fl /\ snd (description r) = fl /\
    recommendedAction r = resolveAction (confidenceOf score) config w.
Proof.
  rewrite processTelemetry_results.
  destruct (pipelineReady (pipelineToken w)) eqn:ready; [| intros []].
  intros Hin. split; [reflexivity |].
  pose proof (detectorFor_frame (eventType event) event config w) as Hframe.
  cbv zeta in Hframe. destruct Hframe as (Htoken & _).
  destruct (detectorFor_cases (eventType event) event config w eq_refl)
    as [[_ H] | [Hs H]]; rewrite H in Hin, Htoken; cbn [fst snd resultList] in Hin, Htoken;
    [destruct Hin |].
  destruct Hin as [<- | []].
  set (bw := getOrCreateBaseline (playerId event) config w) in *.
  set (ct := ds_tally (shapeFor (eventType event)) (data event) config bw.2 bw.1) in *.
  exists (t_score ct.2), (t_flags ct.2).
  match goal with
  | |- context [ds_result ?s ?d ?sc ?cf ?fl ?n ?co ?a] =>
      pose proof (shape_result_fields (eventType event) d sc cf fl n co a) as Hf
  end.
  cbv zeta in Hf. destruct Hf as (_ & _ & Hc & Hsev & Ha & Hfl & Hd & _).
  split; [apply shape_tally_flagged |]. split; [exact Hs |].
  split; [exact Hc |]. split; [exact Hsev |]. split; [exact Hfl |]. split; [exact Hd |].
  rewrite Ha. now apply resolveAction_token.
Qed.

Lemma reported_spec P ty score n :
  reported P ty = true -> In (score, n) (tallies 0 0 (weightsFor ty)) ->
  JS.lt score 40 = false -> P score n = true.
Proof.
  intros Hall Hin Hs. unfold reported in Hall.
  apply (proj1 (forallb_forall _ _) Hall) in Hin. cbn [fst snd] in Hin.
  now rewrite Hs in Hin.
Qed.

(** X13. The severity of a returned result agrees with its confidence:
    critical exactly from confidence 0.8, high from 0.6 up to 0.8, medium
    below; no result has severity low, and the confidence lies between
    0.40 and 0.99. *)
Theorem processTelemetry_severity_confidence callback event config w r :
  In r (processTelemetry callback event config w).1 ->
  severity r = severityAt (confidence r) /\ severity r <> low /\
  JS.le 0.40 (confidence r) = true /\ JS.le (confidence r) 0.99 = true.
Proof.
  intros Hin.
  destruct (processTelemetry_anatomy _ _ _ _ _ Hin)
    as (_ & score & fl & Htally & Hs & Hc & Hsev & _).
  rewrite Hc, Hsev.
  assert (Hok : reported (fun s _ =>
            bool_decide (severityOf s = severityAt (confidenceOf s))
            && bool_decide (severityOf s <> low)
            && JS.le 0.40 (confidenceOf s) && JS.le (confidenceOf s) 0.99)
          (eventType event) = true)
    by (destruct (eventType event); vm_compute; reflexivity).
  apply (reported_spec _ _ _ _ Hok Htally) in Hs.
  apply andb_prop in Hs as [Hs H4]. apply andb_prop in Hs as [Hs H3].
  apply andb_prop in Hs as [H1 H2].
  apply bool_decide_eq_true in H1, H2. auto.
Qed.

Lemma processTelemetry_severity_confidence_witness :
  let rs := (processTelemetry None (snapEvent "p" "s" "l" "m" 0) None
               (freshWorld 1 fastClock)).1 in
  In snapResult rs /\
  severity snapResult = severityAt (confidence snapResult) /\ severity snapResult <> low /\
  JS.le 0.40 (confidence snapResult) = true /\ JS.le (confidence snapResult) 0.99 = true.
Proof.
  cbv zeta.
  assert (Hin : In snapResult
                  (processTelemetry None (snapEvent "p" "s" "l" "m" 0) None
                     (freshWorld 1 fastClock)).1)
    by (vm_compute; now left).
  split; [exact Hin |].
  exact (processTelemetry_severity_confidence None _ _ _ _ Hin).
Defined.

(** X14. With the default configuration, the action a returned result
    recommends follows from its confidence by the default thresholds
    (permanent ban from 0.85, shadow ban from 0.65, flag below), and agrees
    with its severity: a medium result is only flagged, a critical result
    is never merely flagged, and a permanent ban is recommended for
    critical results only. *)
Theorem processTelemetry_default_verdict callback event w r :
  In r (processTelemetry callback event None w).1 ->
  recommendedAction r = defaultAction (confidence r) /\
  (severity r = medium -> recommendedAction r = flag) /\
  (severity r = critical -> recommendedAction r <> flag) /\
  (recommendedAction r = permanent_ban -> severity r = critical).
Proof.
  intros Hin.
  destruct (processTelemetry_anatomy _ _ _ _ _ Hin)
    as (ready & score & fl & Htally & Hs & Hc & Hsev & _ & _ & Ha).
  rewrite (resolveAction_ready _ _ w ready) in Ha. cbn [orDefault] in Ha.
  fold (defaultAction (confidenceOf score)) in Ha.
  rewrite Ha, Hc, Hsev. split; [reflexivity |].
  assert (Hok : reported (fun s _ =>
            implb (bool_decide (severityOf s = medium))
                  (bool_decide (defaultAction (confidenceOf s) = flag))
            && implb (bool_decide (severityOf s = critical))
                     (bool_decide (defaultAction (confidenceOf s) <> flag))
            && implb (bool_decide (defaultAction (confidenceOf s) = permanent_ban))
                     (bool_decide (severityOf s = critical)))
          (eventType event) = true)
    by (destruct (eventType event); vm_compute; reflexivity).
  apply (reported_spec _ _ _ _ Hok Htally) in Hs.
  apply andb_prop in Hs as [Hs H3]. apply andb_prop in Hs as [H1 H2].
  refine (conj _ (conj _ _)); intros H.
  - apply (bool_decide_eq_true_2 _) in H. rewrite H in H1.
    now apply bool_decide_eq_true in H1.
  - apply (bool_decide_eq_true_2 _) in H. rewrite H in H2.
    now apply bool_decide_eq_true in H2.
  - apply (bool_decide_eq_true_2 _) in H. rewrite H in H3.
    now apply bool_decide_eq_true in H3.
Qed.

Lemma processTelemetry_default_verdict_witness :
  let rs := (processTelemetry None (snapEvent "p" "s" "l" "m" 0) None
               (freshWorld 1 fastClock)).1 in
  In snapResult rs /\
  recommendedAction snapResult = defaultAction (confidence snapResult) /\
  (severity snapResult = medium -> recommendedAction snapResult = flag) /\
  (severity snapResult = critical -> recommendedAction snapResult <> flag) /\
  (recommendedAction snapResult = permanent_ban -> severity snapResult = critical).
Proof.
  cbv zeta.
  assert (Hin : In snapResult
                  (processTelemetry None (snapEvent "p" "s" "l" "m" 0) None
                     (freshWorld 1 fastClock)).1)
    by (vm_compute; now left).
  split; [exact Hin |].
  exact (processTelemetry_default_verdict None _ _ _ Hin).
Defined.



(** * Facts about binary64 numbers *)

Lemma SFcompare_antisym x y :
  SpecFloat.SFcompare y x = option_map CompOpp (SpecFloat.SFcompare x y).
Proof.
  destruct x as [sx | sx | | sx mx ex], y as [sy | sy | | sy my ey]; cbn;
    try reflexivity; try (destruct sx; reflexivity); try (destruct sy; reflexivity);
    try (destruct sx, sy; reflexivity).
  f_equal. rewrite (Z.compare_antisym ey ex).
  pose proof (Pos.compare_cont_antisym my mx Eq) as H. cbn [CompOpp] in H.
  destruct sx, sy; cbn; try reflexivity;
    destruct (ey ?= ex)%Z; cbn; try reflexivity; rewrite <- H;
    now rewrite ?CompOpp_involutive.
Qed.

Lemma float_ltb_asym a b : PrimFloat.ltb a b = true -> PrimFloat.ltb b a = false.
Proof.
  rewrite !FloatAxioms.ltb_spec. unfold SpecFloat.SFltb.
  rewrite (SFcompare_antisym (FloatOps.Prim2SF a)).
  now destruct (SpecFloat.SFcompare (FloatOps.Prim2SF a) (FloatOps.Prim2SF b)) as [[] |].
Qed.

Lemma SFcompare_refl x : x <> SpecFloat.S754_nan -> SpecFloat.SFcompare x x = Some Eq.
Proof.
  destruct x as [s | s | | s m e]; cbn; try congruence.
  - now destruct s.
  - intros _. rewrite Z.compare_refl, Pos.compare_cont_refl. now destruct s.
Qed.

Lemma float_ltb_nan a b : PrimFloat.is_nan b = true -> PrimFloat.ltb a b = false.
Proof.
  unfold PrimFloat.is_nan. rewrite FloatAxioms.eqb_spec, FloatAxioms.ltb_spec.
  unfold SpecFloat.SFeqb, SpecFloat.SFltb.
  destruct (FloatOps.Prim2SF b) as [s | s | | s m e] eqn:E.
  - rewrite SFcompare_refl; [discriminate | congruence].
  - rewrite SFcompare_refl; [discriminate | congruence].
  - intros _. now destruct (FloatOps.Prim2SF a).
  - rewrite SFcompare_refl; [discriminate | congruence].
Qed.

Lemma SFmul_comm prec emax x y :
  SpecFloat.SFmul prec emax x y = SpecFloat.SFmul prec emax y x.
Proof.
  destruct x as [sx | sx | | sx mx ex], y as [sy | sy | | sy my ey]; cbn;
    try reflexivity; try (now rewrite xorb_comm).
  now rewrite xorb_comm, Pos.mul_comm, Z.add_comm.
Qed.

Lemma float_mul_comm a b : (a * b = b * a)%float.
Proof.
  apply FloatAxioms.Prim2SF_inj. rewrite !FloatAxioms.mul_spec. apply SFmul_comm.
Qed.

Lemma Math_min_capped a b :
  PrimFloat.ltb b b = false -> JS.gt (JS.Math_min a b) b = false.
Proof.
  intros Hb. unfold JS.gt, JS.Math_min.
  destruct (PrimFloat.is_nan a) eqn:Ha; [now apply float_ltb_nan |].
  destruct (PrimFloat.is_nan b) eqn:Hnb; [assumption |].
  destruct (PrimFloat.ltb a b) eqn:Hab; [now apply float_ltb_asym |].
  destruct (PrimFloat.ltb b a) eqn:Hba; [assumption |].
  now destruct (PrimFloat.get_sign a).
Qed.

(** * The exported helpers *)

(** X16. The risk figure is capped: for every baseline and every base
    confidence, NaN and the infinities included,
    [calculateRiskEscalation] never returns a number above 100. *)
Theorem calculateRiskEscalation_capped baseline baseConfidence :
  JS.gt (calculateRiskEscalation baseline baseConfidence) 100 = false.
Proof. unfold calculateRiskEscalation. now apply Math_min_capped. Qed.

Lemma pearsonStep_swap x y meanX meanY acc i :
  pearsonStep y x meanY meanX (swap23 acc) i = swap23 (pearsonStep x y meanX meanY acc i).
Proof.
  destruct acc as [[num denomX] denomY]. cbn [pearsonStep swap23].
  now rewrite (float_mul_comm (nth i y nan - meanY) (nth i x nan - meanX)).
Qed.

Lemma pearsonLoop_swap x y meanX meanY l acc :
  fold_left (pearsonStep y x meanY meanX) l (swap23 acc)
    = swap23 (fold_left (pearsonStep x y meanX meanY) l acc).
Proof.
  revert acc. induction l as [| i l IH]; intros acc; [reflexivity |].
  cbn [fold_left]. now rewrite pearsonStep_swap, IH.
Qed.

(** X17. [pearsonCorrelation] is symmetric in its two series, to the last
    bit of the result. *)
Theorem pearsonCorrelation_symmetric x y :
  pearsonCorrelation x y = pearsonCorrelation y x.
Proof.
  unfold pearsonCorrelation. rewrite (Nat.min_comm (length y) (length x)).
  destruct (Nat.min (length x) (length y) <? 3)%nat; [reflexivity |].
  change (0%float, 0%float, 0%float) with (swap23 (0%float, 0%float, 0%float)) at 2.
  rewrite pearsonLoop_swap.
  destruct (fold_left _ _ _) as [[num denomX] denomY]. cbn [swap23].
  now rewrite (float_mul_comm denomY denomX).
Qed.

Lemma fold_left_ext_in {A B} (f g : A -> B -> A) (l : list B) :
  (forall i, In i l -> forall acc, f acc i = g acc i) ->
  forall acc, fold_left f l acc = fold_left g l acc.
Proof.
  induction l as [| i l IH]; intros Hfg acc; [reflexivity |].
  cbn [fold_left]. rewrite (Hfg i (or_introl eq_refl)).
  apply IH. intros j Hj. apply Hfg. now right.
Qed.

Lemma nth_firstn_lt {A} (l : list A) (d : A) n i :
  (i < n)%nat -> nth i (firstn n l) d = nth i l d.
Proof.
  revert l i. induction n as [| n IH]; intros l i Hi; [lia |].
  destruct l as [| a l]; [reflexivity |]. destruct i as [| i]; [reflexivity |].
  cbn. apply IH. lia.
Qed.

(** X18. [pearsonCorrelation] reads the series up to the length of the
    shorter one only: the values of the longer series beyond it do not
    change the result, and with fewer than three pairs the result is 0. *)
Theorem pearsonCorrelation_paired x y :
  let n := Nat.min (length x) (length y) in
  pearsonCorrelation x y = pearsonCorrelation (firstn n x) (firstn n y) /\
  ((n < 3)%nat -> pearsonCorrelation x y = 0%float).
Proof.
  cbv zeta. split.
  - unfold pearsonCorrelation. rewrite !length_firstn.
    set (n := Nat.min (length x) (length y)).
    replace (Nat.min (Nat.min n (length x)) (Nat.min n (length y))) with n by lia.
    destruct (n <? 3)%nat; [reflexivity |].
    rewrite !firstn_firstn, Nat.min_id.
    rewrite (fold_left_ext_in
               (pearsonStep (firstn n x) (firstn n y) (calculateMean (firstn n x))
                  (calculateMean (firstn n y)))
               (pearsonStep x y (calculateMean (firstn n x)) (calculateMean (firstn n y))));
      [reflexivity |].
    intros i Hi [[num denomX] denomY]. apply in_seq in Hi. cbn [pearsonStep].
    now rewrite !nth_firstn_lt by lia.
  - intros Hn. unfold pearsonCorrelation.
    now rewrite (proj2 (Nat.ltb_lt _ _) Hn).
Qed.

(** * The readiness token *)

(** Only the lowest bit of the token is ever read. *)
Section Readiness.

Variables (config : option SentinelConfig) (w w' : World).
Hypothesis Hready : pipelineReady (pipelineToken w') = pipelineReady (pipelineToken w).

Lemma deviatesFromBaseline_readiness v profile :
  deviatesFromBaseline v profile config w' = deviatesFromBaseline v profile config w.
Proof. unfold deviatesFromBaseline. now rewrite Hready. Qed.

Lemma resolveAction_readiness c :
  resolveAction c config w' = resolveAction c config w.
Proof. unfold resolveAction. now rewrite Hready. Qed.

Ltac ready_check :=
  intros;
  repeat match goal with
         | |- context [match ?x with Some _ => _ | None => _ end] => destruct x
         end;
  repeat match goal with
         | |- context [pushMetric ?n ?v ?c ?t] => destruct (pushMetric n v c t) as [? ?]
         end;
  rewrite ?deviatesFromBaseline_readiness; reflexivity.

Lemma shape_tally_readiness ty d b :
  ds_tally (shapeFor ty) d config w' b = ds_tally (shapeFor ty) d config w b.
Proof.
  destruct ty; cbn [shapeFor ds_tally aimShape inputShape packetsShape statsShape
                    behaviorShape].
  - assert (H1 : forall t, Aim.check1 (asAim d) config w' t = Aim.check1 (asAim d) config w t)
      by (unfold Aim.check1; ready_check).
    assert (H2 : forall t, Aim.check2 (asAim d) config w' t = Aim.check2 (asAim d) config w t)
      by (unfold Aim.check2; ready_check).
    unfold Aim.tally. cbv zeta. now rewrite H1, H2.
  - assert (H1 : forall t, Input.check1 (asInput d) config w' t
                           = Input.check1 (asInput d) config w t)
      by (unfold Input.check1; ready_check).
    unfold Input.tally. cbv zeta. now rewrite H1.
  - assert (H1 : forall t, Packets.check1 (asPacket d) config w' t
                           = Packets.check1 (asPacket d) config w t)
      by (unfold Packets.check1; ready_check).
    unfold Packets.tally. cbv zeta. now rewrite H1.
  - assert (H1 : forall t, Stats.check1 (asStats d) config w' t
                           = Stats.check1 (asStats d) config w t)
      by (unfold Stats.check1; ready_check).
    unfold Stats.tally. cbv zeta. now rewrite H1.
  - assert (H1 : forall t, Behavior.check1 (asBehavior d) config w' t
                           = Behavior.check1 (asBehavior d) config w t)
      by (unfold Behavior.check1; ready_check).
    unfold Behavior.tally. cbv zeta. now rewrite H1.
Qed.

End Readiness.

Lemma getOrCreateBaseline_retoken token player config w :
  getOrCreateBaseline player config (setToken token w)
    = retoken token (getOrCreateBaseline player config w).
Proof.
  unfold getOrCreateBaseline, retoken. cbn [setToken playerBaselines].
  now destruct (playerBaselines w !! player).
Qed.

Lemma detectorFor_retoken token ty event config w :
  pipelineReady token = pipelineReady (pipelineToken w) ->
  detectorFor ty event config (setToken token w)
    = retoken token (detectorFor ty event config w).
Proof.
  intros Hready. rewrite !detectorFor_shape. unfold runShape.
  destruct (negb (TelemetryEventType_eqb (eventType event) (ds_type (shapeFor ty))));
    [reflexivity |].
  rewrite getOrCreateBaseline_retoken. unfold retoken at 1.
  destruct (getOrCreateBaseline_frame (playerId event) config w) as (Htoken & _).
  destruct (getOrCreateBaseline (playerId event) config w) as [b0 w0].
  cbn [fst snd] in *.
  rewrite (shape_tally_readiness config w0 (setToken token w0))
    by (cbn [setToken pipelineToken]; now rewrite Htoken).
  destruct (ds_tally (shapeFor ty) (data event) config w0 b0) as [co t].
  destruct (JS.lt (t_score t) 40); [reflexivity |].
  unfold recordDetection, profileLength, retoken. cbn [Date_now setToken fst snd clock ticks].
  destruct (getMetricProfile _ _ _) as [p b2]. cbn [fst snd].
  f_equal. f_equal. f_equal. apply resolveAction_readiness.
  cbn. now rewrite Htoken.
Qed.

Lemma processTelemetry_retoken token event config w :
  pipelineReady token = pipelineReady (pipelineToken w) ->
  processTelemetry None event config (setToken token w)
    = retoken token (processTelemetry None event config w).
Proof.
  intros Hready.
  rewrite (surjective_pairing (processTelemetry None event config (setToken token w))).
  rewrite processTelemetry_results, processTelemetry_state.
  unfold retoken. rewrite processTelemetry_results, processTelemetry_state.
  cbn [setToken pipelineToken]. rewrite Hready.
  destruct (pipelineReady (pipelineToken w)) eqn:ready; [| reflexivity].
  rewrite <- ready in Hready.
  now rewrite (detectorFor_retoken _ _ _ _ _ Hready).
Qed.

Lemma processTelemetry_token event config w :
  pipelineToken (processTelemetry None event config w).2 = pipelineToken w.
Proof.
  rewrite processTelemetry_state.
  destruct (pipelineReady (pipelineToken w)); [| reflexivity].
  now destruct (detectorFor_frame (eventType event) event config w) as (Ht & _).
Qed.

Lemma replay_retoken token config events w :
  pipelineReady token = pipelineReady (pipelineToken w) ->
  replay None config events (setToken token w)
    = retoken token (replay None config events w).
Proof.
  revert w. induction events as [| e events IH]; intros w Hready; [reflexivity |].
  rewrite (surjective_pairing (replay None config (e :: events) (setToken token w))).
  rewrite !replay_cons. unfold retoken. cbn [fst snd].
  rewrite (processTelemetry_retoken _ _ _ _ Hready). unfold retoken. cbn [fst snd].
  rewrite IH by now rewrite processTelemetry_token.
  reflexivity.
Qed.

(** X19. Detection does not depend on how the start-up beacon call ended.
    Once [_initLicenseSubsystem] has settled the engine is ready, whether
    the call threw, got no response or got one; and a replay of any events
    (without observer) returns the same results and leaves the same
    baselines after each of the three outcomes. *)
Theorem initLicenseSubsystem_outcome_irrelevant outcome outcome' config events w :
  let w1 := _initLicenseSubsystem outcome w in
  let w2 := _initLicenseSubsystem outcome' w in
  pipelineReady (getPipelineState w1) = true /\
  (replay None config events w1).1 = (replay None config events w2).1 /\
  playerBaselines (replay None config events w1).2
    = playerBaselines (replay None config events w2).2.
Proof.
  cbv zeta.
  assert (H : forall o, exists token,
             pipelineReady token = true /\ _initLicenseSubsystem o w = setToken token w).
  { intros []; [exists 1 | exists 1 | exists 3]; split; reflexivity. }
  destruct (H outcome) as (t1 & Hr1 & ->). destruct (H outcome') as (t2 & Hr2 & ->).
  split; [exact Hr1 |].
  change (setToken t2 w) with (setToken t2 (setToken t1 w)).
  rewrite (replay_retoken t2 config events (setToken t1 w)) by now rewrite Hr2.
  split; reflexivity.
Qed.

(** * Players and history *)

(** X20. A replay (without observer) of events none of which is about
    player [q] leaves the stored baseline of [q] exactly as it was,
    present or absent. *)
Theorem replay_player_isolation config events w q :
  (forall e, In e events -> playerId e <> q) ->
  playerBaselines (replay None config events w).2 !! q = playerBaselines w !! q.
Proof.
  revert w. induction events as [| e events IH]; intros w Hq; [reflexivity |].
  rewrite replay_cons. cbn [snd]. rewrite IH by (intros e' He'; apply Hq; now right).
  rewrite processTelemetry_state.
  destruct (pipelineReady (pipelineToken w)); [| reflexivity].
  destruct (detectorFor_frame (eventType e) e config w) as (_ & _ & _ & _ & Hframe).
  apply Hframe. intros Heq. exact (Hq e (or_introl eq_refl) (eq_sym Heq)).
Qed.

Lemma replay_player_isolation_witness :
  let w := mkWorld 1 {["q" := mkBaseline "q" 0 0 ∅ [mkTD "AimAnalysis" 0.55 1]]}
             fastClock 0 [] in
  playerBaselines (replay None None replayedEvents w).2 !! "q" = playerBaselines w !! "q".
Proof.
  cbv zeta. apply replay_player_isolation.
  intros e He. vm_compute in He.
  repeat (destruct He as [<- | He]; [discriminate |]). destruct He.
Defined.

Lemma crossSignal_correlation t :
  (crossSignal t).1 = calculateCrossSignalBonus (t_baseline (crossSignal t).2).
Proof.
  unfold crossSignal. now destruct (JS.gt (bonus (calculateCrossSignalBonus (t_baseline t))) 0).
Qed.

Lemma shape_tally_correlation ty d config w b :
  (ds_tally (shapeFor ty) d config w b).1
    = calculateCrossSignalBonus (t_baseline (ds_tally (shapeFor ty) d config w b).2).
Proof. destruct ty; apply crossSignal_correlation. Qed.

Lemma correlatedModules_recent baseline m :
  In m (correlatedModules (calculateCrossSignalBonus baseline)) ->
  exists d, In d (recentDetections baseline) /\ td_module d = m.
Proof.
  intros Hin.
  assert (Hm : In m (map td_module (recentDetections baseline))).
  { destruct (calculateCrossSignalBonus_cases baseline) as [H | [[H _] | [H _]]];
      rewrite H in Hin; cbn [correlatedModules] in Hin; [destruct Hin | |];
      apply list_elem_of_In in Hin; unfold unique in Hin;
      apply elem_of_uniqueFrom in Hin as [Hin _]; now apply list_elem_of_In. }
  apply in_map_iff in Hm as (d & Hd & Hin'). now exists d.
Qed.

(** X21. The modules a result names as cross-signal correlation come from
    the player's history only: each of them has a detection that was
    already stored for the player before the event was processed and is
    younger than the correlation window.  The detection being reported is
    not counted, and a player seen for the first time has none. *)
Theorem processTelemetry_correlation_history callback event config w r m :
  In r (processTelemetry callback event config w).1 ->
  In m (crossSignalCorrelation (evidence r)) ->
  exists b0 d,
    playerBaselines w !! playerId event = Some b0 /\
    In d (recentDetections b0) /\ td_module d = m /\
    clock w (ticks w) - correlationWindowMs (orDefault config) < td_timestamp d.
Proof.
  rewrite processTelemetry_results.
  destruct (pipelineReady (pipelineToken w)); [| intros []].
  destruct (detectorFor_cases (eventType event) event config w eq_refl)
    as [[_ H] | [_ H]]; rewrite H; cbn [fst resultList]; [intros [] |].
  intros [<- | []].
  match goal with
  | |- context [ds_result ?s ?d ?sc ?cf ?fl ?n ?co ?a] =>
      pose proof (shape_result_fields (eventType event) d sc cf fl n co a) as Hf
  end.
  cbv zeta in Hf. destruct Hf as (_ & _ & _ & _ & _ & _ & _ & _ & Hco & _).
  rewrite Hco, shape_tally_correlation. intros Hin.
  apply correlatedModules_recent in Hin as (d & Hd & Hm).
  pose proof (shape_tally_tracked (eventType event) (data event) config
                (getOrCreateBaseline (playerId event) config w).2
                (getOrCreateBaseline (playerId event) config w).1) as Htr.
  apply trackedIn_frame in Htr as (_ & _ & _ & Hrd & _). rewrite Hrd in Hd.
  destruct (playerBaselines w !! playerId event) as [b0 |] eqn:Hl.
  - rewrite (getOrCreateBaseline_existing _ _ _ _ Hl) in Hd. cbn [fst recentDetections] in Hd.
    apply filter_In in Hd as [Hd Hcut]. rewrite Z.gtb_ltb, Z.ltb_lt in Hcut.
    exists b0, d. auto.
  - rewrite (getOrCreateBaseline_fresh _ _ _ Hl) in Hd. destruct Hd.
Qed.

Lemma processTelemetry_correlation_history_witness :
  let w := mkWorld 1 {["p" := mkBaseline "p" 0 0 ∅
                               [mkTD "InputAnalysis" 0.55 1; mkTD "PacketAnalysis" 0.6 2]]}
             fastClock 0 [] in
  exists b0 d,
    playerBaselines w !! "p" = Some b0 /\
    In d (recentDetections b0) /\ td_module d = "InputAnalysis" /\
    clock w (ticks w) - correlationWindowMs DEFAULT_CONFIG < td_timestamp d.
Proof.
  cbv zeta.
  eapply (processTelemetry_correlation_history None (snapEvent "p" "s" "l" "m" 0) None).
  - vm_compute. left. reflexivity.
  - vm_compute. left. reflexivity.
Defined.

(** * The observer *)

Lemma dispatch_observed event config callback tys run :
  List.NoDup tys -> In (eventType event) tys ->
  world (dispatch (map moduleOf tys) callback event config run)
    = observed callback (moduleFor (eventType event)) event
        (detectorFor (eventType event) event config (world run)).
Proof.
  revert run. induction tys as [| ty tys IH]; intros run Hnd Hin; [destruct Hin |].
  inversion Hnd as [| ? ? Hnotin Hnd']; subst.
  cbn [map dispatch]. rewrite handler_moduleOf.
  destruct (TelemetryEventType_eqb (eventType event) ty) eqn:E.
  - apply TelemetryEventType_eqb_eq in E. subst ty. unfold observed.
    destruct (detectorFor (eventType event) event config (world run)) as [[r |] w1] eqn:Hrun;
      cbn [fst snd].
    + destruct (detectorFor_result _ _ _ _ _ _ Hrun) as (_ & Hd & _). rewrite Hd.
      destruct callback as [cb |].
      * destruct (cb r event w1) as [[[] | err] w2];
          now rewrite dispatch_skip by assumption.
      * now rewrite dispatch_skip by assumption.
    + now rewrite dispatch_skip by assumption.
  - assert (Hne : eventType event <> ty).
    { intros Heq. apply TelemetryEventType_eqb_eq in Heq. congruence. }
    rewrite detectorFor_mismatch by assumption. cbn [fst snd].
    destruct Hin as [Heq | Hin]; [congruence |].
    apply (IH (mkRun (results run) (world run) (invoked run ++ [name (moduleOf ty)]))
              Hnd' Hin).
Qed.


(** * Identity of the stored baselines *)

Lemma sameIdentity_refl b : sameIdentity b b.
Proof. repeat split. Qed.

Lemma sameIdentity_trans b1 b2 b3 :
  sameIdentity b1 b2 -> sameIdentity b2 b3 -> sameIdentity b1 b3.
Proof. intros (? & ? & ?) (? & ? & ?). repeat split; congruence. Qed.

Lemma storeGrows_refl w : storeGrows w w.
Proof.
  split.
  - intros q b0 H. exists b0. split; [assumption | apply sameIdentity_refl].
  - intros q b H1 H2. congruence.
Qed.

Lemma storeGrows_trans w1 w2 w3 : storeGrows w1 w2 -> storeGrows w2 w3 -> storeGrows w1 w3.
Proof.
  intros [Ha Hb] [Ga Gb]. split.
  - intros q b0 H. destruct (Ha q b0 H) as (b1 & H1 & I1).
    destruct (Ga q b1 H1) as (b2 & H2 & I2). exists b2.
    split; [assumption | now apply (sameIdentity_trans _ b1)].
  - intros q b Hnone Hsome.
    destruct (playerBaselines w2 !! q) as [b1 |] eqn:Hmid.
    + destruct (Hb q b1 Hnone Hmid) as [Hid Hcount].
      destruct (Ga q b1 Hmid) as (b2 & H2 & (I1 & _ & I3)).
      rewrite H2 in Hsome. injection Hsome as <-. split; congruence.
    + now apply Gb.
Qed.

Lemma profileLength_identity b metricName config :
  sameIdentity (profileLength b metricName config).2 b.
Proof.
  unfold profileLength, getMetricProfile.
  destruct (metrics b !! metricName); repeat split.
Qed.

Lemma getOrCreateBaseline_identity player config w :
  let b := (getOrCreateBaseline player config w).1 in
  match playerBaselines w !! player with
  | Some b0 => sameIdentity b b0
  | None => bl_playerId b = player /\ eventCount b = 0
  end.
Proof.
  cbv zeta. destruct (playerBaselines w !! player) as [b0 |] eqn:Hl.
  - rewrite (getOrCreateBaseline_existing _ _ _ _ Hl). repeat split.
  - rewrite (getOrCreateBaseline_fresh _ _ _ Hl). now split.
Qed.

Lemma detectorFor_entry ty event config w :
  eventType event = ty ->
  exists b,
    playerBaselines (detectorFor ty event config w).2 !! playerId event = Some b /\
    sameIdentity b (getOrCreateBaseline (playerId event) config w).1.
Proof.
  intros E.
  pose proof (shape_tally_tracked ty (data event) config
                (getOrCreateBaseline (playerId event) config w).2
                (getOrCreateBaseline (playerId event) config w).1) as Htr.
  apply trackedIn_frame in Htr as (H1 & H2 & H3 & _).
  destruct (detectorFor_cases ty event config w E) as [[_ H] | [_ H]];
    rewrite H; cbn [snd]; eexists; (split; [apply commit_lookup |]).
  - now repeat split.
  - eapply sameIdentity_trans; [apply profileLength_identity |].
    repeat split; cbn; assumption.
Qed.

Lemma detectorFor_grows ty event config w :
  storeGrows w (detectorFor ty event config w).2.
Proof.
  destruct (TelemetryEventType_eqb (eventType event) ty) eqn:E.
  - apply TelemetryEventType_eqb_eq in E.
    destruct (detectorFor_frame ty event config w) as (_ & _ & _ & _ & Hframe).
    destruct (detectorFor_entry ty event config w E) as (b & Hb & Hid).
    pose proof (getOrCreateBaseline_identity (playerId event) config w) as Hnew.
    cbv zeta in Hnew. split.
    + intros q b0 Hq. destruct (decide (q = playerId event)) as [-> | Hne].
      * rewrite Hq in Hnew. exists b. split; [assumption |].
        now apply (sameIdentity_trans _ _ _ Hid).
      * exists b0. rewrite Hframe by assumption. split; [assumption | apply sameIdentity_refl].
    + intros q b' Hnone Hsome. destruct (decide (q = playerId event)) as [-> | Hne].
      * rewrite Hnone in Hnew. rewrite Hb in Hsome. injection Hsome as <-.
        destruct Hid as (I1 & _ & I3), Hnew as [N1 N2]. split; congruence.
      * rewrite Hframe in Hsome by assumption. congruence.
  - rewrite detectorFor_mismatch; [apply storeGrows_refl |].
    intros Heq. apply TelemetryEventType_eqb_eq in Heq. congruence.
Qed.

Lemma replay_grows config events w : storeGrows w (replay None config events w).2.
Proof.
  revert w. induction events as [| e events IH]; intros w; [apply storeGrows_refl |].
  rewrite replay_cons. cbn [snd].
  eapply storeGrows_trans; [| apply IH].
  rewrite processTelemetry_state.
  destruct (pipelineReady (pipelineToken w)); [apply detectorFor_grows | apply storeGrows_refl].
Qed.

(** X23. Over any replay of events (without observer) no baseline is ever
    evicted, and a stored baseline keeps its player id, its creation time
    and its event count; a baseline created on the way is stored under its
    own player id with event count 0.  In particular the event count of a
    baseline is never incremented. *)
Theorem replay_baseline_identity config events w :
  let w' := (replay None config events w).2 in
  (forall q b0, playerBaselines w !! q = Some b0 ->
     exists b, playerBaselines w' !! q = Some b /\
               bl_playerId b = bl_playerId b0 /\ createdAt b = createdAt b0 /\
               eventCount b = eventCount b0) /\
  (forall q b, playerBaselines w !! q = None -> playerBaselines w' !! q = Some b ->
     bl_playerId b = q /\ eventCount b = 0).
Proof. exact (replay_grows config events w). Qed.
